(** * bbpy: the session cache and the aggregation logic of the Blackboard client

    A shallow embedding of [bbpy/auth.py] and [bbpy/client.py]:
    - Python strings are [string]s, with the builtins [in], [split], [lower]
      written out;
    - decoded JSON (server responses, the [.id] cache file) is the tree
      [json], a dict being an association list in insertion order;
    - the transport and the cache file live in a [world] threaded through a
      state-and-exception monad [M];
    - Python floats are binary64 primitive floats. *)

From Stdlib Require Import ZArith String Ascii List PrimFloat FloatOps SpecFloat.
From stdpp Require Import base option gmap strings list.


(** ** Strings *)

Module Str.

Fixpoint take (n : nat) (s : string) : string :=
  match n, s with
  | S k, String c s' => String c (take k s')
  | _, _ => EmptyString
  end.

Fixpoint drop (n : nat) (s : string) : string :=
  match n, s with
  | S k, String _ s' => drop k s'
  | _, _ => s
  end.

(** [s.startswith(sep)] *)
Fixpoint starts_with (sep s : string) : bool :=
  match sep with
  | EmptyString => true
  | String a sep' =>
      match s with
      | EmptyString => false
      | String b s' => Ascii.eqb a b && starts_with sep' s'
      end
  end.

(** [s.find(sep)]: the offset of the leftmost occurrence. *)
Fixpoint find (sep s : string) : option nat :=
  if starts_with sep s then Some 0
  else match s with
       | EmptyString => None
       | String _ s' => S <$> find sep s'
       end.

(** [sep in s] *)
Definition contains (sep s : string) : bool :=
  match find sep s with Some _ => true | None => false end.

(** [s.split(sep)] for a non-empty [sep]: cut at the leftmost occurrence and
    go on in what follows it. Every round drops at least one character, so
    [length s] rounds are enough (see [split_unfold]). *)
Fixpoint split_fuel (fuel : nat) (sep s : string) : list string :=
  match fuel with
  | O => [s]
  | S f =>
      match find sep s with
      | None => [s]
      | Some i => take i s :: split_fuel f sep (drop (i + String.length sep) s)
      end
  end.

Definition split (sep s : string) : list string :=
  split_fuel (String.length s) sep s.

(** [s.lower()] and [s.upper()] on the ASCII letters. A string is its UTF-8
    bytes, and no byte of a character outside ASCII is touched. The code
    compares [s.lower()] with "present", "late", "excused" and "absent" only,
    and there this agrees with Python: the one character outside ASCII whose
    lower case is an ASCII letter is the Kelvin sign, for k. *)
Definition lower_ascii (c : ascii) : ascii :=
  let n := nat_of_ascii c in
  if (65 <=? n)%nat && (n <=? 90)%nat then ascii_of_nat (n + 32) else c.

Definition upper_ascii (c : ascii) : ascii :=
  let n := nat_of_ascii c in
  if (97 <=? n)%nat && (n <=? 122)%nat then ascii_of_nat (n - 32) else c.

Fixpoint map (f : ascii -> ascii) (s : string) : string :=
  match s with
  | EmptyString => EmptyString
  | String c s' => String (f c) (map f s')
  end.

Definition lower : string -> string := map lower_ascii.
Definition upper : string -> string := map upper_ascii.

End Str.

(** [parts[0]], [parts[-1]] of a list that [split] returned. *)
Definition first_part (parts : list string) : string := hd "" parts.
Definition last_part (parts : list string) : string := List.last parts "".

(** ** auth.py: [parse_course_info] *)

Record course_info := {
  ci_name : string;
  ci_course_id : string;
  ci_class_name : option string
}.

Definition parse_course_info (course_name course_id : string) : course_info :=
  let '(clean_name, class_name) :=
    if Str.contains "__" course_name then
      let parts := Str.split "__" course_name in
      (first_part parts,
       if (1 <? length parts)%nat then parts !! 1%nat else None)
    else (course_name, None) in
  let clean_id :=
    if Str.contains "__" course_id
    then first_part (Str.split "__" course_id)
    else course_id in
  {| ci_name := clean_name; ci_course_id := clean_id; ci_class_name := class_name |}.

(** What splitting on the first occurrence only would give. *)
Definition before_first (sep s : string) : string :=
  match Str.find sep s with
  | Some i => Str.take i s
  | None => s
  end.

Definition after_first (sep s : string) : option string :=
  match Str.find sep s with
  | Some i => Some (Str.drop (i + String.length sep) s)
  | None => None
  end.

Definition splits_on_first_occurrence (course_name course_id : string) : Prop :=
  let r := parse_course_info course_name course_id in
  ci_name r = before_first "__" course_name
  /\ ci_course_id r = before_first "__" course_id
  /\ ci_class_name r = after_first "__" course_name.

(** ** Python values

    What [json.load] and [response.json()] return, and what the code passes
    around: [None], [bool], [int], [float], [str], [list] and [dict]. A dict
    keeps its keys in insertion order, each key once. *)

#[warnings="-register-all"]
Inductive json :=
| JNull
| JBool (b : bool)
| JInt (z : Z)
| JFloat (f : float)
| JStr (s : string)
| JArr (l : list json)
| JObj (d : list (string * json)).

(** [d.get(k)] on the entries of a dict. *)
Fixpoint dict_get (k : string) (d : list (string * json)) : option json :=
  match d with
  | [] => None
  | (k', v) :: d' => if String.eqb k k' then Some v else dict_get k d'
  end.

(** [d[k] = v]: an existing key keeps its place, a new key goes last. *)
Fixpoint dict_set (k : string) (v : json) (d : list (string * json)) : list (string * json) :=
  match d with
  | [] => [(k, v)]
  | (k', v') :: d' =>
      if String.eqb k k' then (k', v) :: d' else (k', v') :: dict_set k v d'
  end.

(** [bool(v)] *)
Definition truthy (v : json) : bool :=
  match v with
  | JNull => false
  | JBool b => b
  | JInt z => negb (z =? 0)%Z
  | JFloat f => negb (PrimFloat.eqb f 0%float)
  | JStr s => negb (String.eqb s "")
  | JArr l => match l with [] => false | _ => true end
  | JObj d => match d with [] => false | _ => true end
  end.

(** [v == 0]: an int or a float that is zero, and [False]. *)
Definition eq_zero (v : json) : bool :=
  match v with
  | JInt z => (z =? 0)%Z
  | JFloat f => PrimFloat.eqb f 0%float
  | JBool b => negb b
  | _ => false
  end.

(** [v == "lit"] for a string literal. *)
Definition eq_str (v : json) (lit : string) : bool :=
  match v with
  | JStr s => String.eqb s lit
  | _ => false
  end.

(** ** Exceptions and the monad *)

Inductive exn :=
| BBAPIError (message : string) (status_code : option Z) (response : option string)
| BBAuthError (msg : string)
| AttributeError
| TypeError
| FileNotFoundError
| JSONDecodeError
| LoopFuel.  (* never raised: see [paginated_fuel_free], [paginated_v2_fuel_free] *)

Inductive outcome (A : Type) :=
| Ok (a : A)
| Raise (e : exn).
Arguments Ok {A} a.
Arguments Raise {A} e.

(** The transport: what [session.get] meets, call after call. A reply carries
    the status code, the decoded body and the raw text; the other case is a
    [requests.RequestException]. *)
Record reply := { status_code : Z; body : json; text : string }.

Inductive transport :=
| Response (r : reply)
| RequestException (e : string).

Record request := { url : string; query : gmap string string }.

(** The cache file on disk. *)
Inductive file :=
| Missing
| Malformed
| Content (j : json).

(** The world the client runs in: the replies still to come (when they run
    out the connection is down and every call ends in [connection_down]),
    the requests sent so far, oldest first, and the files. *)
Record world := {
  script : list transport;
  sent : list request;
  fs : string -> file
}.

Definition M (A : Type) : Type := world -> outcome A * world.

Definition ret {A} (a : A) : M A := fun w => (Ok a, w).

Definition bind {A B} (m : M A) (f : A -> M B) : M B := fun w =>
  match m w with
  | (Ok a, w') => f a w'
  | (Raise e, w') => (Raise e, w')
  end.

Notation "x <- m ;; k" := (bind m (fun x => k))
  (at level 100, m at next level, right associativity).
Notation "m ;; k" := (bind m (fun _ => k))
  (at level 100, right associativity).

Definition raise {A} (e : exn) : M A := fun w => (Raise e, w).

(** A pure step that may raise. *)
Definition lift {A} (o : outcome A) : M A := fun w => (o, w).

(** [try: body / except BBAPIError: handler] *)
Definition except_api {A} (body handler : M A) : M A := fun w =>
  match body w with
  | (Raise (BBAPIError _ _ _), w') => handler w'
  | r => r
  end.

(** [try: body / except Exception: pass] *)
Definition except_pass (body : M unit) : M unit := fun w =>
  match body w with
  | (Raise _, w') => (Ok tt, w')
  | r => r
  end.

(** [for x in l: acc = body(acc, x)] *)
Fixpoint for_each {A B} (l : list A) (body : B -> A -> M B) (acc : B) : M B :=
  match l with
  | [] => ret acc
  | x :: l' => acc' <- body acc x ;; for_each l' body acc'
  end.

(** Sequencing of pure steps that may raise. *)
Definition obind {A B} (o : outcome A) (f : A -> outcome B) : outcome B :=
  match o with
  | Ok a => f a
  | Raise e => Raise e
  end.

Notation "x <~ o ;; k" := (obind o (fun x => k))
  (at level 100, o at next level, right associativity).

(** [v.get(k, default)]: only a dict has [get]. *)
Definition py_get (v : json) (k : string) (dflt : json) : outcome json :=
  match v with
  | JObj d => Ok (default dflt (dict_get k d))
  | _ => Raise AttributeError
  end.

(** The items [for x in v] and [list.extend(v)] run over: the elements of a
    list, the characters of a string, the keys of a dict. *)
Definition chars (s : string) : list json :=
  (fun c => JStr (String c "")) <$> list_ascii_of_string s.

Definition py_iter (v : json) : outcome (list json) :=
  match v with
  | JArr l => Ok l
  | JStr s => Ok (chars s)
  | JObj d => Ok ((fun kv => JStr kv.1) <$> d)
  | _ => Raise TypeError
  end.

(** ['lit' in v] for a string literal. *)
Definition py_contains (lit : string) (v : json) : outcome bool :=
  match v with
  | JStr s => Ok (Str.contains lit s)
  | JArr l => Ok (existsb (fun x => eq_str x lit) l)
  | JObj d => Ok (match dict_get lit d with Some _ => true | None => false end)
  | _ => Raise TypeError
  end.

(** [v[k] = x]: on a dict; a list, a string, a number and [None] refuse a
    string key. *)
Definition py_setitem (v : json) (k : string) (x : json) : outcome json :=
  match v with
  | JObj d => Ok (JObj (dict_set k x d))
  | _ => Raise TypeError
  end.

(** [x in text], [text] a string: the left operand has to be a string too. *)
Definition in_str (x : json) (text : string) : outcome bool :=
  match x with
  | JStr s => Ok (Str.contains s text)
  | _ => Raise TypeError
  end.

(** [v.split(...)], [v.lower()], [v.replace(...)]: only a string has them. *)
Definition py_string (v : json) : outcome string :=
  match v with
  | JStr s => Ok s
  | _ => Raise AttributeError
  end.

(** ** client.py: the client and its transport *)

Record client := {
  domain : string;
  user_id : json;               (* self._user_id *)
  cached_data : json;           (* self._cached_data, JNull for None *)
  id_path : option string       (* self._id_path *)
}.

Definition api_url (c : client) : string := domain c +:+ "/learn/api/public/v1".

Definition connection_down : transport := RequestException "connection down".

(** [self.session.get(url, params=params)] *)
Definition session_get (u : string) (params : gmap string string) : M transport := fun w =>
  let sent' := sent w ++ [{| url := u; query := params |}] in
  match script w with
  | [] => (Ok connection_down, {| script := []; sent := sent'; fs := fs w |})
  | t :: rest => (Ok t, {| script := rest; sent := sent'; fs := fs w |})
  end.

Definition _get (c : client) (endpoint : string) (params : gmap string string) : M json :=
  let url := api_url c +:+ endpoint in
  response <- session_get url params ;;
  match response with
  | Response r =>
      if (status_code r =? 200)%Z then ret (body r)
      else raise (BBAPIError ("API request failed: " +:+ endpoint)
                             (Some (status_code r)) (Some (text r)))
  | RequestException e => raise (BBAPIError ("Request error: " +:+ e) None None)
  end.

Definition _get_v2 (c : client) (endpoint : string) (params : gmap string string) : M json :=
  let url := domain c +:+ "/learn/api/public/v2" +:+ endpoint in
  response <- session_get url params ;;
  match response with
  | Response r =>
      if (status_code r =? 200)%Z then ret (body r)
      else raise (BBAPIError ("API v2 request failed: " +:+ endpoint)
                             (Some (status_code r)) (Some (text r)))
  | RequestException e => raise (BBAPIError ("Request error: " +:+ e) None None)
  end.

(** [next_page.split("offset=")[-1].split("&")[0]] *)
Definition next_offset (next_page : string) : string :=
  first_part (Str.split "&" (last_part (Str.split "offset=" next_page))).

(** The [while True] loop of [_get_paginated]. Each round sends one request,
    so it runs at most once more than there are replies to come. *)
Fixpoint _get_paginated_loop (fuel : nat) (c : client) (endpoint : string)
    (all_results : list json) (params : gmap string string) : M (list json) :=
  match fuel with
  | O => raise LoopFuel
  | S fuel' =>
      data <- _get c endpoint params ;;
      results <- lift (py_get data "results" (JArr [])) ;;
      items <- lift (py_iter results) ;;
      let all_results := all_results ++ items in
      paging <- lift (py_get data "paging" (JObj [])) ;;
      next_page <- lift (py_get paging "nextPage" JNull) ;;
      if negb (truthy next_page) then ret all_results
      else
        found <- lift (py_contains "offset=" next_page) ;;
        if found then
          s <- lift (py_string next_page) ;;
          let offset := next_offset s in
          _get_paginated_loop fuel' c endpoint all_results (<["offset" := offset]> params)
        else ret all_results
  end.

(** [params = params or {}] *)
Definition or_empty (params : option (gmap string string)) : gmap string string :=
  default ∅ params.

Definition _get_paginated (c : client) (endpoint : string)
    (params : option (gmap string string)) : M (list json) := fun w =>
  _get_paginated_loop (S (length (script w))) c endpoint [] (or_empty params) w.

Fixpoint _get_paginated_v2_loop (fuel : nat) (c : client) (endpoint : string)
    (all_results : list json) (params : gmap string string) : M (list json) :=
  match fuel with
  | O => raise LoopFuel
  | S fuel' =>
      data <- _get_v2 c endpoint params ;;
      results <- lift (py_get data "results" (JArr [])) ;;
      items <- lift (py_iter results) ;;
      let all_results := all_results ++ items in
      paging <- lift (py_get data "paging" (JObj [])) ;;
      next_page <- lift (py_get paging "nextPage" JNull) ;;
      if negb (truthy next_page) then ret all_results
      else
        found <- lift (py_contains "offset=" next_page) ;;
        if found then
          s <- lift (py_string next_page) ;;
          let offset := next_offset s in
          _get_paginated_v2_loop fuel' c endpoint all_results (<["offset" := offset]> params)
        else ret all_results
  end.

Definition _get_paginated_v2 (c : client) (endpoint : string)
    (params : option (gmap string string)) : M (list json) := fun w =>
  _get_paginated_v2_loop (S (length (script w))) c endpoint [] (or_empty params) w.

(** A page as the API documents it:
    [{"results": [...], "paging": {"nextPage": ...}}], the [paging] object
    empty on the last page. *)
Record page := { results : list json; next_page : option string }.

Definition page_body (p : page) : json :=
  JObj [("results", JArr (results p));
        ("paging", JObj match next_page p with
                        | Some s => [("nextPage", JStr s)]
                        | None => []
                        end)].

Definition page_reply (p : page) : transport :=
  Response {| status_code := 200; body := page_body p; text := "" |}.

(** The page a decoded body reads as: an object whose [results], when there,
    is a list, and whose [paging.nextPage], when there, is a string or null;
    other keys are free. *)
Definition page_of (data : json) : option page :=
  match data with
  | JObj d =>
      match default (JArr []) (dict_get "results" d) with
      | JArr items =>
          match default (JObj []) (dict_get "paging" d) with
          | JObj paging =>
              match default JNull (dict_get "nextPage" paging) with
              | JNull => Some {| results := items; next_page := None |}
              | JStr s => Some {| results := items; next_page := Some s |}
              | _ => None
              end
          | _ => None
          end
      | _ => None
      end
  | _ => None
  end.

(** The page a reply carries: a 200 whose body reads as a page. *)
Definition reply_page (t : transport) : option page :=
  match t with
  | Response r => if (status_code r =? 200)%Z then page_of (body r) else None
  | RequestException _ => None
  end.

(** The walker goes on after a page whose [nextPage] is a non-empty string
    with an [offset=] token, and stops after any other page. *)
Definition goes_on (p : page) : bool :=
  match next_page p with
  | Some s => negb (String.eqb s "") && Str.contains "offset=" s
  | None => false
  end.

(** The query of the request that follows a page. *)
Definition query_after (params : gmap string string) (p : page) : gmap string string :=
  match next_page p with
  | Some s => <["offset" := next_offset s]> params
  | None => params
  end.

(** What one round of either walker does with the decoded page it fetched:
    the results so far, and the query of the next request when there is one. *)
Definition after_page (data : json) (all_results : list json) (params : gmap string string)
  : outcome (list json * option (gmap string string)) :=
  match py_get data "results" (JArr []) with
  | Raise e => Raise e
  | Ok results =>
  match py_iter results with
  | Raise e => Raise e
  | Ok items =>
  match py_get data "paging" (JObj []) with
  | Raise e => Raise e
  | Ok paging =>
  match py_get paging "nextPage" JNull with
  | Raise e => Raise e
  | Ok next_page =>
      if negb (truthy next_page) then Ok (all_results ++ items, None)
      else match py_contains "offset=" next_page with
           | Raise e => Raise e
           | Ok false => Ok (all_results ++ items, None)
           | Ok true =>
               match py_string next_page with
               | Raise e => Raise e
               | Ok s => Ok (all_results ++ items, Some (<["offset" := next_offset s]> params))
               end
           end
  end end end end.

(** Two outcomes that differ at most in the message of a [BBAPIError]. *)
Definition same_outcome {A} (r1 r2 : outcome A) : Prop :=
  match r1, r2 with
  | Ok a, Ok b => a = b
  | Raise (BBAPIError _ s1 t1), Raise (BBAPIError _ s2 t2) => s1 = s2 /\ t1 = t2
  | Raise e1, Raise e2 => e1 = e2
  | _, _ => False
  end.

Definition request_to (u : string) (q : gmap string string) : request :=
  {| url := u; query := q |}.

(** The world once one more request has gone out. *)
Definition after_request (w : world) (u : string) (params : gmap string string) : world :=
  {| script := tl (script w); sent := sent w ++ [request_to u params]; fs := fs w |}.

(** The URLs the two walkers ask. *)
Definition v1_url (c : client) (endpoint : string) : string := api_url c +:+ endpoint.
Definition v2_url (c : client) (endpoint : string) : string :=
  domain c +:+ "/learn/api/public/v2" +:+ endpoint.

(** ** Floats

    [a / b] on ints is the quotient rounded once to binary64; [round(x, 2)]
    goes through the exact decimal expansion of [x], rounds it half to even at
    the second decimal and reads the result back as the nearest binary64. *)

(** The exact quotient [a / b] ([0 <= a], [0 < b]) rounded to nearest even:
    a quotient with more than 55 bits and a sticky bit, then one rounding. *)
Definition div_nearest (a b : Z) : float :=
  if (a =? 0)%Z then 0%float
  else
    let k := Z.max 0 (55 + Z.log2 b - Z.log2 a)%Z in
    let n := (a * 2 ^ k)%Z in
    let q := (n / b)%Z in
    let sticky := if (n mod b =? 0)%Z then 0%Z else 1%Z in
    SF2Prim (binary_normalize prec emax (2 * q + sticky) (- k - 1) false).

(** [a / b] for two counts, [b] positive. *)
Definition int_truediv (a b : nat) : float := div_nearest (Z.of_nat a) (Z.of_nat b).

(** [x] times one hundred, exactly, rounded half to even to an integer. *)
Definition hundredths (m : positive) (e : Z) : Z :=
  let n := (Z.pos m * 100)%Z in
  if (0 <=? e)%Z then (n * 2 ^ e)%Z
  else
    let d := (2 ^ (- e))%Z in
    let q := (n / d)%Z in
    let r := (n mod d)%Z in
    match (2 * r ?= d)%Z with
    | Lt => q
    | Gt => (q + 1)%Z
    | Eq => if Z.even q then q else (q + 1)%Z
    end.

(** [round(x, 2)] *)
Definition round2 (x : float) : float :=
  match Prim2SF x with
  | S754_finite s m e =>
      let r := div_nearest (hundredths m e) 100 in
      if s then (- r)%float else r
  | _ => x
  end.

(** ** client.py: assignments, attendance and the two flags *)

(** What the interpreter supplies: [repr] of a value that is not a string,
    [==] on decoded values, [str.upper], [str.strip], the clock
    ([past_due due] is [datetime.now(tz) > datetime.fromisoformat(due)], and
    [False] for a stamp [fromisoformat] rejects) and [datetime.now().isoformat()]. *)
Record python := {
  repr : json -> string;
  py_eq : json -> json -> bool;
  upper : string -> string;
  strip : string -> string;
  past_due : string -> bool;
  now_iso : string
}.

Record assignment := {
  a_id : json;
  a_content_id : json;
  a_name : json;
  a_course_id : json;
  a_course_name : json;
  a_due : json;
  a_score_possible : json;
  a_score : json;
  a_status : json;
  a_submitted : bool;
  a_graded : bool;
  a_is_past_due : bool;
  a_accepts_late : bool;
  a_grading_type : json
}.

Record assignment_stats := {
  as_course_id : json;
  as_course_name : json;
  as_total : nat;
  as_on_time : nat;
  as_late : nat;
  as_missed : nat;
  as_available : nat;
  as_on_time_rate : float
}.

(** The [overall] dict of [get_assignment_stats]; without cached data it has
    the rate only. *)
Record assignment_totals := {
  at_total : nat;
  at_on_time : nat;
  at_late : nat;
  at_missed : nat;
  at_available : nat
}.

Record overall_assignments := {
  oa_totals : option assignment_totals;
  oa_on_time_rate : float
}.

Record attendance_stats := {
  ts_course_id : json;
  ts_course_name : json;
  ts_present : nat;
  ts_absent : nat;
  ts_total : nat;
  ts_percentage : float
}.

Record overall_attendance := {
  ov_counts : option (nat * nat * nat);   (* present, absent, total *)
  ov_percentage : float
}.

(** The four counters of [get_course_assignment_stats]. *)
Record tally := { on_time : nat; late : nat; missed : nat; available : nat }.

Inductive bucket := OnTime | Late | Missed | Available.

(** The classification as the spec orders it, first match first. *)
Definition classify (submitted is_past_due accepts_late graded : bool) (score : json) : bucket :=
  if graded && eq_zero score then Missed
  else if submitted && negb is_past_due then OnTime
  else if submitted && is_past_due then Late
  else if negb submitted && is_past_due && negb accepts_late then Missed
  else Available.

Definition bucket_of (a : assignment) : bucket :=
  classify (a_submitted a) (a_is_past_due a) (a_accepts_late a) (a_graded a) (a_score a).

Definition bucket_eqb (x y : bucket) : bool :=
  match x, y with
  | OnTime, OnTime | Late, Late | Missed, Missed | Available, Available => true
  | _, _ => false
  end.

(** How many of the assignments the spec's classification puts in a bucket. *)
Definition in_bucket (b : bucket) (assignments : list assignment) : nat :=
  length (filter (fun a => bucket_eqb (bucket_of a) b = true) assignments).

(** One round of the counting loop of [get_course_assignment_stats]. *)
Definition count_assignment (t : tally) (a : assignment) : tally :=
  let submitted := a_submitted a in
  let is_past_due := a_is_past_due a in
  let accepts_late := a_accepts_late a in
  let score := a_score a in
  let graded := a_graded a in
  if graded && eq_zero score then
    {| on_time := on_time t; late := late t; missed := missed t + 1; available := available t |}
  else if submitted then
    if negb is_past_due then
      {| on_time := on_time t + 1; late := late t; missed := missed t; available := available t |}
    else
      {| on_time := on_time t; late := late t + 1; missed := missed t; available := available t |}
  else
    if is_past_due && negb accepts_late then
      {| on_time := on_time t; late := late t; missed := missed t + 1; available := available t |}
    else
      {| on_time := on_time t; late := late t; missed := missed t; available := available t + 1 |}.

Definition count_assignments (assignments : list assignment) : tally :=
  fold_left count_assignment assignments
    {| on_time := 0; late := 0; missed := 0; available := 0 |}.

(** [(a / b) if b > 0 else 0.0] *)
Definition rate_of (a b : nat) : float :=
  if (0 <? b)%nat then int_truediv a b else 0%float.

(** [(a / b * 100) if b > 0 else 0.0] *)
Definition percentage_of (a b : nat) : float :=
  if (0 <? b)%nat then (int_truediv a b * 100)%float else 0%float.

(** The first truthy [course_name] among the assignments. *)
Fixpoint first_course_name (assignments : list assignment) : json :=
  match assignments with
  | [] => JNull
  | a :: rest => if truthy (a_course_name a) then a_course_name a else first_course_name rest
  end.

Definition set_course_name (name : json) (a : assignment) : assignment :=
  {| a_id := a_id a; a_content_id := a_content_id a; a_name := a_name a;
     a_course_id := a_course_id a; a_course_name := name; a_due := a_due a;
     a_score_possible := a_score_possible a; a_score := a_score a;
     a_status := a_status a; a_submitted := a_submitted a; a_graded := a_graded a;
     a_is_past_due := a_is_past_due a; a_accepts_late := a_accepts_late a;
     a_grading_type := a_grading_type a |}.

(** One round of the counting loop of [get_course_attendance_percentage]. *)
Definition count_record (pa : nat * nat) (record : json) : outcome (nat * nat) :=
  v <~ py_get record "status" (JStr "") ;;
  s <~ py_string v ;;
  let status := Str.lower s in
  if existsb (String.eqb status) ["present"; "late"; "excused"] then Ok (pa.1 + 1, pa.2)
  else if existsb (String.eqb status) ["absent"] then Ok (pa.1, pa.2 + 1)
  else Ok pa.

Fixpoint count_records (pa : nat * nat) (attendance : list json) : outcome (nat * nat) :=
  match attendance with
  | [] => Ok pa
  | record :: rest => pa' <~ count_record pa record ;; count_records pa' rest
  end.

(** [json.load(open(path))] and [json.dump(data, open(path, 'w'))] *)
Definition load_json (path : string) : M json := fun w =>
  match fs w path with
  | Missing => (Raise FileNotFoundError, w)
  | Malformed => (Raise JSONDecodeError, w)
  | Content j => (Ok j, w)
  end.

Definition dump_json (path : string) (data : json) : M unit := fun w =>
  (Ok tt, {| script := script w; sent := sent w;
             fs := fun p => if String.eqb p path then Content data else fs w p |}).

Section Client.

Variable py : python.

(** [str(v)], [f"{v}"] *)
Definition py_str (v : json) : string :=
  match v with
  | JStr s => s
  | _ => repr py v
  end.

(** The course-name lookup of [get_course_assignments]: the first cached
    course whose code occurs in [str(course_id)]. *)
Fixpoint course_name_by_code (courses : list json) (course_id : json) : outcome json :=
  match courses with
  | [] => Ok JNull
  | course :: rest =>
      code <~ py_get course "course_id" JNull ;;
      if truthy code then
        found <~ in_str code (py_str course_id) ;;
        if found then py_get course "name" JNull
        else course_name_by_code rest course_id
      else course_name_by_code rest course_id
  end.

(** The grade of one column: [(score, status, graded, submitted)]. *)
Definition column_grade (c : client) (course_id column_id : json)
  : M (json * json * bool * bool) :=
  except_api
    (let grade_url := "/courses/" +:+ py_str course_id +:+ "/gradebook/columns/"
                      +:+ py_str column_id +:+ "/users/" +:+ py_str (user_id c) in
     grade <- _get c grade_url ∅ ;;
     grade_status <- lift (py_get grade "status" JNull) ;;
     score <- lift (py_get grade "score" JNull) ;;
     if eq_str grade_status "Graded" then ret (score, JStr "Graded", true, true)
     else if eq_str grade_status "NeedsGrading" then ret (score, JStr "Submitted", false, true)
     else if truthy grade_status then ret (score, grade_status, false, true)
     else match score with
          | JNull => ret (score, JStr "NotSubmitted", false, false)
          | _ => ret (score, JStr "Graded", true, true)
          end)
    (ret (JNull, JStr "NotSubmitted", false, false)).

(** Whether a column's content takes late attempts. *)
Definition column_accepts_late (c : client) (course_id content_id : json) : M bool :=
  if truthy content_id then
    except_api
      (content <- _get c ("/courses/" +:+ py_str course_id +:+ "/contents/"
                          +:+ py_str content_id) ∅ ;;
       handler <- lift (py_get content "contentHandler" (JObj [])) ;;
       disallowed <- lift (py_get handler "isLateAttemptCreationDisallowed" (JBool false)) ;;
       ret (negb (truthy disallowed)))
      (ret true)
  else ret true.

(** The body of [for column in columns]. *)
Definition column_assignment (c : client) (course_id course_name : json)
    (assignments : list assignment) (column : json) : M (list assignment) :=
  column_id <- lift (py_get column "id" JNull) ;;
  grading <- lift (py_get column "grading" (JObj [])) ;;
  grading_type <- lift (py_get grading "type" (JStr "Manual")) ;;
  if eq_str grading_type "Calculated" then ret assignments
  else
    due <- lift (py_get grading "due" JNull) ;;
    is_past_due <- (if truthy due
                    then due_text <- lift (py_string due) ;; ret (past_due py due_text)
                    else ret false) ;;
    g <- column_grade c course_id column_id ;;
    let '(score, status, graded, submitted) := g in
    content_id <- lift (py_get column "contentId" JNull) ;;
    accepts_late <- column_accepts_late c course_id content_id ;;
    name <- lift (py_get column "name" (JStr "Unknown")) ;;
    score_obj <- lift (py_get column "score" (JObj [])) ;;
    possible <- lift (py_get score_obj "possible" JNull) ;;
    ret (assignments ++
         [{| a_id := column_id; a_content_id := content_id; a_name := name;
             a_course_id := course_id; a_course_name := course_name; a_due := due;
             a_score_possible := possible; a_score := score; a_status := status;
             a_submitted := submitted; a_graded := graded;
             a_is_past_due := is_past_due; a_accepts_late := accepts_late;
             a_grading_type := grading_type |}]).

Definition get_course_assignments (c : client) (course_id : json) : M (list assignment) :=
  columns <- except_api
               (cols <- _get_paginated_v2 c
                          ("/courses/" +:+ py_str course_id +:+ "/gradebook/columns") None ;;
                ret (Some cols))
               (ret None) ;;
  match columns with
  | None => ret []
  | Some columns =>
      course_name <- lift (if truthy (cached_data c) then
                             courses <~ py_get (cached_data c) "courses" (JArr []) ;;
                             items <~ py_iter courses ;;
                             course_name_by_code items course_id
                           else Ok JNull) ;;
      for_each columns (column_assignment c course_id course_name) []
  end.

(** The body of [for cached_course in courses] in [get_assignments]. *)
Definition course_assignments (c : client) (all_assignments : list assignment)
    (cached_course : json) : M (list assignment) :=
  internal_id <- lift (py_get cached_course "internal_id" JNull) ;;
  course_name <- lift (py_get cached_course "name" JNull) ;;
  if negb (truthy internal_id) then ret all_assignments
  else
    except_api
      (course_assignments <- get_course_assignments c internal_id ;;
       let named := (fun a => if negb (truthy (a_course_name a))
                              then set_course_name course_name a else a)
                      <$> course_assignments in
       ret (all_assignments ++ named))
      (ret all_assignments).

(** [get_assignments] from its loop on: [courses] are the records the loop
    runs over. *)
Definition get_assignments_over (c : client) (courses : list json) : M (list assignment) :=
  for_each courses (course_assignments c) [].

Definition get_assignments (c : client) : M (list assignment) :=
  if negb (truthy (cached_data c)) then ret []
  else
    courses <- lift (py_get (cached_data c) "courses" (JArr [])) ;;
    items <- lift (py_iter courses) ;;
    get_assignments_over c items.

(** The body of [for meeting in meetings]. *)
Definition meeting_record (c : client) (course_id : json)
    (attendance_records : list json) (meeting : json) : M (list json) :=
  meeting_id <- lift (py_get meeting "id" JNull) ;;
  record <- except_api
              (attendance <- _get c ("/courses/" +:+ py_str course_id +:+ "/meetings/"
                                     +:+ py_str meeting_id +:+ "/users/"
                                     +:+ py_str (user_id c)) ∅ ;;
               lift (py_setitem attendance "meeting" meeting))
              (ret (JObj [("meeting", meeting); ("status", JStr "unknown")])) ;;
  ret (attendance_records ++ [record]).

Definition _get_course_attendance (c : client) (course_id : json) : M (list json) :=
  except_api
    (meetings <- _get_paginated c ("/courses/" +:+ py_str course_id +:+ "/meetings") None ;;
     for_each meetings (meeting_record c course_id) [])
    (ret []).

(** The cached course whose [internal_id] equals [course_id]. *)
Fixpoint course_name_by_id (courses : list json) (course_id : json) : outcome json :=
  match courses with
  | [] => Ok JNull
  | course :: rest =>
      internal_id <~ py_get course "internal_id" JNull ;;
      if py_eq py internal_id course_id then py_get course "name" JNull
      else course_name_by_id rest course_id
  end.

(** The course-name lookup of [get_course_attendance_percentage]. *)
Definition cached_name_by_id (c : client) (course_id : json) : outcome json :=
  if truthy (cached_data c) then
    courses <~ py_get (cached_data c) "courses" (JArr []) ;;
    items <~ py_iter courses ;;
    course_name_by_id items course_id
  else Ok JNull.

Definition get_course_attendance_percentage (c : client) (course_id : json)
  : M attendance_stats :=
  attendance <- _get_course_attendance c course_id ;;
  let total := length attendance in
  pa <- lift (count_records (0, 0) attendance) ;;
  let '(present, absent) := pa in
  let percentage := percentage_of present total in
  course_name <- lift (cached_name_by_id c course_id) ;;
  ret {| ts_course_id := course_id; ts_course_name := course_name;
         ts_present := present; ts_absent := absent; ts_total := total;
         ts_percentage := round2 percentage |}.

(** The body of [for course in courses] in [get_attendance_percentage]: the
    per-course stats so far and the three running totals. *)
Definition course_attendance (c : client)
    (acc : list attendance_stats * (nat * nat * nat)) (course : json)
  : M (list attendance_stats * (nat * nat * nat)) :=
  internal_id <- lift (py_get course "internal_id" JNull) ;;
  if negb (truthy internal_id) then ret acc
  else
    stats <- get_course_attendance_percentage c internal_id ;;
    name <- lift (py_get course "name" JNull) ;;
    let stats := {| ts_course_id := ts_course_id stats; ts_course_name := name;
                    ts_present := ts_present stats; ts_absent := ts_absent stats;
                    ts_total := ts_total stats; ts_percentage := ts_percentage stats |} in
    let '(course_stats, (total_present, total_absent, total_meetings)) := acc in
    ret (course_stats ++ [stats],
         (total_present + ts_present stats, total_absent + ts_absent stats,
          total_meetings + ts_total stats)).

(** [get_attendance_percentage] from its loop on. *)
Definition get_attendance_percentage_over (c : client) (courses : list json)
  : M (list attendance_stats * overall_attendance) :=
  acc <- for_each courses (course_attendance c) ([], (0, 0, 0)) ;;
  let '(course_stats, (total_present, total_absent, total_meetings)) := acc in
  let overall_percentage := percentage_of total_present total_meetings in
  ret (course_stats,
       {| ov_counts := Some (total_present, total_absent, total_meetings);
          ov_percentage := round2 overall_percentage |}).

Definition get_attendance_percentage (c : client)
  : M (list attendance_stats * overall_attendance) :=
  if negb (truthy (cached_data c))
  then ret ([], {| ov_counts := None; ov_percentage := 0%float |})
  else
    courses <- lift (py_get (cached_data c) "courses" (JArr [])) ;;
    items <- lift (py_iter courses) ;;
    get_attendance_percentage_over c items.

Definition get_course_assignment_stats (c : client) (course_id : json) : M assignment_stats :=
  assignments <- get_course_assignments c course_id ;;
  let total := length assignments in
  let t := count_assignments assignments in
  let on_time_rate := rate_of (on_time t) total in
  let course_name := first_course_name assignments in
  ret {| as_course_id := course_id; as_course_name := course_name; as_total := total;
         as_on_time := on_time t; as_late := late t; as_missed := missed t;
         as_available := available t; as_on_time_rate := round2 on_time_rate |}.

(** The body of [for course in courses] in [get_assignment_stats]. *)
Definition course_stats_round (c : client)
    (acc : list assignment_stats * assignment_totals) (course : json)
  : M (list assignment_stats * assignment_totals) :=
  internal_id <- lift (py_get course "internal_id" JNull) ;;
  if negb (truthy internal_id) then ret acc
  else
    except_api
      (stats <- get_course_assignment_stats c internal_id ;;
       name <- lift (py_get course "name" JNull) ;;
       let stats := {| as_course_id := as_course_id stats; as_course_name := name;
                       as_total := as_total stats; as_on_time := as_on_time stats;
                       as_late := as_late stats; as_missed := as_missed stats;
                       as_available := as_available stats;
                       as_on_time_rate := as_on_time_rate stats |} in
       let '(course_stats, all) := acc in
       ret (course_stats ++ [stats],
            {| at_total := at_total all + as_total stats;
               at_on_time := at_on_time all + as_on_time stats;
               at_late := at_late all + as_late stats;
               at_missed := at_missed all + as_missed stats;
               at_available := at_available all + as_available stats |}))
      (ret acc).

(** [get_assignment_stats] from its loop on. *)
Definition get_assignment_stats_over (c : client) (courses : list json)
  : M (list assignment_stats * overall_assignments) :=
  acc <- for_each courses (course_stats_round c)
           ([], {| at_total := 0; at_on_time := 0; at_late := 0;
                   at_missed := 0; at_available := 0 |}) ;;
  let '(course_stats, all) := acc in
  let on_time_rate := rate_of (at_on_time all) (at_total all) in
  ret (course_stats,
       {| oa_totals := Some all; oa_on_time_rate := round2 on_time_rate |}).

Definition get_assignment_stats (c : client)
  : M (list assignment_stats * overall_assignments) :=
  if negb (truthy (cached_data c))
  then ret ([], {| oa_totals := None; oa_on_time_rate := 0%float |})
  else
    courses <- lift (py_get (cached_data c) "courses" (JArr [])) ;;
    items <- lift (py_iter courses) ;;
    get_assignment_stats_over c items.

(** [if self._id_path:] and the update of the [.id] file under it. *)
Definition update_id_flags (c : client) (flag : string) (value : bool)
    (field : string) (number : float) : M unit :=
  match id_path c with
  | Some path =>
      if negb (String.eqb path "") then
        except_pass
          (id_data <- load_json path ;;
           id_data <- lift (py_setitem id_data flag (JBool value)) ;;
           id_data <- lift (py_setitem id_data field (JFloat number)) ;;
           dump_json path id_data)
      else ret tt
  | None => ret tt
  end.

Definition is_nerd (c : client) : M bool :=
  stats <- get_assignment_stats c ;;
  let on_time_rate := oa_on_time_rate stats.2 in
  let is_nerd := PrimFloat.ltb 0x1.ccccccccccccdp-2 on_time_rate in   (* 0.45 *)
  update_id_flags c "isNerd" is_nerd "on_time_rate" on_time_rate ;;
  ret is_nerd.

Definition is_attending (c : client) : M bool :=
  stats <- get_attendance_percentage c ;;
  let percentage := ov_percentage stats.2 in
  let is_attending := PrimFloat.ltb 60 percentage in
  update_id_flags c "isAttending" is_attending "attendance_percentage" percentage ;;
  ret is_attending.

End Client.

(** ** auth.py: the [.id] file *)

(** A cookie of [session.cookies]. *)
Record cookie := { ck_name : json; ck_value : json; ck_domain : json; ck_path : json }.

(** The list of [{"name", "value", "domain", "path"}] dicts both writers build. *)
Definition cookies_json (session : list cookie) : json :=
  JArr ((fun ck => JObj [("name", ck_name ck); ("value", ck_value ck);
                         ("domain", ck_domain ck); ("path", ck_path ck)]) <$> session).

(** [del d[k]] *)
Fixpoint dict_del (k : string) (d : list (string * json)) : list (string * json) :=
  match d with
  | [] => []
  | (k', v) :: d' => if String.eqb k k' then d' else (k', v) :: dict_del k d'
  end.

(** The two [except] clauses around the file: [FileNotFoundError] and
    [json.JSONDecodeError] become a [BBAuthError]. *)
Definition except_file {A} (id_path : string) (body : M A) : M A := fun w =>
  match body w with
  | (Raise FileNotFoundError, w') => (Raise (BBAuthError ("ID file not found: " +:+ id_path)), w')
  | (Raise JSONDecodeError, w') => (Raise (BBAuthError ("Invalid ID file format: " +:+ id_path)), w')
  | r => r
  end.

(** A list or a dict cannot be a dict key. *)
Definition hashable (v : json) : bool :=
  match v with
  | JArr _ | JObj _ => false
  | _ => true
  end.

Section Auth.

Variable py : python.

Definition update_id_file_cookies (id_path : string) (session : list cookie) : M unit :=
  except_file id_path
    (id_data <- load_json id_path ;;
     let cookies := cookies_json session in
     id_data <- lift (py_setitem id_data "cookies" cookies) ;;
     id_data <- lift (py_setitem id_data "updated_at" (JStr (now_iso py))) ;;
     dump_json id_path id_data).

(** [f"{o.get('given', '')} {o.get('family', '')}".strip()] *)
Definition person_name (name_obj : json) : outcome string :=
  given <~ py_get name_obj "given" (JStr "") ;;
  family <~ py_get name_obj "family" (JStr "") ;;
  Ok (strip py (py_str py given +:+ " " +:+ py_str py family)).

(** [parse_course_info] on the values [course.get] returned: a value that is
    not a string goes through [in] first, and a list or a dict without the
    separator is passed on as it is. *)
Definition clean_part (v : json) : outcome (json * json) :=
  found <~ py_contains "__" v ;;
  if found then
    s <~ py_string v ;;
    let r := parse_course_info s "" in
    Ok (JStr (ci_name r), from_option JStr JNull (ci_class_name r))
  else Ok (v, JNull).

(** [instructor_lookup]: course name to professor names, keys in insertion
    order. *)
Fixpoint lookup_professors (key : json) (lookup : list (json * list string)) : list string :=
  match lookup with
  | [] => []
  | (k, names) :: rest => if py_eq py k key then names else lookup_professors key rest
  end.

Fixpoint add_professor (key : json) (prof_name : string) (lookup : list (json * list string))
  : list (json * list string) :=
  match lookup with
  | [] =>
      [(key, if negb (String.eqb prof_name "") then [prof_name] else [])]
  | (k, names) :: rest =>
      if py_eq py k key then
        (k, if negb (String.eqb prof_name "") && negb (existsb (String.eqb prof_name) names)
            then names ++ [prof_name] else names) :: rest
      else (k, names) :: add_professor key prof_name rest
  end.

Fixpoint build_instructor_lookup (instructors : list json) (lookup : list (json * list string))
  : outcome (list (json * list string)) :=
  match instructors with
  | [] => Ok lookup
  | instructor :: rest =>
      course_info <~ py_get instructor "course" (JObj []) ;;
      course_name_full <~ py_get course_info "name" (JStr "") ;;
      name_obj <~ py_get instructor "name" (JObj []) ;;
      prof_name <~ person_name name_obj ;;
      if hashable course_name_full
      then build_instructor_lookup rest (add_professor course_name_full prof_name lookup)
      else Raise TypeError
  end.

Fixpoint build_courses_data (courses : list json) (lookup : list (json * list string))
  : outcome (list json) :=
  match courses with
  | [] => Ok []
  | course :: rest =>
      course_name_full <~ py_get course "name" (JStr "") ;;
      course_id_full <~ py_get course "courseId" (JStr "") ;;
      parsed_name <~ clean_part course_name_full ;;
      parsed_id <~ clean_part course_id_full ;;
      professors <~ (if hashable course_name_full
                     then Ok (lookup_professors course_name_full lookup)
                     else Raise TypeError) ;;
      internal_id <~ py_get course "id" JNull ;;
      external_url <~ py_get course "externalAccessUrl" (JStr "") ;;
      others <~ build_courses_data rest lookup ;;
      Ok (JObj [("name", parsed_name.1); ("course_id", parsed_id.1);
                ("internal_id", internal_id); ("url", external_url);
                ("professors", JArr (JStr <$> professors))] :: others)
  end.

(** The [credentials] entry: [{...} if username and password else None]. *)
Definition credentials_of (username password : json) : outcome json :=
  if truthy username && truthy password then
    name <~ (if truthy username
             then s <~ py_string username ;; Ok (JStr (upper py s))
             else Ok JNull) ;;
    Ok (JObj [("username", name); ("password", password)])
  else Ok JNull.

(** The dict [save_id_file] dumps. The [username] argument is reassigned
    from [user_data] before anything reads it. *)
Definition id_data_of (session : list cookie) (user_data : json)
    (courses instructors : list json) (username password : json) : outcome json :=
  let cookies := cookies_json session in
  name_obj <~ py_get user_data "name" (JObj []) ;;
  full_name <~ person_name name_obj ;;
  username <~ py_get user_data "userName" (JStr "") ;;
  contact <~ py_get user_data "contact" (JObj []) ;;
  email <~ py_get contact "email" (JStr "") ;;
  class_name <~ match courses with
                | [] => Ok JNull
                | first_course :: _ =>
                    course_name <~ py_get first_course "name" (JStr "") ;;
                    found <~ py_contains "__" course_name ;;
                    if found then
                      s <~ py_string course_name ;;
                      Ok (from_option JStr JNull (Str.split "__" s !! 1%nat))
                    else Ok JNull
                end ;;
  instructor_lookup <~ build_instructor_lookup instructors [] ;;
  courses_data <~ build_courses_data courses instructor_lookup ;;
  credentials <~ credentials_of username password ;;
  shown <~ (if truthy username then Ok username else py_get user_data "userName" (JStr "")) ;;
  let id_data :=
    [("generated_at", JStr (now_iso py));
     ("cookies", cookies);
     ("credentials", credentials);
     ("user", JObj [("name", JStr full_name); ("username", shown);
                    ("email", email); ("class", class_name)]);
     ("courses", JArr courses_data);
     ("isNerd", JNull);
     ("isAttending", JNull);
     ("on_time_rate", JNull);
     ("attendance_percentage", JNull)] in
  Ok (JObj (if negb (truthy credentials) then dict_del "credentials" id_data else id_data)).

Definition save_id_file (id_path : string) (session : list cookie) (user_data : json)
    (courses instructors : list json) (username password : json) : M unit :=
  id_data <- lift (id_data_of session user_data courses instructors username password) ;;
  dump_json id_path id_data.

End Auth.

(** A client and a world to run the examples in. *)
Definition demo_client : client :=
  {| domain := "https://esprit.blackboard.com"; user_id := JStr "_7_1";
     cached_data := JNull; id_path := None |}.

Definition demo_world (replies : list transport) : world :=
  {| script := replies; sent := []; fs := fun _ => Missing |}.

Definition demo_page1 : page :=
  {| results := [JObj [("courseId", JStr "_16318_1")]; JObj [("courseId", JStr "_16319_1")]];
     next_page := Some "/learn/api/public/v1/users/_7_1/courses?offset=2&limit=2" |}.

Definition demo_page2 : page :=
  {| results := [JObj [("courseId", JStr "_16320_1")]]; next_page := None |}.

Definition demo_py : python :=
  {| repr := fun _ => "?";
     py_eq := fun a b => match a, b with JStr x, JStr y => String.eqb x y | _, _ => false end;
     upper := Str.upper;
     strip := fun s => s;
     past_due := fun due => String.ltb due "2026";
     now_iso := "2026-01-15T10:00:00" |}.

(** The tally after a list of assignments, as the spec reads it: each one in
    the bucket [classify] names. *)
Definition add_to_bucket (b : bucket) (t : tally) : tally :=
  match b with
  | OnTime =>
      {| on_time := on_time t + 1; late := late t; missed := missed t; available := available t |}
  | Late =>
      {| on_time := on_time t; late := late t + 1; missed := missed t; available := available t |}
  | Missed =>
      {| on_time := on_time t; late := late t; missed := missed t + 1; available := available t |}
  | Available =>
      {| on_time := on_time t; late := late t; missed := missed t; available := available t + 1 |}
  end.

(** C3 as the spec has it: an [APIError] of the column listing would reach the
    caller of [get_course_assignments]. *)
Definition listing_error_propagates (py : python) (c : client) (course_id : json) (w : world) : Prop :=
  forall m st r w1,
    _get_paginated_v2 c ("/courses/" +:+ py_str py course_id +:+ "/gradebook/columns") None w
      = (Raise (BBAPIError m st r), w1) ->
    (get_course_assignments py c course_id w).1 = Raise (BBAPIError m st r).

(** The status of an attendance record, when it is a string (a record with
    no [status] key counts as the empty string). *)
Definition status_text (record : json) : option string :=
  match py_get record "status" (JStr "") with
  | Ok (JStr s) => Some s
  | _ => None
  end.

(** The status as the server spells it is one of [names]. *)
Definition raw_status_in (names : list string) (record : json) : bool :=
  match status_text record with
  | Some s => existsb (String.eqb s) names
  | None => false
  end.

(** The status in lower case is one of [names]. *)
Definition status_in (names : list string) (record : json) : bool :=
  match status_text record with
  | Some s => existsb (String.eqb (Str.lower s)) names
  | None => false
  end.

Definition how_many (p : json -> bool) (records : list json) : nat :=
  length (filter (fun r => p r = true) records).

(** C7 as the spec has it: the two buckets count the statuses as they come. *)
Definition counts_raw_statuses (py : python) (c : client) (course_id : json) (w : world) : Prop :=
  forall attendance w1 stats w2,
    _get_course_attendance py c course_id w = (Ok attendance, w1) ->
    get_course_attendance_percentage py c course_id w = (Ok stats, w2) ->
    ts_present stats = how_many (raw_status_in ["present"; "late"; "excused"]) attendance
    /\ ts_absent stats = how_many (raw_status_in ["absent"]) attendance.

(** A course with some meetings: the listing, then one attendance reply per
    meeting. *)
Definition meetings_page (n : nat) : transport :=
  page_reply {| results := (fun i => JObj [("id", JStr (String (ascii_of_nat (48 + i)) ""))])
                             <$> seq 1 n;
                next_page := None |}.

Definition attendance_reply (status : string) : transport :=
  Response {| status_code := 200; body := JObj [("status", JStr status)]; text := "" |}.

Definition not_found : transport :=
  Response {| status_code := 404; body := JNull; text := "Not Found" |}.

(** A cached course record with no usable [internal_id]: the key is missing,
    or its value is falsy ([None], the empty string, ...). *)
Definition lacks_internal_id (course : json) : bool :=
  match course with
  | JObj d => negb (truthy (default JNull (dict_get "internal_id" d)))
  | _ => false
  end.

(** The records the per-course loops do something with. *)
Definition with_internal_id (courses : list json) : list json :=
  filter (fun course => lacks_internal_id course = false) courses.

(** A client whose cache lists two courses, the first one in the old format
    with no [internal_id]. *)
Definition demo_cached_client : client :=
  {| domain := "https://esprit.blackboard.com"; user_id := JStr "_7_1";
     cached_data :=
       JObj [("generated_at", JStr "2025-11-02T09:30:00");
             ("user", JObj [("name", JStr "Amine Ben Salah")]);
             ("courses",
              JArr [JObj [("name", JStr "Anglais"); ("course_id", JStr "ESE.AN-01")];
                    JObj [("name", JStr "Gestion de projet"); ("course_id", JStr "ESE.PR-01");
                          ("internal_id", JStr "_16318_1")]]);
             ("credentials", JNull)];
     id_path := None |}.

(** The gradebook of the second course: one graded assignment, handed in
    and past due, and the computed total; then the grade and the content of
    the assignment. *)
Definition demo_columns : transport :=
  page_reply
    {| results :=
         [JObj [("id", JStr "_c1"); ("name", JStr "TP1"); ("contentId", JStr "_k1");
                ("grading", JObj [("type", JStr "Attempts"); ("due", JStr "2025-10-01T22:59:00.000Z")]);
                ("score", JObj [("possible", JInt 20)])];
          JObj [("id", JStr "_c2"); ("name", JStr "Total");
                ("grading", JObj [("type", JStr "Calculated")])]];
       next_page := None |}.

Definition demo_grade : transport :=
  Response {| status_code := 200;
              body := JObj [("status", JStr "Graded"); ("score", JInt 15)]; text := "" |}.

Definition demo_content : transport :=
  Response {| status_code := 200;
              body := JObj [("contentHandler",
                             JObj [("isLateAttemptCreationDisallowed", JBool true)])];
              text := "" |}.

(** A cache file as [save_id_file] leaves it and [is_nerd] later updates it,
    and a session with one fresh cookie. *)
Definition demo_id_data : list (string * json) :=
  [("generated_at", JStr "2025-11-02T09:30:00");
   ("cookies", JArr [JObj [("name", JStr "BbRouter"); ("value", JStr "expired");
                           ("domain", JStr "esprit.blackboard.com"); ("path", JStr "/")]]);
   ("credentials", JObj [("username", JStr "AMINE.BENSALAH"); ("password", JStr "s3cret")]);
   ("user", JObj [("name", JStr "Amine Ben Salah"); ("username", JStr "amine.bensalah");
                  ("email", JStr "amine.bensalah@esprit.tn"); ("class", JStr "4SAE11")]);
   ("courses", JArr [JObj [("name", JStr "Gestion de projet"); ("course_id", JStr "ESE.PR-01");
                           ("internal_id", JStr "_16318_1");
                           ("url", JStr "https://esprit.blackboard.com/ultra/courses/_16318_1/cl/outline");
                           ("professors", JArr [JStr "Sana Trabelsi"])]]);
   ("isNerd", JBool true);
   ("isAttending", JNull);
   ("on_time_rate", JFloat 0.5);
   ("attendance_percentage", JNull)].

Definition demo_session : list cookie :=
  [{| ck_name := JStr "BbRouter"; ck_value := JStr "fresh";
      ck_domain := JStr "esprit.blackboard.com"; ck_path := JStr "/" |}].

Definition demo_disk (id_path : string) (data : list (string * json)) : world :=
  {| script := []; sent := [];
     fs := fun p => if String.eqb p id_path then Content (JObj data) else Missing |}.

(** The user data of [/users/me], with a given [userName]. *)
Definition demo_user (user_name : string) : json :=
  JObj [("id", JStr "_7_1");
        ("userName", JStr user_name);
        ("name", JObj [("given", JStr "Amine"); ("family", JStr "Ben Salah")]);
        ("contact", JObj [("email", JStr "amine.bensalah@esprit.tn")])].

(** The running totals of [get_assignment_stats] are the sums over the
    per-course stats gathered so far. *)
Definition totals_match (acc : list assignment_stats * assignment_totals) : Prop :=
  at_total acc.2 = sum_list (as_total <$> acc.1)
  /\ at_on_time acc.2 = sum_list (as_on_time <$> acc.1).

(** ** Further notions, for the properties beyond the spec's claims *)

(** The [BBAPIError] a reply makes [_get] raise, if any. *)
Definition reply_error (endpoint : string) (t : transport) : option exn :=
  match t with
  | Response r =>
      if (status_code r =? 200)%Z then None
      else Some (BBAPIError ("API request failed: " +:+ endpoint)
                            (Some (status_code r)) (Some (text r)))
  | RequestException e => Some (BBAPIError ("Request error: " +:+ e) None None)
  end.

Definition is_api_error (e : exn) : bool :=
  match e with
  | BBAPIError _ _ _ => true
  | _ => false
  end.

(** A pure step, and a computation, that whatever happens does not end in a
    [BBAPIError]. *)
Definition no_api_error {A} (o : outcome A) : Prop :=
  match o with
  | Raise e => is_api_error e = false
  | Ok _ => True
  end.

Definition never_api_error {A} (m : M A) : Prop :=
  forall w, no_api_error (m w).1.

(** A computation that leaves every file as it is. *)
Definition keeps_files {A} (m : M A) : Prop :=
  forall w, fs (m w).2 = fs w.

(** A gradebook column whose [grading.type] is "Calculated". *)
Definition is_calculated (column : json) : bool :=
  match column with
  | JObj d =>
      match default (JObj []) (dict_get "grading" d) with
      | JObj grading => eq_str (default (JStr "Manual") (dict_get "type" grading)) "Calculated"
      | _ => false
      end
  | _ => false
  end.

(** What every assignment of [get_course_assignments] satisfies. *)
Definition sound_assignment (course_id course_name : json) (a : assignment) : Prop :=
  a_course_id a = course_id
  /\ a_course_name a = course_name
  /\ eq_str (a_grading_type a) "Calculated" = false
  /\ (a_graded a = true -> a_submitted a = true)
  /\ (a_submitted a = false ->
      a_graded a = false /\ a_score a = JNull /\ a_status a = JStr "NotSubmitted")
  /\ (truthy (a_due a) = false -> a_is_past_due a = false)
  /\ (truthy (a_content_id a) = false -> a_accepts_late a = true).

(** The assignment carries the id, the name and the content id of the column. *)
Definition made_from (column : json) (a : assignment) : Prop :=
  exists d,
    column = JObj d
    /\ a_id a = default JNull (dict_get "id" d)
    /\ a_name a = default (JStr "Unknown") (dict_get "name" d)
    /\ a_content_id a = default JNull (dict_get "contentId" d).

(** What a loop over [items] keeps when, for each item that [asks], it sends
    one request and keeps what [answer] makes of the reply: the items that ask
    meet the replies of [script] in turn, and once the script is used up the
    connection is down. *)
Fixpoint served {A} (asks : A -> bool) (answer : A -> transport -> outcome (list json))
    (items : list A) (script : list transport) : outcome (list json) :=
  match items with
  | [] => Ok []
  | x :: rest =>
      if asks x then
        kept <~ answer x (hd connection_down script) ;;
        more <~ served asks answer rest (tl script) ;;
        Ok (kept ++ more)
      else served asks answer rest script
  end.

(** The requests such a loop sends, in order. *)
Definition asked {A} (asks : A -> bool) (url_of : A -> string) (items : list A) : list request :=
  (fun x => request_to (url_of x) ∅) <$> filter (fun x => asks x = true) items.

(** [item.get(k, dflt)] of an item that is an object. *)
Definition item_get (k : string) (dflt item : json) : json :=
  match item with
  | JObj d => default dflt (dict_get k d)
  | _ => dflt
  end.

(** The record [_get_course_attendance] keeps for a meeting, by the reply to
    the request for it: on status 200 the object the server sent with the
    meeting stored under [meeting], on any other status and on a transport
    error the meeting with the status "unknown". *)
Definition meeting_answer (meeting : json) (t : transport) : outcome (list json) :=
  match t with
  | Response r =>
      if (status_code r =? 200)%Z then
        record <~ py_setitem (body r) "meeting" meeting ;;
        Ok [record]
      else Ok [JObj [("meeting", meeting); ("status", JStr "unknown")]]
  | RequestException _ => Ok [JObj [("meeting", meeting); ("status", JStr "unknown")]]
  end.

(** The URL asked for a meeting. *)
Definition meeting_url (py : python) (c : client) (course_id meeting : json) : string :=
  v1_url c ("/courses/" +:+ py_str py course_id +:+ "/meetings/"
            +:+ py_str py (item_get "id" JNull meeting) +:+ "/users/"
            +:+ py_str py (user_id c)).

(** The client of [demo_cached_client] with its cache file, and the world in
    which that file is on disk and the gradebook, or the meetings, of its course
    are about to be served. *)
Definition demo_disk_client : client :=
  {| domain := domain demo_cached_client; user_id := user_id demo_cached_client;
     cached_data := cached_data demo_cached_client; id_path := Some "amine.id" |}.

Definition demo_disk_world (replies : list transport) : world :=
  {| script := replies; sent := []; fs := fs (demo_disk "amine.id" demo_id_data) |}.

(** The four buckets of a course add up to its total. *)
Definition buckets_add_up (s : assignment_stats) : Prop :=
  as_on_time s + as_late s + as_missed s + as_available s = as_total s.

(** Each of the five overall counts is the sum of that count over the
    courses. *)
Definition totals_are_sums (course_stats : list assignment_stats) (all : assignment_totals)
  : Prop :=
  at_total all = sum_list (as_total <$> course_stats)
  /\ at_on_time all = sum_list (as_on_time <$> course_stats)
  /\ at_late all = sum_list (as_late <$> course_stats)
  /\ at_missed all = sum_list (as_missed <$> course_stats)
  /\ at_available all = sum_list (as_available <$> course_stats).

(** Present and absent meetings do not exceed the meetings. *)
Definition within_total (s : attendance_stats) : Prop :=
  ts_present s + ts_absent s <= ts_total s.

Definition counts_are_sums (course_stats : list attendance_stats) (counts : nat * nat * nat)
  : Prop :=
  counts.1.1 = sum_list (ts_present <$> course_stats)
  /\ counts.1.2 = sum_list (ts_absent <$> course_stats)
  /\ counts.2 = sum_list (ts_total <$> course_stats).

(** [prof_name] is the name [save_id_file] reads off [instructor]. *)
Definition named (py : python) (instructor : json) (prof_name : string) : Prop :=
  exists name_obj,
    py_get instructor "name" (JObj []) = Ok name_obj
    /\ person_name py name_obj = Ok prof_name.

(** The names kept for a course: none twice, none empty, each the name of one
    of the instructors. *)
Definition professors_ok (py : python) (instructors : list json) (names : list string) : Prop :=
  NoDup names
  /\ ~ In "" names
  /\ Forall (fun p => exists instructor, In instructor instructors /\ named py instructor p) names.

(** The record [save_id_file] stores for a course of the API. *)
Definition saved_course (py : python) (instructors : list json) (course record : json) : Prop :=
  exists d name code professors,
    course = JObj d
    /\ record = JObj [("name", name); ("course_id", code);
                      ("internal_id", default JNull (dict_get "id" d));
                      ("url", default (JStr "") (dict_get "externalAccessUrl" d));
                      ("professors", JArr (JStr <$> professors))]
    /\ (forall s, dict_get "name" d = Some (JStr s) -> name = JStr (before_first "__" s))
    /\ (forall s, dict_get "courseId" d = Some (JStr s) -> code = JStr (before_first "__" s))
    /\ professors_ok py instructors professors.

(** A course and an instructor of it, as the API gives them. *)
Definition demo_course : json :=
  JObj [("id", JStr "_16318_1"); ("courseId", JStr "ESE.PR-01__4SAE11");
        ("name", JStr "Gestion de projet__4SAE11");
        ("externalAccessUrl", JStr "https://esprit.blackboard.com/ultra/courses/_16318_1/outline")].

Definition demo_instructor (given family : string) : json :=
  JObj [("name", JObj [("given", JStr given); ("family", JStr family)]);
        ("course", JObj [("id", JStr "_16318_1"); ("name", JStr "Gestion de projet__4SAE11");
                         ("courseId", JStr "ESE.PR-01__4SAE11")])].

(** ** auth.py: [load_id_file] *)

(** The session [load_id_file] builds is a fresh [requests.Session] on whose
    jar it calls [set] once per stored cookie; it is kept here as these calls,
    in order. The legacy form passes neither [domain] nor [path]. *)
Record set_cookie := {
  sc_name : json;
  sc_value : json;
  sc_domain : option json;
  sc_path : option json
}.

(** Whether [session.cookies.set(name, value, domain=..., path=...)] of
    requests goes through. With the value [None] it removes the cookies of that
    name and nothing can fail. Otherwise [create_cookie] calls
    [domain.startswith], which only a string has ([domain] is "" when not
    passed), and the jar then files the cookie under its domain, its path ("/"
    when not passed) and its name, which have to be hashable. *)
Definition jar_set (call : set_cookie) : outcome unit :=
  match sc_value call with
  | JNull => Ok tt
  | _ =>
      match default (JStr "") (sc_domain call) with
      | JStr _ =>
          if hashable (default (JStr "/") (sc_path call)) then
            if hashable (sc_name call) then Ok tt else Raise TypeError
          else Raise TypeError
      | _ => Raise AttributeError
      end
  end.

(** [for cookie in cookies: session.cookies.set(cookie.get("name"), ...)] *)
Fixpoint listed_cookies (cookies : list json) : outcome (list set_cookie) :=
  match cookies with
  | [] => Ok []
  | cookie :: rest =>
      name <~ py_get cookie "name" JNull ;;
      value <~ py_get cookie "value" JNull ;;
      domain <~ py_get cookie "domain" (JStr "") ;;
      path <~ py_get cookie "path" (JStr "/") ;;
      let call := {| sc_name := name; sc_value := value;
                     sc_domain := Some domain; sc_path := Some path |} in
      _ <~ jar_set call ;;
      calls <~ listed_cookies rest ;;
      Ok (call :: calls)
  end.

(** [for name, value in cookies.items(): session.cookies.set(name, value)] *)
Fixpoint legacy_cookies (cookies : list (string * json)) : outcome (list set_cookie) :=
  match cookies with
  | [] => Ok []
  | (name, value) :: rest =>
      let call := {| sc_name := JStr name; sc_value := value;
                     sc_domain := None; sc_path := None |} in
      _ <~ jar_set call ;;
      calls <~ legacy_cookies rest ;;
      Ok (call :: calls)
  end.

(** Both forms of the [cookies] entry: a list of cookie dicts, or else
    something with [items()], a dict from names to values. *)
Definition stored_cookies (cookies : json) : outcome (list set_cookie) :=
  match cookies with
  | JArr l => listed_cookies l
  | JObj d => legacy_cookies d
  | _ => Raise AttributeError
  end.

(** The [cached_data] dict. *)
Definition cached_data_of (id_data : json) : outcome json :=
  generated_at <~ py_get id_data "generated_at" JNull ;;
  user <~ py_get id_data "user" (JObj []) ;;
  courses <~ py_get id_data "courses" (JArr []) ;;
  credentials <~ py_get id_data "credentials" JNull ;;
  Ok (JObj [("generated_at", generated_at); ("user", user);
            ("courses", courses); ("credentials", credentials)]).

Definition load_id_file (id_path : string) : M (list set_cookie * json) :=
  except_file id_path
    (id_data <- load_json id_path ;;
     cookies <- lift (py_get id_data "cookies" (JArr [])) ;;
     session <- lift (stored_cookies cookies) ;;
     cached_data <- lift (cached_data_of id_data) ;;
     ret (session, cached_data)).

(** The call that puts a cookie of a session back as it was saved. *)
Definition set_again (ck : cookie) : set_cookie :=
  {| sc_name := ck_name ck; sc_value := ck_value ck;
     sc_domain := Some (ck_domain ck); sc_path := Some (ck_path ck) |}.

(** A cookie as a jar of requests holds it, so that the jar takes it again:
    its domain is a string and its path and its name are hashable (a cookie
    whose value is [None] is taken whatever the rest). *)
Definition jar_cookie (ck : cookie) : Prop := jar_set (set_again ck) = Ok tt.


(** ** client.py: the user, the enrolled courses and their instructors *)

Definition with_user_id (c : client) (id : json) : client :=
  {| domain := domain c; user_id := id; cached_data := cached_data c; id_path := id_path c |}.

Definition with_cached_data (c : client) (data : json) : client :=
  {| domain := domain c; user_id := user_id c; cached_data := data; id_path := id_path c |}.

(** [e.status_code == 401] *)
Definition is_401 (status : option Z) : bool :=
  match status with
  | Some z => (z =? 401)%Z
  | None => false
  end.

(** [_validate_auth] sets [self._user_id]: it returns the client with it. *)
Definition _validate_auth (c : client) : M client := fun w =>
  match (user_data <- _get c "/users/me" ∅ ;;
         id <- lift (py_get user_data "id" JNull) ;;
         ret (with_user_id c id)) w with
  | (Raise (BBAPIError message status _), w') =>
      if is_401 status
      then (Raise (BBAuthError "Cookie has expired or is invalid (401 Unauthorized)"), w')
      else (Raise (BBAuthError ("Authentication validation failed: " +:+ message)), w')
  | r => r
  end.

Definition get_current_user (c : client) : M json := _get c "/users/me" ∅.

(** [role in ["Instructor", "TeachingAssistant", "Grader", "CourseBuilder"]] *)
Definition teaching_roles : list string :=
  ["Instructor"; "TeachingAssistant"; "Grader"; "CourseBuilder"].

Definition is_teaching_role (role : json) : bool := existsb (eq_str role) teaching_roles.

Section Directory.

Variable py : python.

(** The body of [for membership in memberships]. *)
Definition enrolled_course (c : client) (enrolled_courses : list json) (membership : json)
  : M (list json) :=
  course_id <- lift (py_get membership "courseId" JNull) ;;
  if negb (truthy course_id) then ret enrolled_courses
  else
    except_api
      (course <- _get c ("/courses/" +:+ py_str py course_id) ∅ ;;
       access_url <- lift (py_get course "externalAccessUrl" JNull) ;;
       if truthy access_url then
         course <- lift (py_setitem course "membership" membership) ;;
         ret (enrolled_courses ++ [course])
       else ret enrolled_courses)
      (ret enrolled_courses).

Definition get_enrolled_courses (c : client) : M (list json) :=
  memberships <- _get_paginated c ("/users/" +:+ py_str py (user_id c) +:+ "/courses") None ;;
  for_each memberships (enrolled_course c) [].

(** The body of [for member in memberships]. *)
Definition course_instructor (c : client) (instructors : list json) (member : json)
  : M (list json) :=
  role <- lift (py_get member "courseRoleId" (JStr "")) ;;
  if is_teaching_role role then
    user_id <- lift (py_get member "userId" JNull) ;;
    except_api
      (user_data <- _get c ("/users/" +:+ py_str py user_id) ∅ ;;
       user_data <- lift (py_setitem user_data "courseRole" role) ;;
       ret (instructors ++ [user_data]))
      (name <- lift (py_get member "name" (JObj [])) ;;
       ret (instructors ++ [JObj [("userId", user_id); ("courseRole", role); ("name", name)]]))
  else ret instructors.

Definition _get_course_instructors_single (c : client) (course_id : json) : M (list json) :=
  except_api
    (memberships <- _get_paginated c ("/courses/" +:+ py_str py course_id +:+ "/users") None ;;
     for_each memberships (course_instructor c) [])
    (ret []).

(** [record["course"] = {"id": ..., "name": ..., "courseId": ...}] and the
    [append], the body of the inner loop of [get_course_instructors] and of
    [get_attendance]. *)
Definition tag_with_course (course_id course : json) (all : list json) (record : json)
  : M (list json) :=
  name <- lift (py_get course "name" JNull) ;;
  code <- lift (py_get course "courseId" JNull) ;;
  record <- lift (py_setitem record "course"
                    (JObj [("id", course_id); ("name", name); ("courseId", code)])) ;;
  ret (all ++ [record]).

(** [course_id] is [JNull] for the default [None]. *)
Definition get_course_instructors (c : client) (course_id : json) : M (list json) :=
  if truthy course_id then _get_course_instructors_single c course_id
  else
    courses <- get_enrolled_courses c ;;
    for_each courses
      (fun all_instructors course =>
         course_id <- lift (py_get course "id" JNull) ;;
         instructors <- _get_course_instructors_single c course_id ;;
         for_each instructors (tag_with_course course_id course) all_instructors)
      [].

Definition get_attendance (c : client) (course_id : json) : M (list json) :=
  if truthy course_id then _get_course_attendance py c course_id
  else
    courses <- get_enrolled_courses c ;;
    for_each courses
      (fun all_attendance course =>
         cid <- lift (py_get course "id" JNull) ;;
         attendance <- _get_course_attendance py c cid ;;
         for_each attendance (tag_with_course cid course) all_attendance)
      [].

(** [courses[0].get("name", "").split("__")[1] if courses and "__" in
    courses[0].get("name", "") else None] *)
Definition class_of (courses : list json) : outcome json :=
  match courses with
  | [] => Ok JNull
  | first_course :: _ =>
      course_name <~ py_get first_course "name" (JStr "") ;;
      found <~ py_contains "__" course_name ;;
      if found then
        s <~ py_string course_name ;;
        Ok (from_option JStr JNull (Str.split "__" s !! 1%nat))
      else Ok JNull
  end.

(** The [_cached_data] that [generate_id_file] installs. *)
Definition generated_cache (user_data : json) (courses : list json) (username password : json)
  : outcome json :=
  name_obj <~ py_get user_data "name" (JObj []) ;;
  full_name <~ person_name py name_obj ;;
  user_name <~ py_get user_data "userName" (JStr "") ;;
  contact <~ py_get user_data "contact" (JObj []) ;;
  email <~ py_get contact "email" (JStr "") ;;
  class_name <~ class_of courses ;;
  Ok (JObj [("user", JObj [("name", JStr full_name); ("username", user_name);
                           ("email", email); ("class", class_name)]);
            ("courses", JArr courses);
            ("credentials",
             if truthy username
             then JObj [("username", username); ("password", password)]
             else JNull)]).

(** [session] are the cookies of [self.session], [username] and [password]
    the fields [self._username] and [self._password]; the new [_cached_data]
    comes back in the client. *)
Definition generate_id_file (c : client) (session : list cookie) (username password : json)
    (id_path : string) : M client :=
  user_data <- get_current_user c ;;
  courses <- get_enrolled_courses c ;;
  instructors <- get_course_instructors c JNull ;;
  save_id_file py id_path session user_data courses instructors username password ;;
  cached <- lift (generated_cache user_data courses username password) ;;
  ret (with_cached_data c cached).

Definition get_cached_data (c : client) : json := cached_data c.

End Directory.

(** The reply the next request meets. *)
Definition next_reply (w : world) : transport :=
  match script w with
  | [] => connection_down
  | t :: _ => t
  end.

(** A membership [get_enrolled_courses] asks the course of: one with a
    [courseId]. *)
Definition has_course (membership : json) : bool :=
  truthy (item_get "courseId" JNull membership).

(** What [get_enrolled_courses] keeps for such a membership, by the reply to
    the request for its course: on status 200, when the object the server sent
    has an [externalAccessUrl], that object with the membership stored under
    [membership]; nothing when it has none, on any other status and on a
    transport error. *)
Definition course_answer (membership : json) (t : transport) : outcome (list json) :=
  match t with
  | Response r =>
      if (status_code r =? 200)%Z then
        access_url <~ py_get (body r) "externalAccessUrl" JNull ;;
        if truthy access_url then
          course <~ py_setitem (body r) "membership" membership ;;
          Ok [course]
        else Ok []
      else Ok []
  | RequestException _ => Ok []
  end.

Definition course_url (py : python) (c : client) (membership : json) : string :=
  v1_url c ("/courses/" +:+ py_str py (item_get "courseId" JNull membership)).

(** A member of a course who counts as an instructor. *)
Definition teaches (member : json) : bool :=
  match member with
  | JObj m => is_teaching_role (default (JStr "") (dict_get "courseRoleId" m))
  | _ => false
  end.

(** What is kept of a member when the request for the user fails. *)
Definition basic_info (member : json) : json :=
  JObj [("userId", item_get "userId" JNull member);
        ("courseRole", item_get "courseRoleId" (JStr "") member);
        ("name", item_get "name" (JObj []) member)].

(** The record [_get_course_instructors_single] keeps for a member who
    teaches, by the reply to the request for the user: on status 200 the object
    the server sent with the member's role stored under [courseRole]; on any
    other status and on a transport error the member's [userId], role and
    [name]. *)
Definition instructor_answer (member : json) (t : transport) : outcome (list json) :=
  match t with
  | Response r =>
      if (status_code r =? 200)%Z then
        user_data <~ py_setitem (body r) "courseRole"
                       (item_get "courseRoleId" (JStr "") member) ;;
        Ok [user_data]
      else Ok [basic_info member]
  | RequestException _ => Ok [basic_info member]
  end.

Definition instructor_url (py : python) (c : client) (member : json) : string :=
  v1_url c ("/users/" +:+ py_str py (item_get "userId" JNull member)).

(** The [course] entry the two all-courses listings put on a record. *)
Definition course_tag (course : list (string * json)) : json :=
  JObj [("id", default JNull (dict_get "id" course));
        ("name", default JNull (dict_get "name" course));
        ("courseId", default JNull (dict_get "courseId" course))].

Definition tagged_with (courses : list json) (record : json) : Prop :=
  exists d course,
    record = JObj d /\ In (JObj course) courses /\ dict_get "course" d = Some (course_tag course).

(** What the server says during a first login: the user, the memberships and
    the course (asked twice, once for the courses and once for the
    instructors), the members of the course and the user of its instructor. *)
Definition demo_reply (j : json) : transport :=
  Response {| status_code := 200; body := j; text := "" |}.

Definition demo_memberships : transport :=
  page_reply {| results := [JObj [("courseId", JStr "_16318_1"); ("courseRoleId", JStr "Student")]];
                next_page := None |}.

Definition demo_members : transport :=
  page_reply {| results := [JObj [("userId", JStr "_9_1"); ("courseRoleId", JStr "Instructor")];
                            JObj [("userId", JStr "_7_1"); ("courseRoleId", JStr "Student")]];
                next_page := None |}.

Definition demo_first_login : list transport :=
  [demo_reply (demo_user "amine.bensalah");
   demo_memberships; demo_reply demo_course;
   demo_memberships; demo_reply demo_course;
   demo_members;
   demo_reply (JObj [("id", JStr "_9_1");
                     ("name", JObj [("given", JStr "Sana"); ("family", JStr "Trabelsi")])])].

(** ** client.py: construction and refresh of the client

    The browser login is [login_with_selenium] of auth.py, which drives
    Chrome; it is a parameter here, a computation that gives the cookies of the
    session it returns or raises. Messages printed on the way are left out. *)

Definition with_id_path (c : client) (path : option string) : client :=
  {| domain := domain c; user_id := user_id c; cached_data := cached_data c; id_path := path |}.

(** [if self._id_path:], the path when it is one. *)
Definition truthy_path (path : option string) : option string :=
  match path with
  | Some p => if negb (String.eqb p "") then Some p else None
  | None => None
  end.

(** [Path(p).exists()] *)
Definition path_exists (p : string) : M bool := fun w =>
  (Ok (match fs w p with Missing => false | _ => true end), w).

(** [self._id_path and Path(self._id_path).exists()], as a condition. *)
Definition has_id_file (path : option string) : M bool :=
  match truthy_path path with
  | Some p => path_exists p
  | None => ret false
  end.

Definition nl : string := String "010"%char "".

(** The message of the [BBAuthError] that [__init__] raises when the stored
    session is refused and it cannot log in again. *)
Definition auth_failed_message (e id_path : string) (username password : json) : string :=
  "Authentication failed: " +:+ e +:+ nl +:+ nl
  +:+ "Your session may have expired. "
  +:+ (if negb (truthy username) || negb (truthy password) then
         "Please either:" +:+ nl
         +:+ "  1. Provide username/password: BBClient(id_path='" +:+ id_path
         +:+ "', username='...', password='...', auto_refresh=True)" +:+ nl
         +:+ "  2. Re-login with Selenium to generate a fresh .id file"
       else "").

Section Login.

Variable py : python.
Variable login_with_selenium : json -> json -> string -> M (list cookie).

(** [username] and [password] are the fields [self._username] and
    [self._password]; the client comes back with the fields the method set. *)
Definition _refresh_authentication (c : client) (username password : json) : M client :=
  if negb (truthy username) || negb (truthy password) then
    raise (BBAuthError "Cannot refresh: username or password not provided")
  else
    session <- login_with_selenium username password (domain c) ;;
    c <- _validate_auth c ;;
    has_existing_id <- has_id_file (id_path c) ;;
    c <- (if has_existing_id then
            match id_path c with
            | Some p =>
                update_id_file_cookies py p session ;;
                loaded <- load_id_file p ;;
                ret (with_cached_data c loaded.2)
            | None => ret c
            end
          else
            match truthy_path (id_path c) with
            | Some p => generate_id_file py c session username password p
            | None =>
                if truthy username then
                  let id_file := py_str py username +:+ ".id" in
                  c <- generate_id_file py c session username password id_file ;;
                  ret (with_id_path c (Some id_file))
                else ret c
            end) ;;
    except_pass (is_nerd py c ;; is_attending py c ;; ret tt) ;;
    ret c.

(** [stored_creds and not self._username]: the credentials of the file count
    only when no username was given. *)
Definition effective_credentials (cached username password : json) : outcome (json * json) :=
  stored_creds <~ py_get cached "credentials" JNull ;;
  if truthy stored_creds && negb (truthy username) then
    stored_username <~ py_get stored_creds "username" JNull ;;
    stored_password <~ py_get stored_creds "password" JNull ;;
    Ok (stored_username, stored_password)
  else Ok (username, password).

(** [BBClient(id_path, username, password, domain, auto_refresh)]: the
    client, and the username and password it ends up with. *)
Definition __init__ (id_path : option string) (username password : json) (domain : string)
    (auto_refresh : bool) : M (client * (json * json)) :=
  let c := {| domain := domain; user_id := JNull; cached_data := JNull; id_path := id_path |} in
  has_file <- has_id_file id_path ;;
  match has_file, id_path with
  | true, Some p =>
      loaded <- load_id_file p ;;
      let c := with_cached_data c loaded.2 in
      credentials <- lift (effective_credentials (cached_data c) username password) ;;
      let '(username, password) := credentials in
      fun w =>
        match _validate_auth c w with
        | (Raise (BBAuthError e), w') =>
            if auto_refresh && truthy username && truthy password then
              (c <- _refresh_authentication c username password ;;
               ret (c, (username, password))) w'
            else (Raise (BBAuthError (auth_failed_message e p username password)), w')
        | (Raise e, w') => (Raise e, w')
        | (Ok c, w') => (Ok (c, (username, password)), w')
        end
  | _, _ =>
      if truthy username && truthy password then
        c <- _refresh_authentication c username password ;;
        ret (c, (username, password))
      else
        raise (BBAuthError "Must provide either id_path or username/password for authentication")
  end.

End Login.

(** The client has no cache file: it has no path, or nothing is at its path. *)
Definition no_id_file (path : option string) (w : world) : Prop :=
  match truthy_path path with
  | Some p => fs w p = Missing
  | None => True
  end.

(** The file a first login writes: the one at the client's path, or else
    the one named after the username. *)
Definition first_login_path (py : python) (c : client) (username : json) : string :=
  default (py_str py username +:+ ".id") (truthy_path (id_path c)).

(** A browser login that succeeds with the cookie of [demo_session]. *)
Definition demo_login (username password : json) (domain : string) : M (list cookie) :=
  ret demo_session.

(** From [w] to [w'] nothing on disk has changed but, in the object stored
    at [path], the entries under [keys]. *)
Definition only_keys_change (path : string) (keys : list string) (w w' : world) : Prop :=
  (forall p, p <> path -> fs w' p = fs w p)
  /\ match fs w path with
     | Content (JObj d) =>
         exists d', fs w' path = Content (JObj d')
                    /\ forall k, ~ In k keys -> dict_get k d' = dict_get k d
     | other => fs w' path = other
     end.

(** The client [__init__] has once the cache file is loaded. *)
Definition loaded_client (domain path : string) (cached : json) : client :=
  {| domain := domain; user_id := JNull; cached_data := cached; id_path := Some path |}.

(** A reply that refuses the session. *)
Definition unauthorized : transport :=
  Response {| status_code := 401; body := JNull; text := "Unauthorized" |}.

(** * Properties *)

(** ** Strings *)

Section StrLemmas.

Lemma append_cons c a b : String c a +:+ b = String c (a +:+ b).
Proof. reflexivity. Qed.

Lemma append_nil b : "" +:+ b = b.
Proof. reflexivity. Qed.

Lemma length_append a b : String.length (a +:+ b) = (String.length a + String.length b)%nat.
Proof. induction a as [|c a IH]; simpl; auto. Qed.

Lemma length_drop n s : String.length (Str.drop n s) = (String.length s - n)%nat.
Proof.
  revert s; induction n as [|n IH]; intros [|c s]; simpl; auto.
Qed.

Lemma length_take n s : String.length (Str.take n s) = Nat.min n (String.length s).
Proof.
  revert s; induction n as [|n IH]; intros [|c s]; simpl; auto.
Qed.

Lemma take_drop n s : Str.take n s +:+ Str.drop n s = s.
Proof.
  revert s; induction n as [|n IH]; intros [|c s]; simpl; auto.
  rewrite append_cons. f_equal. apply IH.
Qed.

Lemma starts_with_app sep s :
  Str.starts_with sep s = true -> s = sep +:+ Str.drop (String.length sep) s.
Proof.
  revert s; induction sep as [|a sep IH]; intros s H; simpl in *; auto.
  destruct s as [|b s]; [discriminate|].
  apply andb_prop in H as [Hab H]. apply Ascii.eqb_eq in Hab as ->.
  rewrite append_cons. f_equal. now apply IH.
Qed.

Lemma starts_with_of_app sep t : Str.starts_with sep (sep +:+ t) = true.
Proof.
  induction sep as [|a sep IH]; simpl; auto.
  rewrite Ascii.eqb_refl. exact IH.
Qed.

(** A found offset is an occurrence: [s] is the text before it, then [sep],
    then the rest. *)
Lemma find_Some sep s i :
  Str.find sep s = Some i ->
  s = Str.take i s +:+ sep +:+ Str.drop (i + String.length sep) s.
Proof.
  revert i; induction s as [|c s IH]; intros i; cbn [Str.find].
  - destruct (Str.starts_with sep "") eqn:E; [|discriminate].
    intros [= <-]. now apply starts_with_app in E.
  - destruct (Str.starts_with sep (String c s)) eqn:E.
    + intros [= <-]. now apply starts_with_app in E.
    + destruct (Str.find sep s) as [j|] eqn:F; [|discriminate].
      intros [= <-]. simpl. rewrite append_cons. f_equal. now apply IH.
Qed.

Lemma find_lt sep s i :
  Str.find sep s = Some i -> (i + String.length sep <= String.length s)%nat.
Proof.
  revert i; induction s as [|c s IH]; intros i; cbn [Str.find].
  - destruct (Str.starts_with sep "") eqn:E; [|discriminate].
    intros [= <-]. destruct sep; [simpl; lia | discriminate].
  - destruct (Str.starts_with sep (String c s)) eqn:E.
    + intros [= <-]. apply starts_with_app in E.
      apply (f_equal String.length) in E.
      rewrite length_append in E. simpl in *. lia.
    + destruct (Str.find sep s) as [j|] eqn:F; [|discriminate].
      intros [= <-]. specialize (IH j eq_refl). simpl. lia.
Qed.

(** It is the leftmost one: no occurrence starts before it. *)
Lemma find_first sep s i p q :
  Str.find sep s = Some i -> s = p +:+ sep +:+ q -> (i <= String.length p)%nat.
Proof.
  revert i p; induction s as [|c s IH]; intros i p; cbn [Str.find].
  - destruct (Str.starts_with sep ""); [|discriminate]. intros [= <-]. lia.
  - destruct (Str.starts_with sep (String c s)) eqn:E.
    + intros [= <-]. lia.
    + destruct (Str.find sep s) as [j|] eqn:F; [|discriminate].
      intros [= <-] Hs. destruct p as [|a p].
      * rewrite append_nil in Hs. rewrite Hs, starts_with_of_app in E. discriminate.
      * rewrite append_cons in Hs. injection Hs as _ Hs. simpl.
        specialize (IH j p eq_refl Hs). lia.
Qed.

Lemma find_None sep s p q : Str.find sep s = None -> s <> p +:+ sep +:+ q.
Proof.
  revert p; induction s as [|c s IH]; intros p; cbn [Str.find].
  - destruct (Str.starts_with sep "") eqn:E; [discriminate|].
    intros _ Hs. destruct p.
    + rewrite append_nil in Hs. rewrite Hs, starts_with_of_app in E. discriminate.
    + discriminate.
  - destruct (Str.starts_with sep (String c s)) eqn:E; [discriminate|].
    destruct (Str.find sep s) eqn:F; [discriminate|].
    intros _ Hs. destruct p as [|a p].
    + rewrite append_nil in Hs. rewrite Hs, starts_with_of_app in E. discriminate.
    + rewrite append_cons in Hs. injection Hs as _ Hs. now apply (IH p).
Qed.

Lemma sep_length_pos sep : sep <> "" -> (0 < String.length sep)%nat.
Proof. destruct sep; [congruence | simpl; lia]. Qed.

Lemma find_in_empty sep : sep <> "" -> Str.find sep "" = None.
Proof. destruct sep; [congruence | reflexivity]. Qed.

(** Enough fuel: [split] obeys its recursive equation. *)
Lemma split_fuel_enough sep s n m :
  sep <> "" -> (String.length s <= n)%nat -> (String.length s <= m)%nat ->
  Str.split_fuel n sep s = Str.split_fuel m sep s.
Proof.
  intros Hsep. revert s m; induction n as [|n IH]; intros s m Hn Hm.
  - destruct s; [|simpl in Hn; lia].
    destruct m; cbn [Str.split_fuel]; auto.
    now rewrite find_in_empty.
  - destruct m as [|m].
    + destruct s; [|simpl in Hm; lia].
      cbn [Str.split_fuel]. now rewrite find_in_empty.
    + cbn [Str.split_fuel]. destruct (Str.find sep s) as [i|] eqn:F; auto.
      f_equal. pose proof (find_lt _ _ _ F) as L.
      pose proof (sep_length_pos _ Hsep).
      apply IH; rewrite length_drop; lia.
Qed.

Lemma split_unfold sep s :
  sep <> "" ->
  Str.split sep s =
    match Str.find sep s with
    | None => [s]
    | Some i => Str.take i s :: Str.split sep (Str.drop (i + String.length sep) s)
    end.
Proof.
  intros Hsep. unfold Str.split at 1.
  destruct (String.length s) as [|n] eqn:L.
  - destruct s; [|discriminate]. cbn [Str.split_fuel].
    now rewrite find_in_empty.
  - cbn [Str.split_fuel]. destruct (Str.find sep s) as [i|] eqn:F; auto.
    f_equal. unfold Str.split. pose proof (find_lt _ _ _ F) as L'.
    pose proof (sep_length_pos _ Hsep).
    apply split_fuel_enough; auto; rewrite length_drop; lia.
Qed.

Lemma split_first sep s : sep <> "" -> first_part (Str.split sep s) = before_first sep s.
Proof.
  intros Hsep. rewrite split_unfold by assumption. unfold before_first.
  now destruct (Str.find sep s).
Qed.

End StrLemmas.

(** ** [parse_course_info] *)

Lemma sep_uu_nonempty : "__" <> "".
Proof. discriminate. Qed.

Lemma split_second sep s :
  sep <> "" ->
  Str.split sep s !! 1%nat = before_first sep <$> after_first sep s.
Proof.
  intros Hsep. rewrite split_unfold by assumption. unfold after_first.
  destruct (Str.find sep s) as [i|]; [|reflexivity].
  cbn [lookup list_lookup fmap option_fmap option_map].
  rewrite split_unfold by assumption. unfold before_first.
  now destruct (Str.find sep _).
Qed.

Lemma split_length_found sep s i :
  sep <> "" -> Str.find sep s = Some i -> (1 <? length (Str.split sep s))%nat = true.
Proof.
  intros Hsep F. rewrite split_unfold, F by assumption.
  rewrite (split_unfold sep (Str.drop _ _)) by assumption.
  now destruct (Str.find sep (Str.drop _ _)).
Qed.

(** C4, as the spec words it, fails: with two separators the section label is
    the text between them, not everything after the first one. *)
Lemma parse_course_info_two_suffixes :
  ~ splits_on_first_occurrence "Gestion de projet__4SAE11__B" "ESE.PR-01__4SAE11".
Proof.
  unfold splits_on_first_occurrence. vm_compute. intros (_ & _ & H). discriminate H.
Qed.

(** C4 (amended): the clean name and the clean id are the text before the first
    "__" (the string itself when it has none); the section label is null when
    the name has no "__", and otherwise the text after the first "__" up to the
    next "__" (all of it when there is no other). *)
Theorem parse_course_info_spec (course_name course_id : string) :
  let r := parse_course_info course_name course_id in
  ci_name r = before_first "__" course_name
  /\ ci_course_id r = before_first "__" course_id
  /\ ci_class_name r = before_first "__" <$> after_first "__" course_name.
Proof.
  pose proof sep_uu_nonempty as Hsep.
  unfold parse_course_info, Str.contains. cbn zeta.
  assert (Hid : (if match Str.find "__" course_id with Some _ => true | None => false end
                 then first_part (Str.split "__" course_id) else course_id)
                = before_first "__" course_id).
  { destruct (Str.find "__" course_id) eqn:F.
    - now apply split_first.
    - unfold before_first. now rewrite F. }
  destruct (Str.find "__" course_name) as [i|] eqn:F; cbn [ci_name ci_course_id ci_class_name].
  - rewrite (split_length_found _ _ _ Hsep F).
    repeat split; [now apply split_first | exact Hid | now apply split_second].
  - repeat split; [|exact Hid|].
    + unfold before_first. now rewrite F.
    + unfold after_first. now rewrite F.
Qed.

Example parse_course_info_gestion :
  parse_course_info "Gestion de projet__4SAE11" "ESE.PR-01__4SAE11"
  = {| ci_name := "Gestion de projet"; ci_course_id := "ESE.PR-01";
       ci_class_name := Some "4SAE11" |}.
Proof. reflexivity. Qed.

Example parse_course_info_plain :
  parse_course_info "Anglais" "ESE.AN-01"
  = {| ci_name := "Anglais"; ci_course_id := "ESE.AN-01"; ci_class_name := None |}.
Proof. reflexivity. Qed.

(** ** The pagination walkers *)

Section Walker.

Variables (c : client) (endpoint : string).

Lemma _get_run params w :
  _get c endpoint params w =
    (match script w with
     | Response r :: _ =>
         if (status_code r =? 200)%Z then Ok (body r)
         else Raise (BBAPIError ("API request failed: " +:+ endpoint)
                                (Some (status_code r)) (Some (text r)))
     | RequestException e :: _ => Raise (BBAPIError ("Request error: " +:+ e) None None)
     | [] => Raise (BBAPIError "Request error: connection down" None None)
     end, after_request w (v1_url c endpoint) params).
Proof.
  unfold _get, bind, session_get, after_request, request_to.
  destruct (script w) as [|[r|e] rest]; cbn; try reflexivity.
  now destruct (status_code r =? 200)%Z.
Qed.

Lemma _get_v2_run params w :
  _get_v2 c endpoint params w =
    (match script w with
     | Response r :: _ =>
         if (status_code r =? 200)%Z then Ok (body r)
         else Raise (BBAPIError ("API v2 request failed: " +:+ endpoint)
                                (Some (status_code r)) (Some (text r)))
     | RequestException e :: _ => Raise (BBAPIError ("Request error: " +:+ e) None None)
     | [] => Raise (BBAPIError "Request error: connection down" None None)
     end, after_request w (v2_url c endpoint) params).
Proof.
  unfold _get_v2, bind, session_get, after_request, request_to.
  destruct (script w) as [|[r|e] rest]; cbn; try reflexivity.
  now destruct (status_code r =? 200)%Z.
Qed.

(** Both loops are: fetch, then [after_page]. *)
Lemma _get_paginated_loop_unfold fuel acc params w :
  _get_paginated_loop (S fuel) c endpoint acc params w =
    match _get c endpoint params w with
    | (Raise e, w') => (Raise e, w')
    | (Ok data, w') =>
        match after_page data acc params with
        | Raise e => (Raise e, w')
        | Ok (acc', None) => (Ok acc', w')
        | Ok (acc', Some params') => _get_paginated_loop fuel c endpoint acc' params' w'
        end
    end.
Proof.
  cbn [_get_paginated_loop]. unfold bind at 1.
  destruct (_get c endpoint params w) as [[data|e] w']; [|reflexivity].
  unfold after_page, bind, lift, ret.
  destruct (py_get data "results" (JArr [])) as [results|]; [|reflexivity].
  destruct (py_iter results) as [items|]; [|reflexivity].
  destruct (py_get data "paging" (JObj [])) as [paging|]; [|reflexivity].
  destruct (py_get paging "nextPage" JNull) as [next|]; [|reflexivity].
  destruct (negb (truthy next)); [reflexivity|].
  destruct (py_contains "offset=" next) as [[|]|]; try reflexivity.
  now destruct (py_string next).
Qed.

Lemma _get_paginated_v2_loop_unfold fuel acc params w :
  _get_paginated_v2_loop (S fuel) c endpoint acc params w =
    match _get_v2 c endpoint params w with
    | (Raise e, w') => (Raise e, w')
    | (Ok data, w') =>
        match after_page data acc params with
        | Raise e => (Raise e, w')
        | Ok (acc', None) => (Ok acc', w')
        | Ok (acc', Some params') => _get_paginated_v2_loop fuel c endpoint acc' params' w'
        end
    end.
Proof.
  cbn [_get_paginated_v2_loop]. unfold bind at 1.
  destruct (_get_v2 c endpoint params w) as [[data|e] w']; [|reflexivity].
  unfold after_page, bind, lift, ret.
  destruct (py_get data "results" (JArr [])) as [results|]; [|reflexivity].
  destruct (py_iter results) as [items|]; [|reflexivity].
  destruct (py_get data "paging" (JObj [])) as [paging|]; [|reflexivity].
  destruct (py_get paging "nextPage" JNull) as [next|]; [|reflexivity].
  destruct (negb (truthy next)); [reflexivity|].
  destruct (py_contains "offset=" next) as [[|]|]; try reflexivity.
  now destruct (py_string next).
Qed.

Lemma after_page_no_fuel data acc params : after_page data acc params <> Raise LoopFuel.
Proof.
  unfold after_page.
  destruct data; cbn; try discriminate.
  destruct (default (JArr []) (dict_get "results" d)); cbn; try discriminate;
  destruct (default (JObj []) (dict_get "paging" d)); cbn; try discriminate;
  destruct (default JNull (dict_get "nextPage" _)); cbn; try discriminate;
  repeat match goal with
         | |- context [if ?b then _ else _] => destruct b; try discriminate
         end.
Qed.

(** The loop never runs out of fuel: a round with no reply left ends in the
    [BBAPIError] of the failed request. *)
Lemma _get_paginated_loop_fuel fuel acc params w :
  length (script w) < fuel ->
  (_get_paginated_loop fuel c endpoint acc params w).1 <> Raise LoopFuel.
Proof.
  revert acc params w; induction fuel as [|fuel IH]; intros acc params w Hlen; [lia|].
  rewrite _get_paginated_loop_unfold, _get_run.
  destruct (script w) as [|[r|e] rest] eqn:Hs; cbn [fst]; try discriminate.
  destruct (status_code r =? 200)%Z; [|discriminate].
  pose proof (after_page_no_fuel (body r) acc params) as Hno.
  destruct (after_page (body r) acc params) as [[acc' [params'|]]|e]; cbn [fst];
    try congruence; try discriminate.
  apply IH. unfold after_request; cbn [script]. rewrite Hs. cbn in *. lia.
Qed.

Lemma paginated_fuel_free params w :
  (_get_paginated c endpoint params w).1 <> Raise LoopFuel.
Proof. unfold _get_paginated. apply _get_paginated_loop_fuel. lia. Qed.

Lemma _get_paginated_v2_loop_fuel fuel acc params w :
  length (script w) < fuel ->
  (_get_paginated_v2_loop fuel c endpoint acc params w).1 <> Raise LoopFuel.
Proof.
  revert acc params w; induction fuel as [|fuel IH]; intros acc params w Hlen; [lia|].
  rewrite _get_paginated_v2_loop_unfold, _get_v2_run.
  destruct (script w) as [|[r|e] rest] eqn:Hs; cbn [fst]; try discriminate.
  destruct (status_code r =? 200)%Z; [|discriminate].
  pose proof (after_page_no_fuel (body r) acc params) as Hno.
  destruct (after_page (body r) acc params) as [[acc' [params'|]]|e]; cbn [fst];
    try congruence; try discriminate.
  apply IH. unfold after_request; cbn [script]. rewrite Hs. cbn in *. lia.
Qed.

Lemma paginated_v2_fuel_free params w :
  (_get_paginated_v2 c endpoint params w).1 <> Raise LoopFuel.
Proof. unfold _get_paginated_v2. apply _get_paginated_v2_loop_fuel. lia. Qed.

(** What a round makes of a body that reads as a page. *)
Lemma after_page_of data p acc params :
  page_of data = Some p ->
  after_page data acc params
  = Ok (acc ++ results p, if goes_on p then Some (query_after params p) else None).
Proof.
  unfold page_of, after_page. destruct data as [| | | | | |d]; try discriminate.
  cbn [py_get].
  destruct (default (JArr []) (dict_get "results" d)) as [| | | | |items|]; try discriminate.
  cbn [py_iter].
  destruct (default (JObj []) (dict_get "paging" d)) as [| | | | | |paging]; try discriminate.
  cbn [py_get].
  destruct (default JNull (dict_get "nextPage" paging)) as [| | | |s| |]; try discriminate;
    intros [= <-]; unfold goes_on, query_after; cbn; [reflexivity|].
  destruct (s =? "")%string; cbn; [reflexivity|].
  now destruct (Str.contains "offset=" s).
Qed.

Lemma page_of_body p : page_of (page_body p) = Some p.
Proof. destruct p as [items [s|]]; reflexivity. Qed.

Lemma reply_page_reply p : reply_page (page_reply p) = Some p.
Proof. cbn. apply page_of_body. Qed.

(** One round of the v1 loop on a reply that carries a page. *)
Lemma _get_paginated_loop_page fuel acc params t p rest w :
  reply_page t = Some p ->
  script w = t :: rest ->
  _get_paginated_loop (S fuel) c endpoint acc params w =
    let w' := after_request w (v1_url c endpoint) params in
    if goes_on p
    then _get_paginated_loop fuel c endpoint (acc ++ results p) (query_after params p) w'
    else (Ok (acc ++ results p), w').
Proof.
  intros Ht Hs. rewrite _get_paginated_loop_unfold, _get_run, Hs.
  destruct t as [r|e]; [|discriminate]. cbn [reply_page] in Ht.
  destruct (status_code r =? 200)%Z; [|discriminate].
  rewrite (after_page_of _ _ _ _ Ht). cbn zeta. now destruct (goes_on p).
Qed.

End Walker.

(** ** The offset token of [nextPage] *)

Lemma append_assoc a b d : (a +:+ b) +:+ d = a +:+ b +:+ d.
Proof. induction a as [|x a IH]; [reflexivity|]. rewrite !append_cons. now f_equal. Qed.

Lemma contains_find sep s : Str.contains sep s = false <-> Str.find sep s = None.
Proof. unfold Str.contains. destruct (Str.find sep s); split; congruence. Qed.

Lemma last_part_cons x l : l <> [] -> last_part (x :: l) = last_part l.
Proof. unfold last_part. destruct l; [congruence | reflexivity]. Qed.

Lemma split_nonempty sep s : sep <> "" -> Str.split sep s <> [].
Proof.
  intros Hsep. rewrite split_unfold by assumption.
  destruct (Str.find sep s); discriminate.
Qed.

(** The last part of a split starts right after an occurrence of the
    separator, and holds no further occurrence. *)
Lemma split_last sep s n :
  sep <> "" -> String.length s <= n -> Str.contains sep s = true ->
  exists pre, s = pre +:+ sep +:+ last_part (Str.split sep s)
              /\ Str.find sep (last_part (Str.split sep s)) = None.
Proof.
  intros Hsep. revert s; induction n as [|n IH]; intros s Hn Hc.
  - destruct s; [|cbn in Hn; lia]. unfold Str.contains in Hc.
    rewrite find_in_empty in Hc by assumption. discriminate.
  - unfold Str.contains in Hc. destruct (Str.find sep s) as [i|] eqn:F; [|discriminate].
    rewrite split_unfold, F by assumption.
    rewrite last_part_cons by now apply split_nonempty.
    set (t := Str.drop (i + String.length sep) s).
    pose proof (find_Some _ _ _ F) as Hs. fold t in Hs.
    destruct (Str.find sep t) as [j|] eqn:G.
    + destruct (IH t) as (pre & Ht & Hl).
      * pose proof (find_lt _ _ _ F). pose proof (sep_length_pos _ Hsep).
        unfold t. rewrite length_drop. lia.
      * unfold Str.contains. now rewrite G.
      * exists (Str.take i s +:+ sep +:+ pre). split; [|exact Hl].
        rewrite !append_assoc. rewrite <- Ht. exact Hs.
    + rewrite (split_unfold sep t), G by assumption.
      exists (Str.take i s). split; [exact Hs | exact G].
Qed.

(** No occurrence lies wholly before the leftmost one. *)
Lemma find_take sep s i : sep <> "" -> Str.find sep s = Some i -> Str.find sep (Str.take i s) = None.
Proof.
  intros Hsep F. destruct (Str.find sep (Str.take i s)) as [j|] eqn:G; [|reflexivity].
  exfalso. pose proof (find_Some _ _ _ G) as Ht. pose proof (find_lt _ _ _ G) as Hj.
  pose proof (sep_length_pos _ Hsep). rewrite length_take in Hj.
  pose proof (take_drop i s) as Hs. rewrite Ht in Hs. rewrite !append_assoc in Hs.
  symmetry in Hs. pose proof (find_first _ _ _ _ _ F Hs) as Hi.
  rewrite length_take, length_take in Hi. lia.
Qed.

(** The offset sent next is the text of [nextPage] between its last [offset=]
    and the next [&], or the end of the string. *)
Lemma next_offset_spec s :
  Str.contains "offset=" s = true ->
  exists pre post,
    s = pre +:+ "offset=" +:+ next_offset s +:+ post
    /\ Str.contains "&" (next_offset s) = false
    /\ (post = "" \/ Str.starts_with "&" post = true)
    /\ Str.contains "offset=" (next_offset s +:+ post) = false.
Proof.
  intros Hc.
  destruct (split_last "offset=" s (String.length s)) as (pre & Hs & Hl); [discriminate|lia|exact Hc|].
  unfold next_offset. set (t := last_part (Str.split "offset=" s)) in *.
  rewrite split_first by discriminate. unfold before_first.
  destruct (Str.find "&" t) as [i|] eqn:F.
  - exists pre, ("&" +:+ Str.drop (i + 1) t).
    pose proof (find_Some _ _ _ F) as Ht. cbn [String.length] in Ht. rewrite <- Ht.
    repeat split; auto.
    + apply contains_find, find_take; [discriminate | exact F].
    + now apply contains_find.
  - exists pre, "". assert (Ht : t +:+ "" = t).
    { clear. induction t as [|x t IH]; [reflexivity|]. rewrite append_cons. now f_equal. }
    rewrite Ht. repeat split; auto; now apply contains_find.
Qed.

Example next_offset_middle :
  next_offset "/learn/api/public/v1/users/_7_1/courses?offset=200&limit=100" = "200".
Proof. reflexivity. Qed.

Example next_offset_end :
  next_offset "/learn/api/public/v1/courses/_9_1/users?limit=100&offset=100" = "100".
Proof. reflexivity. Qed.

(** ** Walking well-formed pages *)

Lemma query_after_again q p p' :
  goes_on p = true -> query_after (query_after q p) p' = 
                      match next_page p' with Some _ => query_after q p' | None => query_after q p end.
Proof.
  unfold goes_on, query_after. destruct (next_page p) as [s|]; [|discriminate].
  intros _. destruct (next_page p') as [s'|]; [|reflexivity].
  apply insert_insert_eq.
Qed.

Lemma goes_on_next p : goes_on p = true -> exists s, next_page p = Some s.
Proof. unfold goes_on. destruct (next_page p); [eauto | discriminate]. Qed.

Lemma _get_paginated_loop_pages c endpoint ps : forall fuel acc q p_last replies rest w,
  Forall (fun p => goes_on p = true) ps ->
  goes_on p_last = false ->
  Forall2 (fun t p => reply_page t = Some p) replies (ps ++ [p_last]) ->
  script w = replies ++ rest ->
  length ps < fuel ->
  exists w',
    _get_paginated_loop fuel c endpoint acc q w
      = (Ok (acc ++ concat (results <$> (ps ++ [p_last]))), w')
    /\ script w' = rest /\ fs w' = fs w
    /\ sent w' = sent w ++ (request_to (v1_url c endpoint) <$> (q :: (query_after q <$> ps))).
Proof.
  induction ps as [|p ps IH]; intros fuel acc q p_last replies rest w Hgo Hstop Hrep Hs Hfuel.
  - destruct fuel as [|fuel]; [lia|]. cbn [app] in Hrep.
    apply Forall2_cons_inv_r in Hrep as (t & replies' & Ht & Hnil & ->).
    apply Forall2_nil_inv_r in Hnil as ->. cbn in Hs.
    rewrite (_get_paginated_loop_page _ _ _ _ _ _ _ _ _ Ht Hs), Hstop. cbn zeta.
    exists (after_request w (v1_url c endpoint) q). split; [|split; [|split]].
    + cbn. now rewrite app_nil_r.
    + cbn. now rewrite Hs.
    + reflexivity.
    + reflexivity.
  - destruct fuel as [|fuel]; [cbn in Hfuel; lia|]. cbn [app] in Hrep.
    apply Forall2_cons_inv_r in Hrep as (t & replies' & Ht & Hrep & ->). cbn in Hs.
    apply Forall_cons in Hgo as [Hp Hgo].
    rewrite (_get_paginated_loop_page _ _ _ _ _ _ _ _ _ Ht Hs), Hp. cbn zeta.
    destruct (IH fuel (acc ++ results p) (query_after q p) p_last replies' rest
                (after_request w (v1_url c endpoint) q)) as (w' & Hrun & Hscr & Hfs & Hsent);
      auto.
    + cbn. now rewrite Hs.
    + cbn in Hfuel. lia.
    + exists w'. rewrite Hrun. split; [|split; [|split]]; auto.
      * cbn. now rewrite app_assoc.
      * rewrite Hsent. cbn [after_request sent]. rewrite <- app_assoc. f_equal.
        cbn. do 2 f_equal. f_equal. apply list_fmap_ext. clear -Hgo Hp.
        intros i p' Hi. apply (Forall_lookup_1 _ _ _ _ Hgo) in Hi.
        apply goes_on_next in Hi as (s & Hs'). rewrite query_after_again by assumption.
        now rewrite Hs'.
Qed.

(** C2: take any run of replies that carry pages (a 200 whose body has
    [results] and, possibly, [paging.nextPage]), every page but the last naming
    a [nextPage] with an [offset=] token, and the last one naming none, or one
    with no such token. Then [_get_paginated] returns the pages' [results]
    concatenated in page order, as many records as the pages hold together; it
    sends one request per page and none after the last, the first with the
    caller's query and each later one with [offset] set to the text of the
    previous [nextPage] between its [offset=] and the next [&] or the end. *)
Theorem _get_paginated_pages (c : client) (endpoint : string)
    (params : option (gmap string string))
    (ps : list page) (p_last : page) (replies rest : list transport) (w : world) :
  Forall (fun p => goes_on p = true) ps ->
  goes_on p_last = false ->
  Forall2 (fun t p => reply_page t = Some p) replies (ps ++ [p_last]) ->
  script w = replies ++ rest ->
  exists w',
    _get_paginated c endpoint params w = (Ok (concat (results <$> (ps ++ [p_last]))), w')
    /\ length (concat (results <$> (ps ++ [p_last])))
       = sum_list ((fun p => length (results p)) <$> (ps ++ [p_last]))
    /\ script w' = rest /\ fs w' = fs w
    /\ sent w' = sent w ++ (request_to (v1_url c endpoint)
                             <$> (or_empty params :: (query_after (or_empty params) <$> ps)))
    /\ (forall p s, p ∈ ps -> next_page p = Some s ->
        query_after (or_empty params) p = <["offset" := next_offset s]> (or_empty params)
        /\ exists pre post,
             s = pre +:+ "offset=" +:+ next_offset s +:+ post
             /\ Str.contains "&" (next_offset s) = false
             /\ (post = "" \/ Str.starts_with "&" post = true)
             /\ Str.contains "offset=" (next_offset s +:+ post) = false).
Proof.
  intros Hgo Hstop Hrep Hs.
  destruct (_get_paginated_loop_pages c endpoint ps (S (length (script w))) []
              (or_empty params) p_last replies rest w Hgo Hstop Hrep Hs)
    as (w' & Hrun & Hscr & Hfs & Hsent).
  { rewrite Hs, length_app. apply Forall2_length in Hrep. rewrite Hrep, length_app. lia. }
  exists w'. unfold _get_paginated. rewrite Hrun.
  split; [reflexivity|]. split; [|split; [|split; [|split]]]; auto.
  - generalize (ps ++ [p_last]). clear. intros l.
    induction l as [|p l IH]; [reflexivity|]. cbn. rewrite length_app. now f_equal.
  - intros p s Hp Hnext. split.
    + unfold query_after. now rewrite Hnext.
    + rewrite Forall_forall in Hgo. specialize (Hgo p Hp). unfold goes_on in Hgo.
      rewrite Hnext in Hgo. apply andb_prop in Hgo as [_ Hc].
      now apply next_offset_spec.
Qed.

Lemma _get_paginated_pages_witness :
  goes_on demo_page1 = true /\ goes_on demo_page2 = false /\
  exists w',
    _get_paginated demo_client "/users/_7_1/courses" None
      (demo_world [page_reply demo_page1; page_reply demo_page2])
    = (Ok (results demo_page1 ++ results demo_page2), w')
    /\ query <$> sent w' = [∅; {["offset" := "2"]}].
Proof.
  split; [reflexivity|]. split; [reflexivity|].
  destruct (_get_paginated_pages demo_client "/users/_7_1/courses" None
              [demo_page1] demo_page2 [page_reply demo_page1; page_reply demo_page2] []
              (demo_world [page_reply demo_page1; page_reply demo_page2]))
    as (w' & Hrun & _ & _ & _ & Hsent & _).
  - repeat constructor.
  - reflexivity.
  - repeat constructor.
  - reflexivity.
  - exists w'. split; [exact Hrun|]. rewrite Hsent. reflexivity.
Defined.

(** ** The two walkers side by side *)

Lemma same_outcome_refl {A} (r : outcome A) : same_outcome r r.
Proof. destruct r as [a|[]]; cbn; auto. Qed.

Lemma paginated_loops_agree c endpoint fuel : forall acc params w1 w2,
  script w1 = script w2 ->
  let r1 := _get_paginated_loop fuel c endpoint acc params w1 in
  let r2 := _get_paginated_v2_loop fuel c endpoint acc params w2 in
  same_outcome r1.1 r2.1 /\ script r1.2 = script r2.2
  /\ fs r1.2 = fs w1 /\ fs r2.2 = fs w2
  /\ exists qs, sent r1.2 = sent w1 ++ (request_to (v1_url c endpoint) <$> qs)
                /\ sent r2.2 = sent w2 ++ (request_to (v2_url c endpoint) <$> qs).
Proof.
  induction fuel as [|fuel IH]; intros acc params w1 w2 Hs; cbn zeta.
  - cbn. repeat split; auto. exists []. cbn. now rewrite !app_nil_r.
  - rewrite _get_paginated_loop_unfold, _get_paginated_v2_loop_unfold, _get_run, _get_v2_run.
    rewrite <- Hs.
    assert (Hone : exists qs,
               sent (after_request w1 (v1_url c endpoint) params)
                 = sent w1 ++ (request_to (v1_url c endpoint) <$> qs)
               /\ sent (after_request w2 (v2_url c endpoint) params)
                 = sent w2 ++ (request_to (v2_url c endpoint) <$> qs)).
    { exists [params]. split; reflexivity. }
    assert (Hscr : script (after_request w1 (v1_url c endpoint) params)
                   = script (after_request w2 (v2_url c endpoint) params)).
    { cbn. now rewrite Hs. }
    destruct (script w1) as [|[r|e] rest]; cbn [fst snd];
      try (repeat split; auto; cbn; auto; fail).
    destruct (status_code r =? 200)%Z; cbn [fst snd];
      try (repeat split; auto; cbn; auto; fail).
    destruct (after_page (body r) acc params) as [[acc' [params'|]]|e]; cbn [fst snd];
      try (split; [apply same_outcome_refl|]; repeat split; auto; fail).
    specialize (IH acc' params' _ _ Hscr). cbn zeta in IH.
    destruct IH as (Hr & Hsc & Hf1 & Hf2 & qs & Hq1 & Hq2).
    repeat split; auto. exists (params :: qs).
    rewrite Hq1, Hq2. cbn [after_request sent]. rewrite <- !app_assoc. split; reflexivity.
Qed.

(** C8: run from the same world, the v1 and the v2 walker end the same way
    (the same records, or the same exception up to the wording of the
    [BBAPIError] message), use up the same replies, and send requests with the
    same queries, one by one; only the URLs differ, by the base path. *)
Theorem paginated_v1_v2_agree (c : client) (endpoint : string)
    (params : option (gmap string string)) (w : world) :
  let r1 := _get_paginated c endpoint params w in
  let r2 := _get_paginated_v2 c endpoint params w in
  same_outcome r1.1 r2.1
  /\ (forall l, r1.1 = Ok l <-> r2.1 = Ok l)
  /\ script r1.2 = script r2.2
  /\ fs r1.2 = fs w /\ fs r2.2 = fs w
  /\ exists qs,
       sent r1.2 = sent w ++ (request_to (api_url c +:+ endpoint) <$> qs)
       /\ sent r2.2 = sent w ++ (request_to (domain c +:+ "/learn/api/public/v2" +:+ endpoint) <$> qs).
Proof.
  cbn zeta. unfold _get_paginated, _get_paginated_v2.
  destruct (paginated_loops_agree c endpoint (S (length (script w))) [] (or_empty params) w w eq_refl)
    as (Hr & Hs & Hf1 & Hf2 & Hq).
  repeat split; auto.
  - intros H. rewrite H in Hr. destruct (_get_paginated_v2_loop _ _ _ _ _ _).1 as [l'|e]; cbn in Hr.
    + now subst.
    + destruct Hr.
  - intros H. rewrite H in Hr. destruct (_get_paginated_loop _ _ _ _ _ _).1 as [l'|e]; cbn in Hr.
    + now subst.
    + now destruct e.
Qed.

(** ** Classification of assignments *)

Lemma count_assignment_classify t a : count_assignment t a = add_to_bucket (bucket_of a) t.
Proof.
  unfold count_assignment, bucket_of, classify.
  destruct (a_graded a), (eq_zero (a_score a)), (a_submitted a), (a_is_past_due a),
    (a_accepts_late a); reflexivity.
Qed.

Lemma count_assignments_from t assignments :
  let r := fold_left count_assignment assignments t in
  on_time r = on_time t + in_bucket OnTime assignments
  /\ late r = late t + in_bucket Late assignments
  /\ missed r = missed t + in_bucket Missed assignments
  /\ available r = available t + in_bucket Available assignments.
Proof.
  revert t; induction assignments as [|a l IH]; intros t; cbn zeta.
  - unfold in_bucket; cbn. lia.
  - cbn [fold_left]. specialize (IH (count_assignment t a)). cbn zeta in IH.
    destruct IH as (H1 & H2 & H3 & H4). rewrite H1, H2, H3, H4.
    rewrite count_assignment_classify. unfold in_bucket.
    rewrite !filter_cons.
    destruct (bucket_of a); cbn; repeat case_decide; try discriminate; try congruence;
      cbn; lia.
Qed.

Lemma in_bucket_total assignments :
  in_bucket OnTime assignments + in_bucket Late assignments
  + in_bucket Missed assignments + in_bucket Available assignments = length assignments.
Proof.
  unfold in_bucket. induction assignments as [|a l IH]; [reflexivity|].
  rewrite !filter_cons.
  destruct (bucket_of a); cbn; repeat case_decide; try discriminate; try congruence;
    cbn; lia.
Qed.

(** C1: [get_course_assignment_stats] fails exactly when the fetch of the
    assignments fails, and otherwise counts every assignment in exactly one of
    the four buckets, the one the spec's priority list names: graded with a
    zero score is missed whatever the other flags; else submitted and not past
    due is on time; else submitted and past due is late; else past due with no
    late attempt allowed is missed; else available. *)
Theorem get_course_assignment_stats_buckets (py : python) (c : client) (course_id : json) (w : world) :
  match get_course_assignments py c course_id w with
  | (Ok assignments, w') =>
      exists st,
        get_course_assignment_stats py c course_id w = (Ok st, w')
        /\ as_total st = length assignments
        /\ as_on_time st = in_bucket OnTime assignments
        /\ as_late st = in_bucket Late assignments
        /\ as_missed st = in_bucket Missed assignments
        /\ as_available st = in_bucket Available assignments
        /\ as_on_time st + as_late st + as_missed st + as_available st = as_total st
  | (Raise e, w') => get_course_assignment_stats py c course_id w = (Raise e, w')
  end
  /\ (forall submitted is_past_due accepts_late score,
        eq_zero score = true ->
        classify submitted is_past_due accepts_late true score = Missed)
  /\ (forall submitted is_past_due accepts_late graded score,
        graded && eq_zero score = false ->
        classify submitted is_past_due accepts_late graded score =
          match submitted, is_past_due, accepts_late with
          | true, false, _ => OnTime
          | true, true, _ => Late
          | false, true, false => Missed
          | false, _, _ => Available
          end).
Proof.
  split; [|split].
  - unfold get_course_assignment_stats, bind.
    destruct (get_course_assignments py c course_id w) as [[assignments|e] w']; [|reflexivity].
    eexists; split; [reflexivity|]. cbn.
    pose proof (count_assignments_from {| on_time := 0; late := 0; missed := 0; available := 0 |}
                  assignments) as H.
    cbn zeta in H. fold (count_assignments assignments) in H. cbn in H.
    destruct H as (H1 & H2 & H3 & H4). rewrite H1, H2, H3, H4.
    pose proof (in_bucket_total assignments). repeat split; lia.
  - intros. unfold classify. now rewrite H.
  - intros s p al g sc H. unfold classify. rewrite H.
    destruct s, p, al; reflexivity.
Qed.

Example graded_zero_is_missed :
  classify true false true true (JInt 0) = Missed
  /\ classify true false true true (JFloat 0) = Missed
  /\ classify true false true true (JInt 12) = OnTime
  /\ classify true false true false (JInt 0) = OnTime.
Proof. repeat split. Qed.

(** ** The gradebook listing of [get_course_assignments] *)

(** C3, as the spec words it, fails: a listing that ends in a 403 does not
    reach the caller of [get_course_assignments] as a [BBAPIError]. *)
Lemma get_course_assignments_swallows_403 :
  ~ listing_error_propagates demo_py demo_client (JStr "_16318_1")
      (demo_world [Response {| status_code := 403; body := JNull; text := "Forbidden" |}]).
Proof.
  intros H.
  specialize (H "API v2 request failed: /courses/_16318_1/gradebook/columns"
                (Some 403%Z) (Some "Forbidden")
                (after_request
                   (demo_world [Response {| status_code := 403; body := JNull; text := "Forbidden" |}])
                   (v2_url demo_client "/courses/_16318_1/gradebook/columns") ∅)
                eq_refl).
  discriminate H.
Qed.

(** C3 (amended): when the gradebook column listing of a course fails with a
    [BBAPIError], [get_course_assignments] catches it and returns the empty
    list; nothing reaches the caller, and no further request is sent. *)
Theorem get_course_assignments_listing_error (py : python) (c : client) (course_id : json)
    (w w1 : world) (m : string) (st : option Z) (r : option string) :
  _get_paginated_v2 c ("/courses/" +:+ py_str py course_id +:+ "/gradebook/columns") None w
    = (Raise (BBAPIError m st r), w1) ->
  get_course_assignments py c course_id w = (Ok [], w1).
Proof.
  intros H. unfold get_course_assignments, bind at 1, except_api, bind at 1.
  now rewrite H.
Qed.

Lemma get_course_assignments_listing_error_witness :
  get_course_assignments demo_py demo_client (JStr "_16318_1")
    (demo_world [Response {| status_code := 403; body := JNull; text := "Forbidden" |}])
  = (Ok [],
     after_request
       (demo_world [Response {| status_code := 403; body := JNull; text := "Forbidden" |}])
       (v2_url demo_client "/courses/_16318_1/gradebook/columns") ∅).
Proof.
  apply (get_course_assignments_listing_error demo_py demo_client (JStr "_16318_1") _ _
           "API v2 request failed: /courses/_16318_1/gradebook/columns"
           (Some 403%Z) (Some "Forbidden")).
  reflexivity.
Defined.

(** ** Dicts *)

Lemma dict_get_set_eq k v d : dict_get k (dict_set k v d) = Some v.
Proof.
  induction d as [|[k' v'] d IH]; cbn.
  - now rewrite String.eqb_refl.
  - destruct (String.eqb_spec k k') as [->|Hne]; cbn.
    + now rewrite String.eqb_refl.
    + destruct (String.eqb_spec k k'); [contradiction | exact IH].
Qed.

Lemma dict_get_set_ne k k' v d : k <> k' -> dict_get k (dict_set k' v d) = dict_get k d.
Proof.
  intros Hne. induction d as [|[k0 v0] d IH]; cbn.
  - destruct (String.eqb_spec k k'); [contradiction | reflexivity].
  - destruct (String.eqb_spec k' k0) as [->|Hne0]; cbn.
    + destruct (String.eqb_spec k k0); [contradiction | reflexivity].
    + destruct (String.eqb_spec k k0); [reflexivity | exact IH].
Qed.

(** Setting a key leaves the other entries as they were, in their order. *)
Lemma dict_set_others (a b k : string) v d :
  k = a \/ k = b ->
  filter (fun kv => kv.1 <> a /\ kv.1 <> b) (dict_set k v d)
  = filter (fun kv => kv.1 <> a /\ kv.1 <> b) d.
Proof.
  intros Hk. assert (~ (k <> a /\ k <> b)) by tauto. induction d as [|[k0 v0] d IH]; cbn [dict_set].
  - rewrite filter_cons. cbn [fst]. now case_decide.
  - destruct (String.eqb_spec k k0) as [->|Hne].
    + rewrite !filter_cons. cbn [fst]. now case_decide.
    + rewrite !filter_cons. cbn [fst]. now rewrite IH.
Qed.

(** ** The cookies-only refresh *)

(** C5: on a cache file that holds a JSON object, [update_id_file_cookies]
    rewrites that file and nothing else; in the object it sets [cookies] to the
    new cookie list and [updated_at] to the time of the refresh, and every
    other field ([user], [courses], [credentials], the metric fields and all
    the rest) keeps its value and its place among the others. *)
Theorem update_id_file_cookies_frame (py : python) (id_path : string) (session : list cookie)
    (d : list (string * json)) (w : world) :
  fs w id_path = Content (JObj d) ->
  exists d',
    update_id_file_cookies py id_path session w
      = (Ok tt, {| script := script w; sent := sent w;
                   fs := fun p => if String.eqb p id_path then Content (JObj d') else fs w p |})
    /\ dict_get "cookies" d' = Some (cookies_json session)
    /\ dict_get "updated_at" d' = Some (JStr (now_iso py))
    /\ (forall k, k <> "cookies" -> k <> "updated_at" -> dict_get k d' = dict_get k d)
    /\ filter (fun kv => kv.1 <> "cookies" /\ kv.1 <> "updated_at") d'
       = filter (fun kv => kv.1 <> "cookies" /\ kv.1 <> "updated_at") d
    /\ Forall (fun k => dict_get k d' = dict_get k d)
         ["user"; "courses"; "credentials"; "generated_at"; "isNerd"; "isAttending";
          "on_time_rate"; "attendance_percentage"].
Proof.
  intros Hf.
  exists (dict_set "updated_at" (JStr (now_iso py)) (dict_set "cookies" (cookies_json session) d)).
  assert (Hother : forall k, k <> "cookies" -> k <> "updated_at" ->
            dict_get k (dict_set "updated_at" (JStr (now_iso py))
                          (dict_set "cookies" (cookies_json session) d)) = dict_get k d).
  { intros k H1 H2. now rewrite !dict_get_set_ne. }
  split; [|split; [|split; [|split; [|split]]]].
  - unfold update_id_file_cookies, except_file, bind, load_json. now rewrite Hf.
  - rewrite dict_get_set_ne by discriminate. apply dict_get_set_eq.
  - apply dict_get_set_eq.
  - exact Hother.
  - rewrite dict_set_others by tauto. now rewrite dict_set_others by tauto.
  - repeat constructor; apply Hother; discriminate.
Qed.

Lemma update_id_file_cookies_frame_witness :
  exists d',
    fs (update_id_file_cookies demo_py "amine.id" demo_session
          (demo_disk "amine.id" demo_id_data)).2 "amine.id" = Content (JObj d')
    /\ dict_get "cookies" d' = Some (cookies_json demo_session)
    /\ dict_get "user" d' = dict_get "user" demo_id_data
    /\ dict_get "courses" d' = dict_get "courses" demo_id_data
    /\ dict_get "credentials" d' = dict_get "credentials" demo_id_data
    /\ dict_get "on_time_rate" d' = Some (JFloat 0.5).
Proof.
  destruct (update_id_file_cookies_frame demo_py "amine.id" demo_session demo_id_data
              (demo_disk "amine.id" demo_id_data) eq_refl)
    as (d' & Hrun & Hcookies & _ & Hother & _).
  exists d'. rewrite Hrun. split; [reflexivity|]. split; [exact Hcookies|].
  repeat split; rewrite Hother; try reflexivity; discriminate.
Defined.

(** ** Loops *)

(** A property of the accumulator that every round keeps holds at the end. *)
Lemma for_each_invariant {A B} (I : B -> Prop) (body : B -> A -> M B) (l : list A) :
  (forall acc x w acc' w', I acc -> body acc x w = (Ok acc', w') -> I acc') ->
  forall acc w r w', I acc -> for_each l body acc w = (Ok r, w') -> I r.
Proof.
  intros Hbody. induction l as [|x l IH]; intros acc w r w' Hacc Hrun.
  - cbn in Hrun. unfold ret in Hrun. now injection Hrun as <- _.
  - cbn [for_each] in Hrun. unfold bind in Hrun.
    destruct (body acc x w) as [[acc1|e] w1] eqn:Hb; [|discriminate].
    eapply IH; [|exact Hrun]. eapply Hbody; eauto.
Qed.

(** ** The on-time rate and the two flags *)

Lemma sum_list_snoc {A} (f : A -> nat) l x :
  sum_list (f <$> (l ++ [x])) = sum_list (f <$> l) + f x.
Proof. induction l as [|y l IH]; cbn in *; lia. Qed.

Lemma course_stats_round_totals py c acc course w acc' w' :
  totals_match acc -> course_stats_round py c acc course w = (Ok acc', w') -> totals_match acc'.
Proof.
  intros [Ht Ho]. unfold course_stats_round, bind, lift.
  destruct course as [| | | | | |d]; try (cbn; intros; discriminate).
  cbn [py_get]. set (internal_id := default JNull (dict_get "internal_id" d)).
  destruct (negb (truthy internal_id)).
  - unfold ret. intros [= <- _]. now split.
  - unfold except_api, bind, lift.
    destruct (get_course_assignment_stats py c internal_id w) as [[stats|e] w1].
    + destruct acc as [course_stats all]. unfold ret. intros [= <- _].
      unfold totals_match in *. cbn [fst snd at_total at_on_time] in *.
      rewrite !sum_list_snoc. cbn. lia.
    + destruct e; try (intros; discriminate). unfold ret. intros [= <- _]. now split.
Qed.

Lemma update_id_flags_ok c flag value field number w :
  exists w', update_id_flags c flag value field number w = (Ok tt, w').
Proof.
  unfold update_id_flags. destruct (id_path c) as [path|]; [|eexists; reflexivity].
  destruct (negb (path =? "")%string); [|eexists; reflexivity].
  unfold except_pass.
  match goal with
  | |- context [match ?body w with _ => _ end] => destruct (body w) as [[[]|e] w1]
  end; eexists; reflexivity.
Qed.

Lemma course_attendance_sums py c acc course w acc' w' :
  counts_are_sums acc.1 acc.2 ->
  course_attendance py c acc course w = (Ok acc', w') ->
  counts_are_sums acc'.1 acc'.2.
Proof.
  intros Hs. unfold course_attendance, bind at 1, lift at 1.
  destruct course as [| | | | | |d]; try (cbn; intros; discriminate).
  cbn [py_get]. destruct (negb (truthy (default JNull (dict_get "internal_id" d)))).
  - unfold ret. now intros [= <- _].
  - unfold bind at 1.
    destruct (get_course_attendance_percentage py c _ w) as [[stats|e] w1]; [|discriminate].
    unfold bind, lift. cbn [py_get].
    destruct acc as [course_stats [[p a] m]]. unfold ret. intros [= <- _].
    unfold counts_are_sums in *. cbn [fst snd] in *.
    rewrite !sum_list_snoc. cbn. lia.
Qed.

(** C6: the overall [on_time_rate] is the overall on-time count divided by
    the overall total (the sums over the courses), rounded to two decimals,
    and it is 0.0 when that total is 0 or when nothing is cached; [is_nerd] returns
    whether this rate is greater than 0.45, so a rate of 0.45 gives False and
    one of 0.46 True. The overall attendance percentage is on the scale 0 to
    100: the overall present count divided by the overall number of meetings
    (the sums over the courses), times 100, rounded to two decimals, and 0.0
    when there is no meeting or nothing is cached; [is_attending] returns
    whether this percentage is greater than 60, so 60.0 gives False and 61.0
    True. Neither raises unless the statistics do. *)
Theorem engagement_flags (py : python) (c : client) (w : world) :
  (forall course_stats overall w',
      get_assignment_stats py c w = (Ok (course_stats, overall), w') ->
      match oa_totals overall with
      | Some t =>
          at_on_time t = sum_list (as_on_time <$> course_stats)
          /\ at_total t = sum_list (as_total <$> course_stats)
          /\ oa_on_time_rate overall
             = round2 (if (0 <? at_total t)%nat then int_truediv (at_on_time t) (at_total t)
                       else 0%float)
          /\ (at_total t = 0 -> oa_on_time_rate overall = 0%float)
      | None => oa_on_time_rate overall = 0%float
      end)
  /\ (forall course_stats overall w',
        get_attendance_percentage py c w = (Ok (course_stats, overall), w') ->
        match ov_counts overall with
        | Some (present, absent, total) =>
            present = sum_list (ts_present <$> course_stats)
            /\ total = sum_list (ts_total <$> course_stats)
            /\ ov_percentage overall
               = round2 (if (0 <? total)%nat
                         then (int_truediv present total * 100)%float
                         else 0%float)
            /\ (total = 0 -> ov_percentage overall = 0%float)
        | None => ov_percentage overall = 0%float
        end)
  /\ (is_nerd py c w).1
     = match (get_assignment_stats py c w).1 with
       | Ok stats => Ok (PrimFloat.ltb 0x1.ccccccccccccdp-2 (oa_on_time_rate stats.2))
       | Raise e => Raise e
       end
  /\ (is_attending py c w).1
     = match (get_attendance_percentage py c w).1 with
       | Ok stats => Ok (PrimFloat.ltb 60 (ov_percentage stats.2))
       | Raise e => Raise e
       end
  /\ round2 (rate_of 9 20) = 0x1.ccccccccccccdp-2%float
  /\ PrimFloat.ltb 0x1.ccccccccccccdp-2 (round2 (rate_of 9 20)) = false
  /\ PrimFloat.ltb 0x1.ccccccccccccdp-2 (round2 (rate_of 46 100)) = true
  /\ PrimFloat.ltb 60 (round2 (percentage_of 3 5)) = false
  /\ PrimFloat.ltb 60 (round2 (percentage_of 61 100)) = true.
Proof.
  split; [|split; [|split; [|split]]].
  - intros course_stats overall w'. unfold get_assignment_stats.
    destruct (negb (truthy (cached_data c))).
    { unfold ret. now intros [= <- <- _]. }
    unfold bind at 1, lift.
    destruct (py_get (cached_data c) "courses" (JArr [])) as [courses|]; [|intros; discriminate].
    unfold bind at 1. destruct (py_iter courses) as [items|]; [|intros; discriminate].
    unfold get_assignment_stats_over, bind.
    destruct (for_each items _ _ w) as [[[stats all]|e] w1] eqn:Hloop; [|intros; discriminate].
    unfold ret. intros [= <- <- _]. cbn [oa_totals oa_on_time_rate].
    assert (Hm : totals_match (stats, all)).
    { refine (for_each_invariant totals_match _ items _ _ _ _ _ _ Hloop).
      - intros. eapply course_stats_round_totals; eassumption.
      - split; reflexivity. }
    destruct Hm as [Ht Ho]. cbn in Ht, Ho. repeat split; auto.
    intros ->. reflexivity.
  - intros course_stats overall w'. unfold get_attendance_percentage.
    destruct (negb (truthy (cached_data c))).
    { unfold ret. now intros [= <- <- _]. }
    unfold bind at 1, lift.
    destruct (py_get (cached_data c) "courses" (JArr [])) as [courses|]; [|intros; discriminate].
    unfold bind at 1. destruct (py_iter courses) as [items|]; [|intros; discriminate].
    unfold get_attendance_percentage_over, bind.
    destruct (for_each items _ _ w) as [[[stats [[p a] m]]|e] w1] eqn:Hloop;
      [|intros; discriminate].
    unfold ret. intros [= <- <- _]. cbn [ov_counts ov_percentage].
    assert (Hm : counts_are_sums stats (p, a, m)).
    { refine (for_each_invariant (fun acc => counts_are_sums acc.1 acc.2) _ items _ _ _ _ _ _
                Hloop).
      - intros. eapply course_attendance_sums; eassumption.
      - repeat split. }
    destruct Hm as (Hp & _ & Ht). cbn [fst snd] in Hp, Ht.
    unfold percentage_of. repeat split; auto.
    intros ->. reflexivity.
  - unfold is_nerd, bind.
    destruct (get_assignment_stats py c w) as [[stats|e] w1]; [|reflexivity].
    cbn [fst]. destruct (update_id_flags_ok c "isNerd"
                           (PrimFloat.ltb 0x1.ccccccccccccdp-2 (oa_on_time_rate stats.2))
                           "on_time_rate" (oa_on_time_rate stats.2) w1) as (w2 & ->).
    reflexivity.
  - unfold is_attending, bind.
    destruct (get_attendance_percentage py c w) as [[stats|e] w1]; [|reflexivity].
    cbn [fst]. destruct (update_id_flags_ok c "isAttending"
                           (PrimFloat.ltb 60 (ov_percentage stats.2))
                           "attendance_percentage" (ov_percentage stats.2) w1) as (w2 & ->).
    reflexivity.
  - repeat split; vm_compute; reflexivity.
Qed.

(** ** Attendance *)

Lemma how_many_cons p r l :
  how_many p (r :: l) = (if p r then 1 else 0) + how_many p l.
Proof.
  unfold how_many. rewrite filter_cons.
  destruct (p r); case_decide; try congruence; reflexivity.
Qed.

Lemma count_record_text pa record s :
  status_text record = Some s ->
  count_record pa record
  = Ok (pa.1 + (if status_in ["present"; "late"; "excused"] record then 1 else 0),
        pa.2 + (if status_in ["absent"] record then 1 else 0)).
Proof.
  unfold status_in, status_text, count_record, obind. intros H.
  destruct (py_get record "status" (JStr "")) as [[| | | |t| |]|]; try discriminate.
  injection H as ->. cbn [py_string].
  destruct pa as [p a]. cbn [fst snd].
  destruct (existsb (String.eqb (Str.lower s)) ["present"; "late"; "excused"]) eqn:E1.
  - assert (existsb (String.eqb (Str.lower s)) ["absent"] = false) as ->.
    { cbn in *. rewrite orb_false_r in *.
      destruct (String.eqb_spec (Str.lower s) "absent") as [Heq|]; [|reflexivity].
      rewrite Heq in E1. discriminate. }
    f_equal. f_equal; lia.
  - destruct (existsb (String.eqb (Str.lower s)) ["absent"]); f_equal; f_equal; lia.
Qed.

Lemma count_records_text attendance : forall pa,
  Forall (fun r => is_Some (status_text r)) attendance ->
  count_records pa attendance
  = Ok (pa.1 + how_many (status_in ["present"; "late"; "excused"]) attendance,
        pa.2 + how_many (status_in ["absent"]) attendance).
Proof.
  induction attendance as [|r l IH]; intros pa Hall.
  - cbn. destruct pa. cbn. f_equal. f_equal; unfold how_many; cbn; lia.
  - apply Forall_cons in Hall as [[s Hs] Hall]. cbn [count_records]. unfold obind.
    rewrite (count_record_text _ _ _ Hs), IH by assumption. cbn [fst snd].
    rewrite !how_many_cons. f_equal. f_equal; lia.
Qed.

Lemma how_many_partition records :
  how_many (status_in ["present"; "late"; "excused"]) records
  + how_many (status_in ["absent"]) records
  + how_many (fun r => negb (status_in ["present"; "late"; "excused"] r)
                       && negb (status_in ["absent"] r)) records
  = length records.
Proof.
  induction records as [|r l IH]; [reflexivity|].
  rewrite !how_many_cons. cbn [length].
  assert (status_in ["present"; "late"; "excused"] r = true -> status_in ["absent"] r = false).
  { unfold status_in. destruct (status_text r) as [s|]; [|reflexivity]. cbn.
    rewrite !orb_false_r.
    destruct (String.eqb_spec (Str.lower s) "absent") as [->|]; [discriminate|reflexivity]. }
  destruct (status_in ["present"; "late"; "excused"] r) eqn:E1.
  - rewrite H by reflexivity. cbn. lia.
  - destruct (status_in ["absent"] r); cbn; lia.
Qed.

(** C7, as the spec words it, fails: a record whose status is "Present", as
    the server spells it, is counted as present. *)
Lemma attendance_status_capitalised :
  ~ counts_raw_statuses demo_py demo_client (JStr "_16318_1")
      (demo_world [meetings_page 1; attendance_reply "Present"]).
Proof.
  intros H.
  match type of H with
  | counts_raw_statuses ?py ?c ?cid ?w =>
      destruct (_get_course_attendance py c cid w) as [[attendance|e] w1] eqn:Ha;
      [|vm_compute in Ha; discriminate Ha];
      destruct (get_course_attendance_percentage py c cid w) as [[stats|e] w2] eqn:Hp;
      [|vm_compute in Hp; discriminate Hp]
  end.
  destruct (H attendance w1 stats w2 Ha Hp) as [Hpresent _].
  vm_compute in Ha, Hp. injection Ha as <- _. injection Hp as <- _.
  vm_compute in Hpresent. discriminate Hpresent.
Qed.

(** C7 (amended): for every list of attendance records whose status is a
    string (or missing, which reads as the empty string),
    [get_course_attendance_percentage] counts a record as present iff its
    status in lower case is present, late or excused, as absent iff it is
    absent in lower case, and any other status (so "unknown") in the total only;
    the percentage is present / total * 100 rounded to two decimals, and 0.0
    when the total is 0. *)
Theorem get_course_attendance_percentage_spec (py : python) (c : client) (course_id : json)
    (w w1 : world) (attendance : list json) :
  _get_course_attendance py c course_id w = (Ok attendance, w1) ->
  Forall (fun r => is_Some (status_text r)) attendance ->
  let present := how_many (status_in ["present"; "late"; "excused"]) attendance in
  let absent := how_many (status_in ["absent"]) attendance in
  let neither := how_many (fun r => negb (status_in ["present"; "late"; "excused"] r)
                                    && negb (status_in ["absent"] r)) attendance in
  let total := length attendance in
  let percentage := round2 (if (0 <? total)%nat then (int_truediv present total * 100)%float
                            else 0%float) in
  get_course_attendance_percentage py c course_id w
  = match cached_name_by_id py c course_id with
    | Ok name =>
        (Ok {| ts_course_id := course_id; ts_course_name := name;
               ts_present := present; ts_absent := absent; ts_total := total;
               ts_percentage := percentage |}, w1)
    | Raise e => (Raise e, w1)
    end
  /\ present + absent + neither = total
  /\ (total = 0 -> percentage = 0%float).
Proof.
  intros Ha Hall. cbn zeta. split; [|split].
  - unfold get_course_attendance_percentage, bind at 1. rewrite Ha.
    unfold bind at 1, lift at 1. rewrite (count_records_text _ _ Hall). cbn [fst snd].
    unfold bind, lift, ret. destruct (cached_name_by_id py c course_id); reflexivity.
  - apply how_many_partition.
  - intros ->. reflexivity.
Qed.

Lemma get_course_attendance_percentage_spec_witness :
  (get_course_attendance_percentage demo_py demo_client (JStr "_16318_1")
     (demo_world [meetings_page 4; attendance_reply "present"; attendance_reply "absent";
                  attendance_reply "present"; not_found])).1
  = Ok {| ts_course_id := JStr "_16318_1"; ts_course_name := JNull;
          ts_present := 2; ts_absent := 1; ts_total := 4; ts_percentage := 50 |}.
Proof.
  destruct (get_course_attendance_percentage_spec demo_py demo_client (JStr "_16318_1")
              (demo_world [meetings_page 4; attendance_reply "present"; attendance_reply "absent";
                           attendance_reply "present"; not_found])
              _ _ eq_refl) as [-> _].
  - repeat constructor; eexists; reflexivity.
  - reflexivity.
Defined.

(** ** Course records without an internal id *)

Lemma course_assignments_skip py c acc course w :
  lacks_internal_id course = true -> course_assignments py c acc course w = (Ok acc, w).
Proof.
  destruct course as [| | | | | |d]; try discriminate. cbn [lacks_internal_id].
  intros H. unfold course_assignments, bind, lift. cbn [py_get]. now rewrite H.
Qed.

Lemma course_stats_round_skip py c acc course w :
  lacks_internal_id course = true -> course_stats_round py c acc course w = (Ok acc, w).
Proof.
  destruct course as [| | | | | |d]; try discriminate. cbn [lacks_internal_id].
  intros H. unfold course_stats_round, bind, lift. cbn [py_get]. now rewrite H.
Qed.

Lemma course_attendance_skip py c acc course w :
  lacks_internal_id course = true -> course_attendance py c acc course w = (Ok acc, w).
Proof.
  destruct course as [| | | | | |d]; try discriminate. cbn [lacks_internal_id].
  intros H. unfold course_attendance, bind, lift. cbn [py_get]. now rewrite H.
Qed.

(** A loop whose round does nothing on some records runs as if they were not
    in the list. *)
Lemma for_each_skip {A B} (body : B -> A -> M B) (skip : A -> bool) (l : list A) :
  (forall acc x w, skip x = true -> body acc x w = (Ok acc, w)) ->
  forall acc w,
    for_each l body acc w = for_each (filter (fun x => skip x = false) l) body acc w.
Proof.
  intros Hskip. induction l as [|x l IH]; intros acc w; [reflexivity|].
  rewrite filter_cons. destruct (skip x) eqn:E; case_decide; try congruence.
  - cbn [for_each]. unfold bind. rewrite (Hskip _ _ _ E). apply IH.
  - cbn [for_each]. unfold bind. destruct (body acc x w) as [[acc'|e] w']; [apply IH|reflexivity].
Qed.

Lemma cached_courses_iter (c : client) d courses :
  cached_data c = JObj d -> dict_get "courses" d = Some (JArr courses) ->
  truthy (cached_data c) = true
  /\ py_get (cached_data c) "courses" (JArr []) = Ok (JArr courses).
Proof.
  intros -> H. split.
  - destruct d; [discriminate | reflexivity].
  - cbn. now rewrite H.
Qed.

(** C9: whatever course list the cache holds, [get_assignments],
    [get_assignment_stats] and [get_attendance_percentage] run as if the
    records with no [internal_id] (missing or falsy) were not in it: the round
    of such a record sends nothing, raises nothing and leaves the results so
    far as they are. *)
Theorem courses_without_internal_id_skipped (py : python) (c : client)
    (d : list (string * json)) (courses : list json) (w : world) :
  cached_data c = JObj d ->
  dict_get "courses" d = Some (JArr courses) ->
  get_assignments py c w = get_assignments_over py c (with_internal_id courses) w
  /\ get_assignment_stats py c w = get_assignment_stats_over py c (with_internal_id courses) w
  /\ get_attendance_percentage py c w
     = get_attendance_percentage_over py c (with_internal_id courses) w
  /\ (forall course, course ∈ courses -> lacks_internal_id course = true ->
      forall w0,
        (forall acc, course_assignments py c acc course w0 = (Ok acc, w0))
        /\ (forall acc, course_stats_round py c acc course w0 = (Ok acc, w0))
        /\ (forall acc, course_attendance py c acc course w0 = (Ok acc, w0))).
Proof.
  intros Hc Hd. destruct (cached_courses_iter c d courses Hc Hd) as [Ht Hg].
  split; [|split; [|split]].
  - unfold get_assignments. rewrite Ht. cbn [negb]. unfold bind at 1, lift at 1. rewrite Hg.
    unfold bind at 1, lift at 1. cbn [py_iter]. unfold get_assignments_over, with_internal_id.
    apply for_each_skip. intros. now apply course_assignments_skip.
  - unfold get_assignment_stats. rewrite Ht. cbn [negb]. unfold bind at 1, lift at 1. rewrite Hg.
    unfold bind at 1, lift at 1. cbn [py_iter]. unfold get_assignment_stats_over, with_internal_id.
    unfold bind. rewrite (for_each_skip _ lacks_internal_id); [reflexivity|].
    intros. now apply course_stats_round_skip.
  - unfold get_attendance_percentage. rewrite Ht. cbn [negb]. unfold bind at 1, lift at 1.
    rewrite Hg. unfold bind at 1, lift at 1. cbn [py_iter].
    unfold get_attendance_percentage_over, with_internal_id.
    unfold bind. rewrite (for_each_skip _ lacks_internal_id); [reflexivity|].
    intros. now apply course_attendance_skip.
  - intros course _ Hl w0. repeat split; intros acc.
    + now apply course_assignments_skip.
    + now apply course_stats_round_skip.
    + now apply course_attendance_skip.
Qed.

Lemma courses_without_internal_id_skipped_witness :
  (exists kept, with_internal_id
                  [JObj [("name", JStr "Anglais"); ("course_id", JStr "ESE.AN-01")];
                   JObj [("name", JStr "Gestion de projet"); ("course_id", JStr "ESE.PR-01");
                         ("internal_id", JStr "_16318_1")]] = [kept])
  /\ get_assignments demo_py demo_cached_client (demo_world [demo_columns; demo_grade; demo_content])
     = get_assignments_over demo_py demo_cached_client
         [JObj [("name", JStr "Gestion de projet"); ("course_id", JStr "ESE.PR-01");
                ("internal_id", JStr "_16318_1")]]
         (demo_world [demo_columns; demo_grade; demo_content]).
Proof.
  split; [eexists; reflexivity|].
  exact (proj1 (courses_without_internal_id_skipped demo_py demo_cached_client _ _
                  (demo_world [demo_columns; demo_grade; demo_content]) eq_refl eq_refl)).
Defined.

Example get_assignments_demo :
  (get_assignments demo_py demo_cached_client
     (demo_world [demo_columns; demo_grade; demo_content])).1
  = Ok [{| a_id := JStr "_c1"; a_content_id := JStr "_k1"; a_name := JStr "TP1";
           a_course_id := JStr "_16318_1"; a_course_name := JStr "Gestion de projet";
           a_due := JStr "2025-10-01T22:59:00.000Z"; a_score_possible := JInt 20;
           a_score := JInt 15; a_status := JStr "Graded"; a_submitted := true;
           a_graded := true; a_is_past_due := true; a_accepts_late := false;
           a_grading_type := JStr "Attempts" |}].
Proof. vm_compute. reflexivity. Qed.

Example is_nerd_demo :
  (is_nerd demo_py demo_cached_client (demo_world [demo_columns; demo_grade; demo_content])).1
  = Ok false.
Proof. vm_compute. reflexivity. Qed.

(** ** The credentials [save_id_file] stores *)

Lemma credentials_of_cases py api_name password credentials :
  credentials_of py api_name password = Ok credentials ->
  (truthy api_name && truthy password = false -> credentials = JNull)
  /\ (truthy api_name && truthy password = true ->
      exists s, api_name = JStr s
                /\ credentials = JObj [("username", JStr (upper py s)); ("password", password)]).
Proof.
  unfold credentials_of. destruct (truthy api_name && truthy password) eqn:E.
  - apply andb_prop in E as [Eu _]. rewrite Eu. unfold obind.
    destruct api_name; cbn [py_string]; try discriminate.
    intros [= <-]. split; [discriminate|]. intros _. eauto.
  - intros [= <-]. split; [reflexivity | discriminate].
Qed.

(** C10: [save_id_file] never reads the [username] its caller passes: the
    name is taken from the [userName] of the API's user data. With a
    non-empty [userName] and a password the file gets [credentials] with that
    [userName] in upper case; with [userName] missing or empty (or no password)
    the file has no [credentials] key at all, whatever username the caller gave. *)
Theorem save_id_file_credentials (py : python) (id_path : string) (session : list cookie)
    (user_data : json) (courses instructors : list json) (username password : json)
    (id_data : json) (w : world) :
  id_data_of py session user_data courses instructors username password = Ok id_data ->
  save_id_file py id_path session user_data courses instructors username password w
  = (Ok tt, {| script := script w; sent := sent w;
               fs := fun p => if String.eqb p id_path then Content id_data else fs w p |})
  /\ (forall username',
        save_id_file py id_path session user_data courses instructors username' password w
        = save_id_file py id_path session user_data courses instructors username password w)
  /\ exists d api_name,
       id_data = JObj d
       /\ py_get user_data "userName" (JStr "") = Ok api_name
       /\ (truthy api_name && truthy password = true ->
           exists s, api_name = JStr s
                     /\ dict_get "credentials" d
                        = Some (JObj [("username", JStr (upper py s)); ("password", password)]))
       /\ (truthy api_name && truthy password = false -> dict_get "credentials" d = None).
Proof.
  intros H. split; [|split].
  - unfold save_id_file, bind, lift. rewrite H. reflexivity.
  - intros username'. reflexivity.
  - unfold id_data_of, obind in H.
    destruct (py_get user_data "name" (JObj [])) as [name_obj|]; [|discriminate].
    destruct (person_name py name_obj) as [full_name|]; [|discriminate].
    destruct (py_get user_data "userName" (JStr "")) as [api_name|]; [|discriminate].
    destruct (py_get user_data "contact" (JObj [])) as [contact|]; [|discriminate].
    destruct (py_get contact "email" (JStr "")) as [email|]; [|discriminate].
    match type of H with
    | match ?class with _ => _ end = _ => destruct class as [class_name|]; [|discriminate]
    end.
    destruct (build_instructor_lookup py instructors []) as [lookup|]; [|discriminate].
    destruct (build_courses_data py courses lookup) as [courses_data|]; [|discriminate].
    destruct (credentials_of py api_name password) as [credentials|] eqn:Hc; [|discriminate].
    match type of H with
    | match ?shown with _ => _ end = _ => destruct shown as [shown_name|]; [|discriminate]
    end.
    injection H as <-. eexists _, api_name. split; [reflexivity|]. split; [reflexivity|].
    destruct (credentials_of_cases _ _ _ _ Hc) as [Hno Hyes]. split.
    + intros E. destruct (Hyes E) as (s & Hs & ->). exists s. split; [exact Hs|]. reflexivity.
    + intros E. rewrite (Hno E). reflexivity.
Qed.

Lemma save_id_file_credentials_witness :
  exists d,
    fs (save_id_file demo_py "amine.id" demo_session (demo_user "") [] []
          (JStr "amine.bensalah") (JStr "s3cret") (demo_world [])).2 "amine.id"
    = Content (JObj d)
    /\ dict_get "credentials" d = None.
Proof.
  destruct (id_data_of demo_py demo_session (demo_user "") [] []
              (JStr "amine.bensalah") (JStr "s3cret")) as [id_data|e] eqn:H;
    [|vm_compute in H; discriminate H].
  destruct (save_id_file_credentials demo_py "amine.id" demo_session (demo_user "") [] []
              (JStr "amine.bensalah") (JStr "s3cret") id_data (demo_world []) H)
    as (Hrun & _ & d & api_name & -> & Hname & _ & Hnone).
  exists d. rewrite Hrun. split; [reflexivity|].
  apply Hnone. injection Hname as <-. reflexivity.
Defined.

Example save_id_file_upper_case :
  exists d,
    fs (save_id_file demo_py "amine.id" demo_session (demo_user "amine.bensalah") [] []
          (JStr "someone.else") (JStr "s3cret") (demo_world [])).2 "amine.id"
    = Content (JObj d)
    /\ dict_get "credentials" d
       = Some (JObj [("username", JStr "AMINE.BENSALAH"); ("password", JStr "s3cret")]).
Proof. eexists. split; vm_compute; reflexivity. Qed.

(** * Beyond the claims *)

(** ** What can end in a [BBAPIError] *)

Lemma never_api_error_ret {A} (a : A) : never_api_error (ret a).
Proof. intros w. exact I. Qed.

Lemma never_api_error_lift {A} (o : outcome A) : no_api_error o -> never_api_error (lift o).
Proof. intros H w. exact H. Qed.

Lemma never_api_error_bind {A B} (m : M A) (f : A -> M B) :
  never_api_error m -> (forall a, never_api_error (f a)) -> never_api_error (bind m f).
Proof.
  intros Hm Hf w. unfold bind. specialize (Hm w).
  destruct (m w) as [[a|e] w']; [apply Hf | exact Hm].
Qed.

Lemma never_api_error_except {A} (body handler : M A) :
  never_api_error handler -> never_api_error (except_api body handler).
Proof.
  intros Hh w. unfold except_api.
  destruct (body w) as [[a|e] w']; [exact I|].
  destruct e; try exact eq_refl. apply Hh.
Qed.

Lemma never_api_error_for_each {A B} (body : B -> A -> M B) (l : list A) :
  (forall acc x, never_api_error (body acc x)) ->
  forall acc, never_api_error (for_each l body acc).
Proof.
  intros Hb. induction l as [|x l IH]; intros acc.
  - apply never_api_error_ret.
  - cbn [for_each]. apply never_api_error_bind; [apply Hb | apply IH].
Qed.

Lemma no_api_error_obind {A B} (o : outcome A) (f : A -> outcome B) :
  no_api_error o -> (forall a, no_api_error (f a)) -> no_api_error (obind o f).
Proof. destruct o as [a|e]; cbn; auto. Qed.

Lemma no_api_error_py_get v k dflt : no_api_error (py_get v k dflt).
Proof. destruct v; exact I || exact eq_refl. Qed.

Lemma no_api_error_py_iter v : no_api_error (py_iter v).
Proof. destruct v; exact I || exact eq_refl. Qed.

Lemma no_api_error_py_string v : no_api_error (py_string v).
Proof. destruct v; exact I || exact eq_refl. Qed.

Lemma no_api_error_py_setitem v k x : no_api_error (py_setitem v k x).
Proof. destruct v; exact I || exact eq_refl. Qed.

Lemma no_api_error_in_str x t : no_api_error (in_str x t).
Proof. destruct x; exact I || exact eq_refl. Qed.

Lemma no_api_error_course_name_by_code py courses course_id :
  no_api_error (course_name_by_code py courses course_id).
Proof.
  induction courses as [|course rest IH]; [exact I|]. cbn [course_name_by_code].
  apply no_api_error_obind; [apply no_api_error_py_get|]. intros code.
  destruct (truthy code); [|exact IH].
  apply no_api_error_obind; [apply no_api_error_in_str|]. intros [|]; [|exact IH].
  apply no_api_error_py_get.
Qed.

Lemma no_api_error_course_name_by_id py courses course_id :
  no_api_error (course_name_by_id py courses course_id).
Proof.
  induction courses as [|course rest IH]; [exact I|]. cbn [course_name_by_id].
  apply no_api_error_obind; [apply no_api_error_py_get|]. intros internal_id.
  destruct (py_eq py internal_id course_id); [apply no_api_error_py_get | exact IH].
Qed.

Lemma no_api_error_count_records attendance : forall pa, no_api_error (count_records pa attendance).
Proof.
  induction attendance as [|r l IH]; intros pa; [exact I|]. cbn [count_records].
  apply no_api_error_obind; [|exact IH]. unfold count_record.
  apply no_api_error_obind; [apply no_api_error_py_get|]. intros v.
  apply no_api_error_obind; [apply no_api_error_py_string|]. intros s.
  repeat match goal with |- context [if ?b then _ else _] => destruct b end; exact I.
Qed.

(** The routine steps: binds, pure reads of a value, branches. *)
Ltac api_step :=
  lazymatch goal with
  | |- never_api_error (ret _) => apply never_api_error_ret
  | |- never_api_error (except_api _ _) => apply never_api_error_except
  | |- never_api_error (for_each _ _ _) => apply never_api_error_for_each; intros
  | |- never_api_error (bind _ _) => apply never_api_error_bind; [|intros]
  | |- never_api_error (lift _) => apply never_api_error_lift
  | |- never_api_error (if ?b then _ else _) => destruct b
  | |- never_api_error (match ?x with _ => _ end) => destruct x
  | |- no_api_error (py_get _ _ _) => apply no_api_error_py_get
  | |- no_api_error (py_iter _) => apply no_api_error_py_iter
  | |- no_api_error (py_string _) => apply no_api_error_py_string
  | |- no_api_error (py_setitem _ _ _) => apply no_api_error_py_setitem
  | |- no_api_error (obind _ _) => apply no_api_error_obind; [|intros]
  | |- no_api_error (course_name_by_code _ _ _) => apply no_api_error_course_name_by_code
  | |- no_api_error (course_name_by_id _ _ _) => apply no_api_error_course_name_by_id
  | |- no_api_error (count_records _ _) => apply no_api_error_count_records
  | |- no_api_error (if ?b then _ else _) => destruct b
  | |- no_api_error (Ok _) => exact I
  end.



Lemma never_api_error_update_id_flags c flag value field number :
  never_api_error (update_id_flags c flag value field number).
Proof.
  intros w. destruct (update_id_flags_ok c flag value field number w) as (w' & ->). exact I.
Qed.


Lemma never_api_error_meeting_record py c course_id acc meeting :
  never_api_error (meeting_record py c course_id acc meeting).
Proof. unfold meeting_record. repeat api_step. Qed.

Lemma never_api_error_get_course_attendance py c course_id :
  never_api_error (_get_course_attendance py c course_id).
Proof. unfold _get_course_attendance. repeat api_step. Qed.

Lemma never_api_error_get_course_attendance_percentage py c course_id :
  never_api_error (get_course_attendance_percentage py c course_id).
Proof.
  unfold get_course_attendance_percentage, cached_name_by_id.
  apply never_api_error_bind; [apply never_api_error_get_course_attendance|]. intros.
  repeat api_step.
Qed.


(** X2: whatever the server answers, the attendance side of the client
    ([_get_course_attendance], [get_course_attendance_percentage],
    [get_attendance_percentage], [is_attending]) never ends in a [BBAPIError]:
    a failed meeting listing reads as no meetings, a failed attendance request
    as the status "unknown". *)
Theorem attendance_never_raises_api_error (py : python) (c : client) (course_id : json)
    (w : world) (message : string) (code : option Z) (response : option string) :
  (_get_course_attendance py c course_id w).1 <> Raise (BBAPIError message code response)
  /\ (get_course_attendance_percentage py c course_id w).1
     <> Raise (BBAPIError message code response)
  /\ (get_attendance_percentage py c w).1 <> Raise (BBAPIError message code response)
  /\ (is_attending py c w).1 <> Raise (BBAPIError message code response).
Proof.
  assert (Hno : forall A (m : M A), never_api_error m ->
                  (m w).1 <> Raise (BBAPIError message code response)).
  { intros A m Hm H. specialize (Hm w). rewrite H in Hm. discriminate Hm. }
  assert (Hall : never_api_error (get_attendance_percentage py c)).
  { unfold get_attendance_percentage, get_attendance_percentage_over, course_attendance.
    repeat first [ apply never_api_error_get_course_attendance_percentage | api_step ]. }
  repeat split; apply Hno.
  - apply never_api_error_get_course_attendance.
  - apply never_api_error_get_course_attendance_percentage.
  - exact Hall.
  - unfold is_attending. apply never_api_error_bind; [exact Hall|].
    intros. apply never_api_error_bind; [apply never_api_error_update_id_flags|].
    intros. apply never_api_error_ret.
Qed.

(** ** A page that fails *)

Lemma _get_reply_error c endpoint params t rest e w :
  reply_error endpoint t = Some e -> script w = t :: rest ->
  _get c endpoint params w = (Raise e, after_request w (v1_url c endpoint) params).
Proof.
  intros He Hs. rewrite _get_run, Hs. destruct t as [r|msg]; cbn in He.
  - destruct (status_code r =? 200)%Z; [discriminate|]. now injection He as <-.
  - now injection He as <-.
Qed.

Lemma _get_paginated_loop_failure c endpoint ps : forall fuel acc q replies t rest e w,
  Forall (fun p => goes_on p = true) ps ->
  Forall2 (fun t p => reply_page t = Some p) replies ps ->
  reply_error endpoint t = Some e ->
  script w = replies ++ t :: rest ->
  length ps < fuel ->
  exists w',
    _get_paginated_loop fuel c endpoint acc q w = (Raise e, w')
    /\ script w' = rest /\ fs w' = fs w
    /\ length (sent w') = length (sent w) + length ps + 1.
Proof.
  induction ps as [|p ps IH]; intros fuel acc q replies t rest e w Hgo Hrep He Hs Hfuel.
  - destruct fuel as [|fuel]; [lia|].
    apply Forall2_nil_inv_r in Hrep as ->. cbn in Hs.
    rewrite _get_paginated_loop_unfold, (_get_reply_error _ _ _ _ _ _ _ He Hs).
    eexists; split; [reflexivity|]. cbn. rewrite Hs, length_app. cbn. repeat split; lia.
  - destruct fuel as [|fuel]; [cbn in Hfuel; lia|].
    apply Forall2_cons_inv_r in Hrep as (t0 & replies' & Ht0 & Hrep & ->). cbn in Hs.
    apply Forall_cons in Hgo as [Hp Hgo].
    rewrite (_get_paginated_loop_page _ _ _ _ _ _ _ _ _ Ht0 Hs), Hp. cbn zeta.
    destruct (IH fuel (acc ++ results p) (query_after q p) replies' t rest e
                (after_request w (v1_url c endpoint) q)) as (w' & Hrun & Hscr & Hfs & Hsent);
      auto.
    + cbn. now rewrite Hs.
    + cbn in Hfuel. lia.
    + exists w'. rewrite Hrun. split; [reflexivity|]. split; [exact Hscr|]. split; [exact Hfs|].
      rewrite Hsent. cbn. rewrite length_app. cbn. lia.
Qed.

(** X3: when, after any number of pages that each name a next page, a request
    of [_get_paginated] fails (a status other than 200, or a transport error),
    the whole call ends in the [BBAPIError] of that request: the records of the
    pages fetched so far are not returned, and no further request is sent. *)
Theorem _get_paginated_page_failure (c : client) (endpoint : string)
    (params : option (gmap string string)) (ps : list page)
    (replies : list transport) (t : transport) (rest : list transport) (e : exn) (w : world) :
  Forall (fun p => goes_on p = true) ps ->
  Forall2 (fun t p => reply_page t = Some p) replies ps ->
  reply_error endpoint t = Some e ->
  script w = replies ++ t :: rest ->
  exists w',
    _get_paginated c endpoint params w = (Raise e, w')
    /\ is_api_error e = true
    /\ script w' = rest /\ fs w' = fs w
    /\ length (sent w') = length (sent w) + length ps + 1.
Proof.
  intros Hgo Hrep He Hs.
  destruct (_get_paginated_loop_failure c endpoint ps (S (length (script w))) []
              (or_empty params) replies t rest e w Hgo Hrep He Hs)
    as (w' & Hrun & Hscr & Hfs & Hsent).
  { rewrite Hs, length_app. apply Forall2_length in Hrep. rewrite Hrep. cbn. lia. }
  exists w'. unfold _get_paginated. rewrite Hrun. repeat split; auto.
  destruct t as [r|msg]; cbn in He.
  - destruct (status_code r =? 200)%Z; [discriminate|]. now injection He as <-.
  - now injection He as <-.
Qed.

Lemma _get_paginated_page_failure_witness :
  exists w',
    _get_paginated demo_client "/users/_7_1/courses" None
      (demo_world [page_reply demo_page1; not_found; page_reply demo_page2])
    = (Raise (BBAPIError "API request failed: /users/_7_1/courses" (Some 404%Z) (Some "Not Found")),
       w')
    /\ script w' = [page_reply demo_page2].
Proof.
  destruct (_get_paginated_page_failure demo_client "/users/_7_1/courses" None
              [demo_page1] [page_reply demo_page1] not_found [page_reply demo_page2]
              (BBAPIError "API request failed: /users/_7_1/courses" (Some 404%Z) (Some "Not Found"))
              (demo_world [page_reply demo_page1; not_found; page_reply demo_page2]))
    as (w' & Hrun & _ & Hscr & _).
  - repeat constructor.
  - repeat constructor.
  - reflexivity.
  - reflexivity.
  - exists w'. split; assumption.
Defined.

(** ** Loops that append *)

(** When every round appends to the accumulator, the result is the start
    followed by what the rounds appended, item by item. *)
Lemma for_each_appends {A B} (R : A -> list B -> Prop) (body : list B -> A -> M (list B))
    (l : list A) :
  (forall acc x w acc' w', body acc x w = (Ok acc', w') -> exists ys, acc' = acc ++ ys /\ R x ys) ->
  forall acc w r w',
    for_each l body acc w = (Ok r, w') ->
    exists yss, r = acc ++ concat yss /\ Forall2 R l yss.
Proof.
  intros Hbody. induction l as [|x l IH]; intros acc w r w' Hrun.
  - cbn in Hrun. unfold ret in Hrun. injection Hrun as <- _.
    exists []. cbn. rewrite app_nil_r. split; [reflexivity | constructor].
  - cbn [for_each] in Hrun. unfold bind in Hrun.
    destruct (body acc x w) as [[acc1|e] w1] eqn:Hb; [|discriminate].
    destruct (Hbody _ _ _ _ _ Hb) as (ys & -> & Hx).
    destruct (IH _ _ _ _ Hrun) as (yss & -> & Hl).
    exists (ys :: yss). cbn. rewrite app_assoc. split; [reflexivity | now constructor].
Qed.

(** ** The assignments of a course *)

Lemma column_grade_sound py c course_id column_id w score status graded submitted w' :
  column_grade py c course_id column_id w = (Ok (score, status, graded, submitted), w') ->
  (graded = true -> submitted = true)
  /\ (submitted = false -> graded = false /\ score = JNull /\ status = JStr "NotSubmitted").
Proof.
  unfold column_grade, except_api, bind, lift, ret.
  destruct (_get c _ ∅ w) as [[grade|e] w1].
  - destruct grade as [| | | | | |g]; try (cbn; intros; discriminate). cbn [py_get].
    set (grade_status := default JNull (dict_get "status" g)).
    set (sc := default JNull (dict_get "score" g)).
    destruct (eq_str grade_status "Graded"); [intros [= <- <- <- <- _]; split; intros; congruence|].
    destruct (eq_str grade_status "NeedsGrading");
      [intros [= <- <- <- <- _]; split; intros; congruence|].
    destruct (truthy grade_status); [intros [= <- <- <- <- _]; split; intros; congruence|].
    destruct sc; intros [= <- <- <- <- _]; split; intros; try congruence; auto.
  - destruct e; try (intros; discriminate). intros [= <- <- <- <- _].
    split; intros; [congruence|auto].
Qed.

Lemma column_accepts_late_no_content py c course_id content_id w accepts w' :
  column_accepts_late py c course_id content_id w = (Ok accepts, w') ->
  truthy content_id = false -> accepts = true.
Proof.
  unfold column_accepts_late. intros H Hc. rewrite Hc in H. unfold ret in H. congruence.
Qed.

Lemma column_assignment_round py c course_id course_name acc column w acc' w' :
  column_assignment py c course_id course_name acc column w = (Ok acc', w') ->
  exists ys,
    acc' = acc ++ ys
    /\ ((is_calculated column = true /\ ys = [])
        \/ (is_calculated column = false
            /\ exists a, ys = [a] /\ made_from column a
                         /\ sound_assignment course_id course_name a)).
Proof.
  unfold column_assignment, bind at 1, lift at 1.
  destruct column as [| | | | | |d]; try discriminate. cbn [py_get].
  unfold bind at 1, lift at 1. unfold is_calculated.
  destruct (default (JObj []) (dict_get "grading" d)) as [| | | | | |grading]; try discriminate.
  cbn [py_get]. unfold bind at 1, lift at 1.
  destruct (eq_str (default (JStr "Manual") (dict_get "type" grading)) "Calculated") eqn:Hcalc.
  { unfold ret. intros [= <- _]. exists []. rewrite app_nil_r. auto. }
  unfold bind at 1, lift at 1. unfold bind at 1.
  set (due := default JNull (dict_get "due" grading)).
  destruct (truthy due) eqn:Hdue.
  - unfold bind at 1, lift at 1. destruct (py_string due) as [due_text|]; [|discriminate].
    unfold ret at 1. unfold bind at 1.
    destruct (column_grade py c course_id _ w) as [[[[[score status] graded] submitted]|e] w1] eqn:Hg;
      [|discriminate].
    unfold bind at 1, lift at 1. unfold bind at 1.
    destruct (column_accepts_late py c course_id _ w1) as [[accepts|e] w2] eqn:Ha; [|discriminate].
    unfold bind at 1, lift at 1. unfold bind at 1, lift at 1.
    destruct (default (JObj []) (dict_get "score" d)) as [| | | | | |score_obj]; try discriminate.
    cbn [py_get]. unfold bind, lift, ret. intros [= <- _].
    eexists; split; [reflexivity|]. right. split; [reflexivity|].
    eexists; split; [reflexivity|]. split.
    + exists d. cbn. auto.
    + destruct (column_grade_sound _ _ _ _ _ _ _ _ _ _ Hg) as [Hgs Hns].
      unfold sound_assignment. cbn. repeat split; auto; try (apply Hns; assumption).
      * fold due. congruence.
      * intros Hc. eapply column_accepts_late_no_content; eauto.
  - unfold ret at 1. unfold bind at 1.
    destruct (column_grade py c course_id _ w) as [[[[[score status] graded] submitted]|e] w1] eqn:Hg;
      [|discriminate].
    unfold bind at 1, lift at 1. unfold bind at 1.
    destruct (column_accepts_late py c course_id _ w1) as [[accepts|e] w2] eqn:Ha; [|discriminate].
    unfold bind at 1, lift at 1. unfold bind at 1, lift at 1.
    destruct (default (JObj []) (dict_get "score" d)) as [| | | | | |score_obj]; try discriminate.
    cbn [py_get]. unfold bind, lift, ret. intros [= <- _].
    eexists; split; [reflexivity|]. right. split; [reflexivity|].
    eexists; split; [reflexivity|]. split.
    + exists d. cbn. auto.
    + destruct (column_grade_sound _ _ _ _ _ _ _ _ _ _ Hg) as [Hgs Hns].
      unfold sound_assignment. cbn. repeat split; auto; try (apply Hns; assumption).
      intros Hc. eapply column_accepts_late_no_content; eauto.
Qed.

Lemma rounds_to_assignments course_id course_name columns yss :
  Forall2 (fun column ys =>
             (is_calculated column = true /\ ys = [])
             \/ (is_calculated column = false
                 /\ exists a, ys = [a] /\ made_from column a
                              /\ sound_assignment course_id course_name a))
          columns yss ->
  Forall (sound_assignment course_id course_name) (concat yss)
  /\ Forall2 made_from (filter (fun column => is_calculated column = false) columns) (concat yss).
Proof.
  induction 1 as [|column ys columns yss Hx _ [IH1 IH2]]; [split; constructor|].
  rewrite filter_cons. cbn [concat].
  destruct Hx as [[Hc ->]|(Hc & a & -> & Hm & Hs)]; rewrite Hc; case_decide; try discriminate;
    try congruence.
  - split; assumption.
  - split; constructor; assumption.
Qed.

(** X4: the assignments [get_course_assignments] returns are, in the
    gradebook's order, one per column that is not of type "Calculated", each
    with the id, name and content id of its column and with the course id
    asked for. In each of them graded implies submitted; one that is not
    submitted is not graded, has no score and the status "NotSubmitted"; one
    with no due date is not past due; one with no content id accepts late
    work. *)
Theorem get_course_assignments_sound (py : python) (c : client) (course_id : json)
    (w w' : world) (assignments : list assignment) :
  get_course_assignments py c course_id w = (Ok assignments, w') ->
  (exists course_name, Forall (sound_assignment course_id course_name) assignments)
  /\ (forall columns w1,
        _get_paginated_v2 c ("/courses/" +:+ py_str py course_id +:+ "/gradebook/columns") None w
          = (Ok columns, w1) ->
        Forall2 made_from (filter (fun column => is_calculated column = false) columns)
          assignments
        /\ length assignments <= length columns).
Proof.
  unfold get_course_assignments, bind at 1, except_api, bind at 1.
  destruct (_get_paginated_v2 c _ None w) as [[columns|e] w1].
  - unfold ret at 1. unfold bind at 1, lift at 1.
    match goal with
    | |- context [match ?o with Ok _ => _ | Raise _ => _ end] =>
        destruct o as [course_name|]; [|intros; discriminate]
    end.
    intros Hrun.
    destruct (for_each_appends _ _ _ (column_assignment_round py c course_id course_name)
                _ _ _ _ Hrun) as (yss & -> & Hyss).
    cbn [app]. destruct (rounds_to_assignments _ _ _ _ Hyss) as [Hs Hm].
    split; [eauto|]. intros columns' w1' [= <- <-]. split; [exact Hm|].
    apply Forall2_length in Hm. rewrite <- Hm. apply length_filter.
  - destruct e; try (intros; discriminate).
    unfold ret. intros [= <- _]. split; [exists JNull; constructor|].
    intros columns w1' Habs. discriminate Habs.
Qed.

Lemma get_course_assignments_sound_witness :
  exists assignments,
    (get_course_assignments demo_py demo_cached_client (JStr "_16318_1")
       (demo_world [demo_columns; demo_grade; demo_content])).1 = Ok assignments
    /\ exists course_name,
         Forall (sound_assignment (JStr "_16318_1") course_name) assignments.
Proof.
  destruct (get_course_assignments demo_py demo_cached_client (JStr "_16318_1")
              (demo_world [demo_columns; demo_grade; demo_content]))
    as [[assignments|e] w'] eqn:Hrun; [|vm_compute in Hrun; discriminate Hrun].
  exists assignments. split; [reflexivity|].
  exact (proj1 (get_course_assignments_sound demo_py demo_cached_client (JStr "_16318_1")
                  _ _ _ Hrun)).
Defined.

(** ** The attendance records of a course *)

Lemma next_reply_hd w : next_reply w = hd connection_down (script w).
Proof. unfold next_reply. now destruct (script w). Qed.

Lemma drop_tl {A} n (l : list A) : drop (S n) l = drop n (tl l).
Proof. destruct l, n; reflexivity. Qed.

(** A loop whose rounds send one request for the items that ask, keep what
    the reply gives, and leave the other items alone, keeps what [served] says
    of the replies to come and sends the requests of [asked]. *)
Lemma for_each_served {A} (asks : A -> bool) (answer : A -> transport -> outcome (list json))
    (url_of : A -> string) (body : list json -> A -> M (list json)) :
  (forall acc x w acc' w',
      body acc x w = (Ok acc', w') ->
      if asks x
      then exists kept, answer x (next_reply w) = Ok kept /\ acc' = acc ++ kept
                        /\ w' = after_request w (url_of x) ∅
      else acc' = acc /\ w' = w) ->
  forall l acc w r w',
    for_each l body acc w = (Ok r, w') ->
    exists kept,
      served asks answer l (script w) = Ok kept
      /\ r = acc ++ kept
      /\ sent w' = sent w ++ asked asks url_of l
      /\ script w' = drop (length (asked asks url_of l)) (script w)
      /\ fs w' = fs w.
Proof.
  intros Hbody. induction l as [|x l IH]; intros acc w r w' Hrun.
  - cbn in Hrun. unfold ret in Hrun. injection Hrun as <- <-.
    exists []. cbn. now rewrite !app_nil_r.
  - cbn [for_each] in Hrun. unfold bind in Hrun.
    destruct (body acc x w) as [[acc1|e] w1] eqn:Hb; [|discriminate].
    apply Hbody in Hb. destruct (IH _ _ _ _ Hrun) as (more & Hserved & -> & Hsent & Hscript & Hfs).
    unfold asked in *. cbn [served]. rewrite filter_cons.
    case_decide as Hx; [rewrite Hx in *|apply not_true_is_false in Hx; rewrite Hx in *].
    + destruct Hb as (kept & Hk & -> & ->). rewrite next_reply_hd in Hk.
      cbn [after_request script sent fs] in *.
      exists (kept ++ more). rewrite Hk. cbn [obind]. rewrite Hserved. cbn [obind].
      split; [reflexivity|]. split; [now rewrite app_assoc|].
      split; [rewrite Hsent, fmap_cons, <- app_assoc; reflexivity|].
      split; [|exact Hfs].
      rewrite fmap_cons. cbn [length]. now rewrite drop_tl.
    + destruct Hb as [-> ->]. exists more. auto.
Qed.

Lemma asked_all {A} (url_of : A -> string) (l : list A) :
  length (asked (fun _ => true) url_of l) = length l.
Proof.
  unfold asked. rewrite length_fmap. induction l as [|x l IH]; [reflexivity|].
  rewrite filter_cons, decide_True by reflexivity. cbn [length]. now f_equal.
Qed.

(** When every answer is one record, there are as many records as requests. *)
Lemma served_one_each {A} (asks : A -> bool) (answer : A -> transport -> outcome (list json))
    (url_of : A -> string) (l : list A) :
  (forall x t kept, answer x t = Ok kept -> length kept = 1) ->
  forall script kept,
    served asks answer l script = Ok kept -> length kept = length (asked asks url_of l).
Proof.
  intros Hone. unfold asked. induction l as [|x l IH]; intros script kept.
  - cbn. now intros [= <-].
  - cbn [served]. rewrite filter_cons.
    case_decide as Hx; [rewrite Hx|apply not_true_is_false in Hx; rewrite Hx].
    + destruct (answer x _) as [k1|] eqn:Hk; [|discriminate]. cbn [obind].
      destruct (served asks answer l (tl script)) as [k2|] eqn:Hs; [|discriminate].
      cbn [obind]. intros [= <-]. rewrite length_app, (Hone _ _ _ Hk), (IH _ _ Hs).
      now rewrite fmap_cons.
    + apply IH.
Qed.

Lemma meeting_record_served py c course_id acc meeting w acc' w' :
  meeting_record py c course_id acc meeting w = (Ok acc', w') ->
  exists kept,
    meeting_answer meeting (next_reply w) = Ok kept /\ acc' = acc ++ kept
    /\ w' = after_request w (meeting_url py c course_id meeting) ∅.
Proof.
  unfold meeting_record, bind at 1, lift at 1.
  destruct meeting as [| | | | | |d]; cbn [py_get]; try discriminate.
  unfold bind at 1, except_api, bind at 1. rewrite _get_run.
  unfold next_reply, meeting_url. cbn [item_get].
  destruct (script w) as [|[r|e] rest]; cbn [meeting_answer connection_down].
  - unfold ret. intros [= <- <-]. eauto.
  - destruct (status_code r =? 200)%Z.
    + unfold lift. destruct (body r) as [| | | | | |bd]; cbn [py_setitem]; try discriminate.
      unfold ret. intros [= <- <-]. cbn [obind]. eauto.
    + unfold ret. intros [= <- <-]. eauto.
  - unfold ret. intros [= <- <-]. eauto.
Qed.

(** X5: [_get_course_attendance] sends, after the listing, one request per
    meeting, in the listing's order and for that meeting, and keeps one record
    per meeting, made of the reply to that request: on status 200 the object
    the server sent with the meeting stored under [meeting], on any other
    status and on a transport error the meeting with the status "unknown"; no
    meeting is left out. When the listing itself fails with a [BBAPIError], the
    result is the empty list and nothing more is sent. *)
Theorem _get_course_attendance_records (py : python) (c : client) (course_id : json)
    (w w' : world) (records : list json) :
  _get_course_attendance py c course_id w = (Ok records, w') ->
  (forall meetings w1,
      _get_paginated c ("/courses/" +:+ py_str py course_id +:+ "/meetings") None w
        = (Ok meetings, w1) ->
      served (fun _ => true) meeting_answer meetings (script w1) = Ok records
      /\ length records = length meetings
      /\ sent w' = sent w1 ++ asked (fun _ => true) (meeting_url py c course_id) meetings
      /\ script w' = drop (length meetings) (script w1)
      /\ fs w' = fs w1)
  /\ (forall message code response w1,
        _get_paginated c ("/courses/" +:+ py_str py course_id +:+ "/meetings") None w
          = (Raise (BBAPIError message code response), w1) ->
        records = [] /\ w' = w1).
Proof.
  unfold _get_course_attendance, except_api, bind.
  destruct (_get_paginated c _ None w) as [[meetings|e] w1].
  - destruct (for_each meetings _ [] w1) as [[rs|e] w2] eqn:Hloop.
    + intros [= <- <-]. split; [|intros; discriminate].
      intros meetings' w1' [= <- <-].
      destruct (for_each_served (fun _ => true) meeting_answer (meeting_url py c course_id)
                  (meeting_record py c course_id)
                  (fun acc x w0 acc' w0' => meeting_record_served py c course_id acc x w0 acc' w0')
                  _ _ _ _ _ Hloop) as (kept & Hserved & -> & Hsent & Hscript & Hfs).
      cbn [app]. rewrite asked_all in Hscript.
      split; [exact Hserved|]. split; [|auto].
      assert (Hone : forall x t k, meeting_answer x t = Ok k -> length k = 1).
      { intros x t k. unfold meeting_answer.
        destruct t as [r|]; [destruct (status_code r =? 200)%Z|];
          [destruct (py_setitem _ _ _); cbn [obind]| |]; intros [= <-]; reflexivity. }
      rewrite (served_one_each _ _ (meeting_url py c course_id) _ Hone _ _ Hserved).
      apply asked_all.
    + destruct e; intros; discriminate || idtac.
      exfalso. pose proof (never_api_error_for_each (meeting_record py c course_id) meetings
                             (never_api_error_meeting_record py c course_id) [] w1) as Hno.
      rewrite Hloop in Hno. discriminate Hno.
  - destruct e; try (intros; discriminate).
    unfold ret. intros [= <- <-]. split; [intros; discriminate|].
    intros message' code' response' w1' [= _ _ _ <-]. auto.
Qed.

Lemma _get_course_attendance_records_witness :
  exists records,
    (_get_course_attendance demo_py demo_client (JStr "_16318_1")
       (demo_world [meetings_page 2; attendance_reply "Present"; not_found])).1 = Ok records
    /\ length records = 2.
Proof.
  destruct (_get_course_attendance demo_py demo_client (JStr "_16318_1")
              (demo_world [meetings_page 2; attendance_reply "Present"; not_found]))
    as [[records|e] w'] eqn:Hrun; [|vm_compute in Hrun; discriminate Hrun].
  exists records. split; [reflexivity|].
  destruct (_get_course_attendance_records demo_py demo_client (JStr "_16318_1") _ _ _ Hrun)
    as [Hok _].
  destruct (Hok _ _ eq_refl) as (_ & Hl & _). exact Hl.
Defined.

(** X6: when the meeting listing of a course fails with a [BBAPIError],
    [get_course_attendance_percentage] does not fail: it reports no meeting,
    nobody present or absent, and a percentage of 0.0 (the course name being
    looked up in the cache as usual). *)
Theorem attendance_unavailable_is_zero (py : python) (c : client) (course_id : json)
    (w w1 : world) (message : string) (code : option Z) (response : option string) :
  _get_paginated c ("/courses/" +:+ py_str py course_id +:+ "/meetings") None w
    = (Raise (BBAPIError message code response), w1) ->
  get_course_attendance_percentage py c course_id w
  = match cached_name_by_id py c course_id with
    | Ok name =>
        (Ok {| ts_course_id := course_id; ts_course_name := name; ts_present := 0;
               ts_absent := 0; ts_total := 0; ts_percentage := 0 |}, w1)
    | Raise e => (Raise e, w1)
    end.
Proof.
  intros H. unfold get_course_attendance_percentage, bind at 1, _get_course_attendance,
    except_api, bind at 1.
  rewrite H. unfold ret at 1. cbn [count_records length]. unfold bind, lift, ret.
  destruct (cached_name_by_id py c course_id); reflexivity.
Qed.

Lemma attendance_unavailable_is_zero_witness :
  (get_course_attendance_percentage demo_py demo_client (JStr "_16318_1")
     (demo_world [not_found])).1
  = Ok {| ts_course_id := JStr "_16318_1"; ts_course_name := JNull; ts_present := 0;
          ts_absent := 0; ts_total := 0; ts_percentage := 0 |}.
Proof.
  rewrite (attendance_unavailable_is_zero demo_py demo_client (JStr "_16318_1")
             (demo_world [not_found])
             (after_request (demo_world [not_found])
                (v1_url demo_client "/courses/_16318_1/meetings") ∅)
             "API request failed: /courses/_16318_1/meetings" (Some 404%Z) (Some "Not Found")
             eq_refl).
  reflexivity.
Defined.

(** ** What touches the files *)

Lemma keeps_files_ret {A} (a : A) : keeps_files (ret a).
Proof. intros w. reflexivity. Qed.

Lemma keeps_files_raise {A} (e : exn) : keeps_files (@raise A e).
Proof. intros w. reflexivity. Qed.

Lemma keeps_files_lift {A} (o : outcome A) : keeps_files (lift o).
Proof. intros w. reflexivity. Qed.

Lemma keeps_files_bind {A B} (m : M A) (f : A -> M B) :
  keeps_files m -> (forall a, keeps_files (f a)) -> keeps_files (bind m f).
Proof.
  intros Hm Hf w. unfold bind. specialize (Hm w).
  destruct (m w) as [[a|e] w'] eqn:E; cbn [snd] in *; [|exact Hm].
  rewrite <- Hm. apply Hf.
Qed.

Lemma keeps_files_except {A} (body handler : M A) :
  keeps_files body -> keeps_files handler -> keeps_files (except_api body handler).
Proof.
  intros Hb Hh w. unfold except_api. specialize (Hb w).
  destruct (body w) as [[a|e] w'] eqn:E; cbn [snd] in *; [exact Hb|].
  destruct e; try exact Hb. rewrite <- Hb. apply Hh.
Qed.

Lemma keeps_files_for_each {A B} (body : B -> A -> M B) (l : list A) :
  (forall acc x, keeps_files (body acc x)) -> forall acc, keeps_files (for_each l body acc).
Proof.
  intros Hb. induction l as [|x l IH]; intros acc.
  - apply keeps_files_ret.
  - cbn [for_each]. apply keeps_files_bind; [apply Hb | apply IH].
Qed.

Lemma keeps_files_session_get u params : keeps_files (session_get u params).
Proof. intros w. unfold session_get. now destruct (script w). Qed.

Lemma keeps_files_get c endpoint params : keeps_files (_get c endpoint params).
Proof. intros w. now rewrite _get_run. Qed.

Lemma keeps_files_get_v2 c endpoint params : keeps_files (_get_v2 c endpoint params).
Proof. intros w. now rewrite _get_v2_run. Qed.

Ltac files_step :=
  lazymatch goal with
  | |- keeps_files (ret _) => apply keeps_files_ret
  | |- keeps_files (raise _) => apply keeps_files_raise
  | |- keeps_files (lift _) => apply keeps_files_lift
  | |- keeps_files (_get _ _ _) => apply keeps_files_get
  | |- keeps_files (_get_v2 _ _ _) => apply keeps_files_get_v2
  | |- keeps_files (except_api _ _) => apply keeps_files_except
  | |- keeps_files (for_each _ _ _) => apply keeps_files_for_each; intros
  | |- keeps_files (bind _ _) => apply keeps_files_bind; [|intros]
  | |- keeps_files (if ?b then _ else _) => destruct b
  | |- keeps_files (match ?x with _ => _ end) => destruct x
  end.

Lemma keeps_files_get_paginated_loop c endpoint fuel : forall acc params,
  keeps_files (_get_paginated_loop fuel c endpoint acc params).
Proof.
  induction fuel as [|fuel IH]; intros acc params; cbn [_get_paginated_loop].
  - apply keeps_files_raise.
  - repeat first [ apply IH | files_step ].
Qed.

Lemma keeps_files_get_paginated_v2_loop c endpoint fuel : forall acc params,
  keeps_files (_get_paginated_v2_loop fuel c endpoint acc params).
Proof.
  induction fuel as [|fuel IH]; intros acc params; cbn [_get_paginated_v2_loop].
  - apply keeps_files_raise.
  - repeat first [ apply IH | files_step ].
Qed.

Lemma keeps_files_get_paginated c endpoint params : keeps_files (_get_paginated c endpoint params).
Proof. intros w. unfold _get_paginated. apply keeps_files_get_paginated_loop. Qed.

Lemma keeps_files_get_paginated_v2 c endpoint params :
  keeps_files (_get_paginated_v2 c endpoint params).
Proof. intros w. unfold _get_paginated_v2. apply keeps_files_get_paginated_v2_loop. Qed.

Ltac files_auto :=
  repeat first
    [ apply keeps_files_get_paginated
    | apply keeps_files_get_paginated_v2
    | files_step ].

Lemma keeps_files_get_course_assignments py c course_id :
  keeps_files (get_course_assignments py c course_id).
Proof.
  unfold get_course_assignments, column_assignment, column_grade, column_accepts_late.
  files_auto.
Qed.

Lemma keeps_files_get_assignment_stats py c : keeps_files (get_assignment_stats py c).
Proof.
  unfold get_assignment_stats, get_assignment_stats_over, course_stats_round,
    get_course_assignment_stats.
  repeat first [ apply keeps_files_get_course_assignments | files_step ].
Qed.

Lemma keeps_files_get_assignments py c : keeps_files (get_assignments py c).
Proof.
  unfold get_assignments, get_assignments_over, course_assignments.
  repeat first [ apply keeps_files_get_course_assignments | files_step ].
Qed.

Lemma keeps_files_get_course_attendance py c course_id :
  keeps_files (_get_course_attendance py c course_id).
Proof. unfold _get_course_attendance, meeting_record. files_auto. Qed.

Lemma keeps_files_get_attendance_percentage py c : keeps_files (get_attendance_percentage py c).
Proof.
  unfold get_attendance_percentage, get_attendance_percentage_over, course_attendance,
    get_course_attendance_percentage.
  repeat first [ apply keeps_files_get_course_attendance | files_step ].
Qed.

(** ** The flags written back to the cache file *)

Lemma update_id_flags_effect c path flag value field number w :
  id_path c = Some path -> path <> "" ->
  exists w2,
    update_id_flags c flag value field number w = (Ok tt, w2)
    /\ script w2 = script w /\ sent w2 = sent w
    /\ (forall p, p <> path -> fs w2 p = fs w p)
    /\ fs w2 path
       = match fs w path with
         | Content (JObj d) =>
             Content (JObj (dict_set field (JFloat number) (dict_set flag (JBool value) d)))
         | other => other
         end.
Proof.
  intros Hp Hne. unfold update_id_flags. rewrite Hp.
  destruct (String.eqb_spec path "") as [|_]; [contradiction|]. cbn [negb].
  unfold except_pass, bind, load_json, lift, dump_json.
  destruct (fs w path) as [| |j] eqn:Hf.
  - exists w. rewrite Hf. auto.
  - exists w. rewrite Hf. auto.
  - destruct j as [| | | | | |d]; cbn [py_setitem];
      try (exists w; rewrite Hf; repeat split; auto; fail).
    eexists. split; [reflexivity|]. cbn [script sent fs]. repeat split.
    + intros p Hpp. destruct (String.eqb_spec p path); [contradiction | reflexivity].
    + now rewrite String.eqb_refl.
Qed.

(** X7: with a cache path set, [is_nerd] returns the flag for the rate it
    computed and writes both into the cache file when that file holds a JSON
    object: [isNerd] and [on_time_rate] are set and every other key is kept.
    When the file is missing, is not JSON or is not an object, nothing is
    written and nothing is raised. No other file is touched, and the update
    sends no request. *)
Theorem is_nerd_persists (py : python) (c : client) (path : string) (w w1 : world)
    (stats : list assignment_stats * overall_assignments) :
  id_path c = Some path -> path <> "" ->
  get_assignment_stats py c w = (Ok stats, w1) ->
  let rate := oa_on_time_rate stats.2 in
  let flag := PrimFloat.ltb 0x1.ccccccccccccdp-2 rate in
  exists w2,
    is_nerd py c w = (Ok flag, w2)
    /\ script w2 = script w1 /\ sent w2 = sent w1
    /\ (forall p, p <> path -> fs w2 p = fs w p)
    /\ match fs w path with
       | Content (JObj d) =>
           exists d',
             fs w2 path = Content (JObj d')
             /\ dict_get "isNerd" d' = Some (JBool flag)
             /\ dict_get "on_time_rate" d' = Some (JFloat rate)
             /\ (forall k, k <> "isNerd" -> k <> "on_time_rate" -> dict_get k d' = dict_get k d)
       | other => fs w2 path = other
       end.
Proof.
  intros Hp Hne Hstats. cbn zeta.
  pose proof (keeps_files_get_assignment_stats py c w) as Hfs. rewrite Hstats in Hfs. cbn in Hfs.
  destruct (update_id_flags_effect c path "isNerd"
              (PrimFloat.ltb 0x1.ccccccccccccdp-2 (oa_on_time_rate stats.2)) "on_time_rate"
              (oa_on_time_rate stats.2) w1 Hp Hne) as (w2 & Hrun & Hscr & Hsent & Hother & Hfile).
  exists w2. unfold is_nerd, bind. rewrite Hstats, Hrun. unfold ret.
  split; [reflexivity|]. split; [exact Hscr|]. split; [exact Hsent|]. split.
  - intros p Hpp. rewrite (Hother p Hpp). now rewrite Hfs.
  - rewrite Hfs in Hfile. destruct (fs w path) as [| |[| | | | | |d]]; try exact Hfile.
    eexists. split; [exact Hfile|]. split; [|split].
    + rewrite dict_get_set_ne by discriminate. apply dict_get_set_eq.
    + apply dict_get_set_eq.
    + intros k H1 H2. now rewrite !dict_get_set_ne.
Qed.

(** X8: with a cache path set, [is_attending] returns the flag for the
    percentage it computed and writes both into the cache file when that file
    holds a JSON object: [isAttending] and [attendance_percentage] are set and
    every other key is kept. When the file is missing, is not JSON or is not an
    object, nothing is written and nothing is raised. No other file is touched,
    and the update sends no request. *)
Theorem is_attending_persists (py : python) (c : client) (path : string) (w w1 : world)
    (stats : list attendance_stats * overall_attendance) :
  id_path c = Some path -> path <> "" ->
  get_attendance_percentage py c w = (Ok stats, w1) ->
  let percentage := ov_percentage stats.2 in
  let flag := PrimFloat.ltb 60 percentage in
  exists w2,
    is_attending py c w = (Ok flag, w2)
    /\ script w2 = script w1 /\ sent w2 = sent w1
    /\ (forall p, p <> path -> fs w2 p = fs w p)
    /\ match fs w path with
       | Content (JObj d) =>
           exists d',
             fs w2 path = Content (JObj d')
             /\ dict_get "isAttending" d' = Some (JBool flag)
             /\ dict_get "attendance_percentage" d' = Some (JFloat percentage)
             /\ (forall k, k <> "isAttending" -> k <> "attendance_percentage" ->
                 dict_get k d' = dict_get k d)
       | other => fs w2 path = other
       end.
Proof.
  intros Hp Hne Hstats. cbn zeta.
  pose proof (keeps_files_get_attendance_percentage py c w) as Hfs.
  rewrite Hstats in Hfs. cbn in Hfs.
  destruct (update_id_flags_effect c path "isAttending"
              (PrimFloat.ltb 60 (ov_percentage stats.2)) "attendance_percentage"
              (ov_percentage stats.2) w1 Hp Hne) as (w2 & Hrun & Hscr & Hsent & Hother & Hfile).
  exists w2. unfold is_attending, bind. rewrite Hstats, Hrun. unfold ret.
  split; [reflexivity|]. split; [exact Hscr|]. split; [exact Hsent|]. split.
  - intros p Hpp. rewrite (Hother p Hpp). now rewrite Hfs.
  - rewrite Hfs in Hfile. destruct (fs w path) as [| |[| | | | | |d]]; try exact Hfile.
    eexists. split; [exact Hfile|]. split; [|split].
    + rewrite dict_get_set_ne by discriminate. apply dict_get_set_eq.
    + apply dict_get_set_eq.
    + intros k H1 H2. now rewrite !dict_get_set_ne.
Qed.

Lemma is_nerd_persists_witness :
  exists w2 d',
    is_nerd demo_py demo_disk_client (demo_disk_world [demo_columns; demo_grade; demo_content])
    = (Ok false, w2)
    /\ fs w2 "amine.id" = Content (JObj d')
    /\ dict_get "isNerd" d' = Some (JBool false)
    /\ dict_get "courses" d' = dict_get "courses" demo_id_data.
Proof.
  destruct (get_assignment_stats demo_py demo_disk_client
              (demo_disk_world [demo_columns; demo_grade; demo_content]))
    as [[stats|e] w1] eqn:Hstats; [|vm_compute in Hstats; discriminate Hstats].
  destruct (is_nerd_persists demo_py demo_disk_client "amine.id" _ _ _ eq_refl
              ltac:(discriminate) Hstats) as (w2 & Hrun & _ & _ & _ & Hfile).
  cbn [fs demo_disk_world demo_disk String.eqb Ascii.eqb Bool.eqb] in Hfile.
  destruct Hfile as (d' & Hfile & Hflag & _ & Hother).
  vm_compute in Hstats. injection Hstats as <- _.
  exists w2, d'. split; [exact Hrun|]. split; [exact Hfile|]. split; [exact Hflag|].
  apply Hother; discriminate.
Defined.

Lemma is_attending_persists_witness :
  exists w2 d',
    is_attending demo_py demo_disk_client
      (demo_disk_world [meetings_page 4; attendance_reply "Present"; attendance_reply "Present";
                        attendance_reply "Late"; attendance_reply "Absent"])
    = (Ok true, w2)
    /\ fs w2 "amine.id" = Content (JObj d')
    /\ dict_get "isAttending" d' = Some (JBool true)
    /\ dict_get "attendance_percentage" d' = Some (JFloat 75).
Proof.
  destruct (get_attendance_percentage demo_py demo_disk_client
              (demo_disk_world [meetings_page 4; attendance_reply "Present";
                                attendance_reply "Present"; attendance_reply "Late";
                                attendance_reply "Absent"]))
    as [[stats|e] w1] eqn:Hstats; [|vm_compute in Hstats; discriminate Hstats].
  destruct (is_attending_persists demo_py demo_disk_client "amine.id" _ _ _ eq_refl
              ltac:(discriminate) Hstats) as (w2 & Hrun & _ & _ & _ & Hfile).
  cbn [fs demo_disk_world demo_disk String.eqb Ascii.eqb Bool.eqb] in Hfile.
  destruct Hfile as (d' & Hfile & Hflag & Hpct & _).
  vm_compute in Hstats. injection Hstats as <- _.
  exists w2, d'. split; [exact Hrun|]. split; [exact Hfile|]. split; [exact Hflag|]. exact Hpct.
Defined.

(** ** The cookie refresh on other files, and twice *)


Lemma dict_set_set k v1 v2 d : dict_set k v2 (dict_set k v1 d) = dict_set k v2 d.
Proof.
  induction d as [|[k0 v0] d IH]; cbn.
  - now rewrite String.eqb_refl.
  - destruct (String.eqb_spec k k0) as [->|Hne]; cbn.
    + now rewrite String.eqb_refl.
    + destruct (String.eqb_spec k k0); [contradiction|]. now rewrite IH.
Qed.

(** Setting a key that is there commutes with setting another key. *)
Lemma dict_set_comm k1 v1 k2 v2 d :
  k1 <> k2 -> is_Some (dict_get k1 d) ->
  dict_set k1 v1 (dict_set k2 v2 d) = dict_set k2 v2 (dict_set k1 v1 d).
Proof.
  intros Hne. induction d as [|[k0 v0] d IH]; cbn; intros Hin.
  - now destruct Hin.
  - destruct (String.eqb_spec k1 k0) as [->|H1]; destruct (String.eqb_spec k2 k0) as [->|H2];
      cbn; try contradiction.
    + rewrite String.eqb_refl. destruct (String.eqb_spec k2 k0); [contradiction | reflexivity].
    + rewrite String.eqb_refl. destruct (String.eqb_spec k1 k0); [contradiction | reflexivity].
    + destruct (String.eqb_spec k1 k0); [contradiction|].
      destruct (String.eqb_spec k2 k0); [contradiction|]. now rewrite IH.
Qed.

(** X10: the last refresh wins. After two cookie refreshes of a cache file
    that holds a JSON object, the file is what the second refresh alone would
    have left: its cookies and its [updated_at], the other keys as before and
    in the same order. *)
Theorem update_id_file_cookies_twice (py1 py2 : python) (id_path : string)
    (session1 session2 : list cookie) (d : list (string * json)) (w : world) :
  fs w id_path = Content (JObj d) ->
  let w1 := (update_id_file_cookies py1 id_path session1 w).2 in
  (update_id_file_cookies py2 id_path session2 w1).1 = Ok tt
  /\ fs (update_id_file_cookies py2 id_path session2 w1).2 id_path
     = fs (update_id_file_cookies py2 id_path session2 w).2 id_path
  /\ fs (update_id_file_cookies py2 id_path session2 w).2 id_path
     = Content (JObj (dict_set "updated_at" (JStr (now_iso py2))
                        (dict_set "cookies" (cookies_json session2) d))).
Proof.
  intros Hf. cbn zeta.
  assert (Hone : forall py session w0 d0,
             fs w0 id_path = Content (JObj d0) ->
             update_id_file_cookies py id_path session w0
             = (Ok tt, {| script := script w0; sent := sent w0;
                          fs := fun p => if String.eqb p id_path
                                         then Content (JObj (dict_set "updated_at" (JStr (now_iso py))
                                                               (dict_set "cookies" (cookies_json session) d0)))
                                         else fs w0 p |})).
  { intros py session w0 d0 H0.
    unfold update_id_file_cookies, except_file, bind, load_json, lift. now rewrite H0. }
  rewrite (Hone py1 session1 w d Hf). cbn [snd].
  erewrite (Hone py2 session2); [|cbn; now rewrite String.eqb_refl].
  rewrite (Hone py2 session2 w d Hf). cbn [fst snd fs]. rewrite String.eqb_refl.
  repeat split. f_equal. f_equal.
  rewrite (dict_set_comm "cookies" _ "updated_at") by (discriminate || (rewrite dict_get_set_eq; eauto)).
  now rewrite !dict_set_set.
Qed.

Lemma update_id_file_cookies_twice_witness :
  fs (update_id_file_cookies demo_py "amine.id" demo_session
        (update_id_file_cookies demo_py "amine.id" [] (demo_disk "amine.id" demo_id_data)).2).2
     "amine.id"
  = fs (update_id_file_cookies demo_py "amine.id" demo_session
          (demo_disk "amine.id" demo_id_data)).2 "amine.id".
Proof.
  exact (proj1 (proj2 (update_id_file_cookies_twice demo_py demo_py "amine.id" [] demo_session
                         demo_id_data (demo_disk "amine.id" demo_id_data) eq_refl))).
Defined.

(** ** What [parse_course_info] returns *)

Lemma clean_before_first s :
  (if Str.contains "__" s then first_part (Str.split "__" s) else s) = before_first "__" s.
Proof.
  unfold Str.contains, before_first.
  destruct (Str.find "__" s) eqn:F.
  - rewrite split_first by discriminate. unfold before_first. now rewrite F.
  - reflexivity.
Qed.



Lemma parse_course_info_parts course_name course_id :
  let r := parse_course_info course_name course_id in
  ci_name r = before_first "__" course_name
  /\ ci_course_id r = before_first "__" course_id
  /\ ci_class_name r = before_first "__" <$> after_first "__" course_name.
Proof.
  unfold parse_course_info. cbn zeta. rewrite clean_before_first.
  unfold Str.contains.
  destruct (Str.find "__" course_name) as [i|] eqn:F; cbn [ci_name ci_course_id ci_class_name].
  - rewrite (split_length_found _ _ _ sep_uu_nonempty F).
    rewrite split_first, split_second by discriminate. auto.
  - unfold before_first, after_first. rewrite F. auto.
Qed.


(** ** The courses [save_id_file] stores *)

Lemma professors_ok_nil py instructors : professors_ok py instructors [].
Proof. split; [constructor|]. split; [intros []|constructor]. Qed.

Lemma professors_ok_snoc py instructors names p :
  professors_ok py instructors names ->
  negb (String.eqb p "") && negb (existsb (String.eqb p) names) = true ->
  (exists instructor, In instructor instructors /\ named py instructor p) ->
  professors_ok py instructors (names ++ [p]).
Proof.
  intros (Hnd & Hne & Hall) Hc Hp. apply andb_prop in Hc as [Hp1 Hp2].
  apply negb_true_iff in Hp1, Hp2. apply String.eqb_neq in Hp1.
  assert (Hnot : ~ In p names).
  { intros Hin. apply not_true_iff_false in Hp2. apply Hp2.
    apply existsb_exists. exists p. split; [exact Hin | apply String.eqb_refl]. }
  split; [|split].
  - apply NoDup_app. split; [exact Hnd|]. split; [|apply NoDup_singleton].
    intros x Hx Hx'. apply list_elem_of_singleton in Hx'. subst x.
    apply Hnot. now apply list_elem_of_In.
  - intros Hin. apply in_app_or in Hin as [Hin|[Hin|[]]]; [now apply Hne | congruence].
  - apply Forall_app. split; [exact Hall|]. constructor; [exact Hp | constructor].
Qed.

Lemma add_professor_ok py instructors key p lookup :
  Forall (fun kn => professors_ok py instructors kn.2) lookup ->
  (exists instructor, In instructor instructors /\ named py instructor p) ->
  Forall (fun kn => professors_ok py instructors kn.2) (add_professor py key p lookup).
Proof.
  intros Hl Hp. induction Hl as [|[k names] rest Hk Hrest IH]; cbn [add_professor].
  - constructor; [|constructor]. cbn [snd].
    destruct (negb (String.eqb p "")) eqn:E; [|apply professors_ok_nil].
    apply (professors_ok_snoc py instructors [] p); [apply professors_ok_nil | | exact Hp].
    now rewrite E.
  - destruct (py_eq py k key).
    + constructor; [|exact Hrest]. cbn [snd] in *.
      destruct (negb (String.eqb p "") && negb (existsb (String.eqb p) names)) eqn:E;
        [|exact Hk].
      now apply professors_ok_snoc.
    + constructor; assumption.
Qed.

Lemma build_instructor_lookup_ok py all instructors :
  (forall i, In i instructors -> In i all) ->
  forall lookup lookup',
    Forall (fun kn => professors_ok py all kn.2) lookup ->
    build_instructor_lookup py instructors lookup = Ok lookup' ->
    Forall (fun kn => professors_ok py all kn.2) lookup'.
Proof.
  induction instructors as [|instructor rest IH]; intros Hin lookup lookup' Hl.
  - cbn. now intros [= <-].
  - cbn [build_instructor_lookup]. unfold obind.
    destruct (py_get instructor "course" (JObj [])) as [course_info|]; [|discriminate].
    destruct (py_get course_info "name" (JStr "")) as [course_name_full|]; [|discriminate].
    destruct (py_get instructor "name" (JObj [])) as [name_obj|] eqn:Hn; [|discriminate].
    destruct (person_name py name_obj) as [prof_name|] eqn:Hp; [|discriminate].
    destruct (hashable course_name_full); [|discriminate].
    apply IH; [intros i Hi; apply Hin; now right|].
    apply add_professor_ok; [exact Hl|].
    exists instructor. split; [apply Hin; now left|]. exists name_obj. auto.
Qed.

Lemma lookup_professors_ok py all key lookup :
  Forall (fun kn => professors_ok py all kn.2) lookup ->
  professors_ok py all (lookup_professors py key lookup).
Proof.
  induction 1 as [|[k names] rest Hk _ IH]; cbn [lookup_professors].
  - apply professors_ok_nil.
  - destruct (py_eq py k key); [exact Hk | exact IH].
Qed.

Lemma clean_part_text s :
  exists class_name, clean_part (JStr s) = Ok (JStr (before_first "__" s), class_name).
Proof.
  unfold clean_part. cbn [py_contains obind]. unfold Str.contains at 1.
  destruct (Str.find "__" s) as [i|] eqn:F.
  - cbn [py_string obind]. destruct (parse_course_info_parts s "") as (-> & _). eauto.
  - unfold before_first. rewrite F. eauto.
Qed.

Lemma build_courses_data_records py all lookup courses :
  Forall (fun kn => professors_ok py all kn.2) lookup ->
  forall records,
    build_courses_data py courses lookup = Ok records ->
    Forall2 (saved_course py all) courses records.
Proof.
  intros Hl. induction courses as [|course rest IH]; intros records.
  - cbn. intros [= <-]. constructor.
  - cbn [build_courses_data]. unfold obind at 1.
    destruct course as [| | | | | |d]; cbn [py_get]; try discriminate.
    unfold obind at 1.
    destruct (clean_part (default (JStr "") (dict_get "name" d))) as [parsed_name|] eqn:Hpn;
      [|discriminate]. unfold obind at 1.
    destruct (clean_part (default (JStr "") (dict_get "courseId" d))) as [parsed_id|] eqn:Hpi;
      [|discriminate]. unfold obind at 1.
    destruct (hashable (default (JStr "") (dict_get "name" d))); [|discriminate].
    unfold obind. destruct (build_courses_data py rest lookup) as [others|]; [|discriminate].
    intros [= <-]. constructor; [|now apply IH].
    exists d, parsed_name.1, parsed_id.1,
      (lookup_professors py (default (JStr "") (dict_get "name" d)) lookup).
    split; [reflexivity|]. split; [reflexivity|]. split; [|split].
    + intros s Hs. rewrite Hs in Hpn. change (default (JStr "") (Some (JStr s))) with (JStr s) in Hpn.
      destruct (clean_part_text s) as [cn Hc]. rewrite Hc in Hpn. now injection Hpn as <-.
    + intros s Hs. rewrite Hs in Hpi. change (default (JStr "") (Some (JStr s))) with (JStr s) in Hpi.
      destruct (clean_part_text s) as [cn Hc]. rewrite Hc in Hpi. now injection Hpi as <-.
    + now apply lookup_professors_ok.
Qed.

(** X12: the file [save_id_file] writes holds the session's cookies, the
    time of writing and the four flags [isNerd], [isAttending], [on_time_rate]
    and [attendance_percentage], all null; and under [courses] one record per
    course given, in the same order: the course's [id] as [internal_id], its
    [externalAccessUrl] as [url], its name and its [courseId] cut at the first
    "__", and the professors found for it, a list with no name twice and no
    empty name, each the name of one of the instructors given. *)
Theorem save_id_file_contents (py : python) (id_path : string) (session : list cookie)
    (user_data : json) (courses instructors : list json) (username password : json)
    (w w' : world) :
  save_id_file py id_path session user_data courses instructors username password w
    = (Ok tt, w') ->
  exists d records,
    fs w' id_path = Content (JObj d)
    /\ dict_get "generated_at" d = Some (JStr (now_iso py))
    /\ dict_get "cookies" d = Some (cookies_json session)
    /\ dict_get "isNerd" d = Some JNull
    /\ dict_get "isAttending" d = Some JNull
    /\ dict_get "on_time_rate" d = Some JNull
    /\ dict_get "attendance_percentage" d = Some JNull
    /\ dict_get "courses" d = Some (JArr records)
    /\ Forall2 (saved_course py instructors) courses records.
Proof.
  unfold save_id_file, bind, lift.
  destruct (id_data_of py session user_data courses instructors username password)
    as [id_data|] eqn:H; [|discriminate].
  unfold dump_json. intros [= <-]. cbn [fs]. rewrite String.eqb_refl.
  unfold id_data_of, obind in H.
  destruct (py_get user_data "name" (JObj [])) as [name_obj|]; [|discriminate].
  destruct (person_name py name_obj) as [full_name|]; [|discriminate].
  destruct (py_get user_data "userName" (JStr "")) as [api_name|]; [|discriminate].
  destruct (py_get user_data "contact" (JObj [])) as [contact|]; [|discriminate].
  destruct (py_get contact "email" (JStr "")) as [email|]; [|discriminate].
  match type of H with
  | match ?class with _ => _ end = _ => destruct class as [class_name|]; [|discriminate]
  end.
  destruct (build_instructor_lookup py instructors []) as [lookup|] eqn:Hlook; [|discriminate].
  destruct (build_courses_data py courses lookup) as [courses_data|] eqn:Hdata; [|discriminate].
  destruct (credentials_of py api_name password) as [credentials|]; [|discriminate].
  match type of H with
  | match ?shown with _ => _ end = _ => destruct shown as [shown_name|]; [|discriminate]
  end.
  injection H as <-.
  assert (Hrec : Forall2 (saved_course py instructors) courses courses_data).
  { eapply build_courses_data_records; [|exact Hdata].
    eapply build_instructor_lookup_ok; [| |exact Hlook]; [auto | constructor]. }
  destruct (negb (truthy credentials)); eexists _, courses_data;
    (split; [reflexivity|]); repeat (split; [reflexivity|]); exact Hrec.
Qed.

Lemma save_id_file_contents_witness :
  exists d records,
    fs (save_id_file demo_py "amine.id" demo_session (demo_user "amine.bensalah") [demo_course]
          [demo_instructor "Sana" "Trabelsi"; demo_instructor "Sana" "Trabelsi"]
          JNull (JStr "s3cret") (demo_world [])).2 "amine.id" = Content (JObj d)
    /\ dict_get "isNerd" d = Some JNull
    /\ dict_get "courses" d = Some (JArr records)
    /\ length records = 1.
Proof.
  destruct (save_id_file demo_py "amine.id" demo_session (demo_user "amine.bensalah")
              [demo_course] [demo_instructor "Sana" "Trabelsi"; demo_instructor "Sana" "Trabelsi"]
              JNull (JStr "s3cret") (demo_world [])) as [[[]|e] w'] eqn:Hrun;
    [|vm_compute in Hrun; discriminate Hrun].
  destruct (save_id_file_contents _ _ _ _ _ _ _ _ _ _ Hrun)
    as (d & records & Hf & _ & _ & Hn & _ & _ & _ & Hc & Hrec).
  exists d, records. split; [exact Hf|]. split; [exact Hn|]. split; [exact Hc|].
  apply Forall2_length in Hrec. now rewrite <- Hrec.
Defined.

(** ** Counts that add up *)

Lemma buckets_sum course_stats :
  Forall buckets_add_up course_stats ->
  sum_list (as_on_time <$> course_stats) + sum_list (as_late <$> course_stats)
  + sum_list (as_missed <$> course_stats) + sum_list (as_available <$> course_stats)
  = sum_list (as_total <$> course_stats).
Proof.
  induction 1 as [|s l Hs _ IH]; [reflexivity|]. unfold buckets_add_up in Hs. cbn. lia.
Qed.

Lemma get_course_assignment_stats_adds_up py c course_id w stats w' :
  get_course_assignment_stats py c course_id w = (Ok stats, w') -> buckets_add_up stats.
Proof.
  unfold get_course_assignment_stats, bind.
  destruct (get_course_assignments py c course_id w) as [[assignments|e] w1]; [|discriminate].
  unfold ret. intros [= <- _]. unfold buckets_add_up.
  cbn [as_on_time as_late as_missed as_available as_total].
  destruct (count_assignments_from {| on_time := 0; late := 0; missed := 0; available := 0 |}
              assignments) as (H1 & H2 & H3 & H4).
  unfold count_assignments. rewrite H1, H2, H3, H4. cbn [on_time late missed available].
  pose proof (in_bucket_total assignments). lia.
Qed.

Lemma course_stats_round_adds_up py c acc course w acc' w' :
  Forall buckets_add_up acc.1 /\ totals_are_sums acc.1 acc.2 ->
  course_stats_round py c acc course w = (Ok acc', w') ->
  Forall buckets_add_up acc'.1 /\ totals_are_sums acc'.1 acc'.2.
Proof.
  intros [Hf Hs]. unfold course_stats_round, bind, lift.
  destruct course as [| | | | | |d]; try (cbn; intros; discriminate).
  cbn [py_get]. set (internal_id := default JNull (dict_get "internal_id" d)).
  destruct (negb (truthy internal_id)).
  - unfold ret. intros [= <- _]. now split.
  - unfold except_api, bind, lift.
    destruct (get_course_assignment_stats py c internal_id w) as [[stats|e] w1] eqn:Hstats.
    + apply get_course_assignment_stats_adds_up in Hstats.
      destruct acc as [course_stats all]. unfold ret. intros [= <- _].
      cbn [fst snd] in *. split.
      * apply Forall_app. split; [exact Hf|]. constructor; [exact Hstats | constructor].
      * unfold totals_are_sums in *.
        cbn [at_total at_on_time at_late at_missed at_available].
        rewrite !sum_list_snoc. cbn. lia.
    + destruct e; try (intros; discriminate). unfold ret. intros [= <- _]. now split.
Qed.

(** X13: in what [get_assignment_stats] returns, the four buckets of every
    course add up to the course's total, each overall count is the sum of that
    count over the courses listed, and so the four overall buckets add up to
    the overall total. The overall counts are missing only when nothing is
    cached, and then no course is listed. *)
Theorem get_assignment_stats_adds_up (py : python) (c : client) (w w' : world)
    (course_stats : list assignment_stats) (overall : overall_assignments) :
  get_assignment_stats py c w = (Ok (course_stats, overall), w') ->
  Forall buckets_add_up course_stats
  /\ match oa_totals overall with
     | Some all =>
         totals_are_sums course_stats all
         /\ at_on_time all + at_late all + at_missed all + at_available all = at_total all
     | None => course_stats = [] /\ truthy (cached_data c) = false
     end.
Proof.
  unfold get_assignment_stats. destruct (truthy (cached_data c)) eqn:Hc; cbn [negb].
  - unfold bind at 1, lift at 1.
    destruct (py_get (cached_data c) "courses" (JArr [])) as [courses|]; [|discriminate].
    unfold bind at 1, lift at 1. destruct (py_iter courses) as [items|]; [|discriminate].
    unfold get_assignment_stats_over, bind at 1.
    destruct (for_each items (course_stats_round py c) _ w) as [[[stats all]|e] w1] eqn:Hloop;
      [|discriminate].
    unfold ret. intros [= <- <- _]. cbn [oa_totals].
    apply (for_each_invariant
             (fun acc => Forall buckets_add_up acc.1 /\ totals_are_sums acc.1 acc.2)) in Hloop.
    + cbn [fst snd] in Hloop. destruct Hloop as [Hf Hs]. split; [exact Hf|]. split; [exact Hs|].
      destruct Hs as (-> & -> & -> & -> & ->). now apply buckets_sum.
    + intros acc x w0 acc' w0'. apply course_stats_round_adds_up.
    + cbn. split; [constructor | repeat split].
  - unfold ret. intros [= <- <- _]. cbn. auto.
Qed.

Lemma get_assignment_stats_adds_up_witness :
  exists course_stats overall,
    (get_assignment_stats demo_py demo_cached_client
       (demo_world [demo_columns; demo_grade; demo_content])).1 = Ok (course_stats, overall)
    /\ Forall buckets_add_up course_stats.
Proof.
  destruct (get_assignment_stats demo_py demo_cached_client
              (demo_world [demo_columns; demo_grade; demo_content]))
    as [[[course_stats overall]|e] w'] eqn:Hrun; [|vm_compute in Hrun; discriminate Hrun].
  exists course_stats, overall. split; [reflexivity|].
  exact (proj1 (get_assignment_stats_adds_up _ _ _ _ _ _ Hrun)).
Defined.

Lemma count_records_bound attendance :
  forall pa pa', count_records pa attendance = Ok pa' ->
                 pa'.1 + pa'.2 <= pa.1 + pa.2 + length attendance.
Proof.
  induction attendance as [|record rest IH]; intros pa pa'.
  - cbn. intros [= <-]. lia.
  - cbn [count_records]. unfold obind at 1.
    destruct (count_record pa record) as [pa1|] eqn:H1; [|discriminate].
    intros H. apply IH in H. cbn [length].
    enough (pa1.1 + pa1.2 <= pa.1 + pa.2 + 1) by lia.
    unfold count_record, obind in H1.
    destruct (py_get record "status" (JStr "")) as [v|]; [|discriminate].
    destruct (py_string v) as [s|]; [|discriminate].
    destruct (existsb _ _); [injection H1 as <-; cbn; lia|].
    destruct (existsb _ _); injection H1 as <-; cbn; lia.
Qed.

Lemma get_course_attendance_percentage_within py c course_id w stats w' :
  get_course_attendance_percentage py c course_id w = (Ok stats, w') -> within_total stats.
Proof.
  unfold get_course_attendance_percentage, bind.
  destruct (_get_course_attendance py c course_id w) as [[attendance|e] w1]; [|discriminate].
  unfold lift at 1.
  destruct (count_records (0, 0) attendance) as [[present absent]|] eqn:Hc; [|discriminate].
  unfold lift. destruct (cached_name_by_id py c course_id); [|discriminate].
  unfold ret. intros [= <- _]. unfold within_total. cbn [ts_present ts_absent ts_total].
  apply count_records_bound in Hc. cbn in Hc. lia.
Qed.

Lemma within_sum course_stats :
  Forall within_total course_stats ->
  sum_list (ts_present <$> course_stats) + sum_list (ts_absent <$> course_stats)
  <= sum_list (ts_total <$> course_stats).
Proof.
  induction 1 as [|s l Hs _ IH]; [reflexivity|]. unfold within_total in Hs. cbn. lia.
Qed.

Lemma course_attendance_within py c acc course w acc' w' :
  Forall within_total acc.1 /\ counts_are_sums acc.1 acc.2 ->
  course_attendance py c acc course w = (Ok acc', w') ->
  Forall within_total acc'.1 /\ counts_are_sums acc'.1 acc'.2.
Proof.
  intros [Hf Hs]. unfold course_attendance, bind, lift.
  destruct course as [| | | | | |d]; try (cbn; intros; discriminate).
  cbn [py_get]. set (internal_id := default JNull (dict_get "internal_id" d)).
  destruct (negb (truthy internal_id)).
  - unfold ret. intros [= <- _]. now split.
  - destruct (get_course_attendance_percentage py c internal_id w) as [[stats|e] w1] eqn:Hstats;
      [|discriminate].
    apply get_course_attendance_percentage_within in Hstats.
    destruct acc as [course_stats [[p a] m]]. unfold ret. intros [= <- _].
    cbn [fst snd] in *. split.
    + apply Forall_app. split; [exact Hf|]. constructor; [exact Hstats | constructor].
    + unfold counts_are_sums in *. cbn [fst snd] in *.
      rewrite !sum_list_snoc. cbn. lia.
Qed.

(** X14: in what [get_attendance_percentage] returns, present and absent
    meetings of a course never exceed its meetings, each overall count is the
    sum of that count over the courses listed, and overall present plus absent
    does not exceed the overall total. The overall counts are missing only when
    nothing is cached, and then no course is listed. *)
Theorem get_attendance_percentage_counts (py : python) (c : client) (w w' : world)
    (course_stats : list attendance_stats) (overall : overall_attendance) :
  get_attendance_percentage py c w = (Ok (course_stats, overall), w') ->
  Forall within_total course_stats
  /\ match ov_counts overall with
     | Some counts =>
         counts_are_sums course_stats counts /\ counts.1.1 + counts.1.2 <= counts.2
     | None => course_stats = [] /\ truthy (cached_data c) = false
     end.
Proof.
  unfold get_attendance_percentage. destruct (truthy (cached_data c)) eqn:Hc; cbn [negb].
  - unfold bind at 1, lift at 1.
    destruct (py_get (cached_data c) "courses" (JArr [])) as [courses|]; [|discriminate].
    unfold bind at 1, lift at 1. destruct (py_iter courses) as [items|]; [|discriminate].
    unfold get_attendance_percentage_over, bind at 1.
    destruct (for_each items (course_attendance py c) _ w) as [[[stats [[p a] m]]|e] w1]
      eqn:Hloop; [|discriminate].
    unfold ret. intros [= <- <- _]. cbn [ov_counts].
    apply (for_each_invariant
             (fun acc => Forall within_total acc.1 /\ counts_are_sums acc.1 acc.2)) in Hloop.
    + cbn [fst snd] in Hloop. destruct Hloop as [Hf Hs]. split; [exact Hf|]. split; [exact Hs|].
      destruct Hs as (H1 & H2 & H3). cbn [fst snd] in *. subst p a m. now apply within_sum.
    + intros acc x w0 acc' w0'. apply course_attendance_within.
    + cbn. split; [constructor | repeat split].
  - unfold ret. intros [= <- <- _]. cbn. auto.
Qed.

Lemma get_attendance_percentage_counts_witness :
  exists course_stats overall,
    (get_attendance_percentage demo_py demo_cached_client
       (demo_world [meetings_page 2; attendance_reply "Present"; not_found])).1
    = Ok (course_stats, overall)
    /\ Forall within_total course_stats.
Proof.
  destruct (get_attendance_percentage demo_py demo_cached_client
              (demo_world [meetings_page 2; attendance_reply "Present"; not_found]))
    as [[[course_stats overall]|e] w'] eqn:Hrun; [|vm_compute in Hrun; discriminate Hrun].
  exists course_stats, overall. split; [reflexivity|].
  exact (proj1 (get_attendance_percentage_counts _ _ _ _ _ _ Hrun)).
Defined.

(** ** Reading the cache file back *)

Lemma jar_set_error call e : jar_set call = Raise e -> e = AttributeError \/ e = TypeError.
Proof.
  unfold jar_set. destruct (sc_value call); try discriminate;
    (destruct (default (JStr "") (sc_domain call)); try (intros [= <-]; now left);
     destruct (hashable (default (JStr "/") (sc_path call))); [|intros [= <-]; now right];
     destruct (hashable (sc_name call)); [discriminate | intros [= <-]; now right]).
Qed.

Lemma listed_cookies_saved session :
  Forall jar_cookie session -> stored_cookies (cookies_json session) = Ok (set_again <$> session).
Proof.
  unfold cookies_json, stored_cookies.
  induction 1 as [|ck rest Hck _ IH]; [reflexivity|].
  rewrite !fmap_cons. cbn [listed_cookies]. cbn [py_get dict_get String.eqb Ascii.eqb Bool.eqb].
  unfold default. cbn [from_option id obind].
  unfold jar_cookie, set_again in Hck. rewrite Hck. cbn [obind]. rewrite IH. reflexivity.
Qed.

(** Whenever the cookies a session was saved as load at all, they load as
    the calls that put them back. *)
Lemma listed_cookies_saved_only session calls :
  stored_cookies (cookies_json session) = Ok calls -> calls = set_again <$> session.
Proof.
  unfold cookies_json, stored_cookies. revert calls.
  induction session as [|ck rest IH]; intros calls.
  - cbn. now intros [= <-].
  - rewrite !fmap_cons. cbn [listed_cookies].
    cbn [py_get dict_get String.eqb Ascii.eqb Bool.eqb]. unfold default.
    cbn [from_option id obind].
    destruct (jar_set _) as [[]|]; [|discriminate]. cbn [obind].
    destruct (listed_cookies _) as [more|]; [|discriminate]. cbn [obind].
    intros [= <-]. now rewrite (IH more eq_refl).
Qed.

Lemma listed_cookies_error l e :
  listed_cookies l = Raise e -> e = AttributeError \/ e = TypeError.
Proof.
  induction l as [|cookie rest IH]; [discriminate|].
  cbn [listed_cookies].
  destruct cookie as [| | | | | |d]; cbn [py_get obind]; try (intros [= <-]; now left).
  destruct (jar_set _) as [[]|e'] eqn:Hj; cbn [obind].
  - destruct (listed_cookies rest) as [calls|e']; [discriminate|].
    cbn [obind]. intros [= <-]. now apply IH.
  - intros [= <-]. now apply jar_set_error in Hj.
Qed.



Lemma legacy_cookies_ok d :
  exists calls, legacy_cookies d = Ok calls /\ length calls = length d.
Proof.
  induction d as [|[name value] rest (calls & IH & Hlen)]; [now exists []|].
  cbn [legacy_cookies].
  assert (Hj : jar_set {| sc_name := JStr name; sc_value := value;
                          sc_domain := None; sc_path := None |} = Ok tt)
    by now destruct value.
  rewrite Hj. cbn [obind]. rewrite IH. cbn [obind].
  eexists. split; [reflexivity|]. cbn. now rewrite Hlen.
Qed.

Lemma stored_cookies_error cookies e :
  stored_cookies cookies = Raise e -> e = AttributeError \/ e = TypeError.
Proof.
  destruct cookies as [| | | | |l|d]; cbn [stored_cookies]; try (intros [= <-]; now left).
  - apply listed_cookies_error.
  - destruct (legacy_cookies_ok d) as (calls & -> & _). discriminate.
Qed.

(** On a file that holds an object, [load_id_file] is the reading of its
    entries; the world stays as it is. *)
Lemma load_id_file_run id_path d w :
  fs w id_path = Content (JObj d) ->
  load_id_file id_path w
  = (session <~ stored_cookies (default (JArr []) (dict_get "cookies" d)) ;;
     cached_data <~ cached_data_of (JObj d) ;;
     Ok (session, cached_data), w).
Proof.
  intros Hf. unfold load_id_file, except_file, bind, load_json, lift. rewrite Hf.
  cbn [py_get].
  destruct (stored_cookies _) as [session|e] eqn:Hs; cbn [obind].
  - reflexivity.
  - now destruct (stored_cookies_error _ _ Hs) as [-> | ->].
Qed.

(** X15: [load_id_file] after [save_id_file] gives the session back cookie
    by cookie: when the saved session's cookies are cookies a jar holds (string
    domain, hashable path and name), it makes one [set] call per cookie, in
    order, with its name, value, domain and path, and whenever it succeeds this
    is what it returns. The cached data it returns are the time of writing, the
    [user] and [courses] entries as written, and the [credentials] entry, null
    when the file has none. Loading changes nothing: no file is written, no
    request is sent. *)
Theorem load_after_save (py : python) (id_path : string) (session : list cookie)
    (user_data : json) (courses instructors : list json) (username password : json)
    (w w1 : world) :
  save_id_file py id_path session user_data courses instructors username password w
    = (Ok tt, w1) ->
  exists d user records,
    fs w1 id_path = Content (JObj d)
    /\ dict_get "user" d = Some user
    /\ dict_get "courses" d = Some (JArr records)
    /\ length records = length courses
    /\ let loaded :=
         (set_again <$> session,
          JObj [("generated_at", JStr (now_iso py)); ("user", user);
                ("courses", JArr records);
                ("credentials", default JNull (dict_get "credentials" d))]) in
       (Forall jar_cookie session -> load_id_file id_path w1 = (Ok loaded, w1))
       /\ (forall other, (load_id_file id_path w1).1 = Ok other -> other = loaded)
       /\ (load_id_file id_path w1).2 = w1.
Proof.
  unfold save_id_file, bind, lift.
  destruct (id_data_of py session user_data courses instructors username password)
    as [id_data|] eqn:H; [|discriminate].
  unfold dump_json. intros [= <-].
  unfold id_data_of, obind in H.
  destruct (py_get user_data "name" (JObj [])) as [name_obj|]; [|discriminate].
  destruct (person_name py name_obj) as [full_name|]; [|discriminate].
  destruct (py_get user_data "userName" (JStr "")) as [api_name|]; [|discriminate].
  destruct (py_get user_data "contact" (JObj [])) as [contact|]; [|discriminate].
  destruct (py_get contact "email" (JStr "")) as [email|]; [|discriminate].
  match type of H with
  | match ?class with _ => _ end = _ => destruct class as [class_name|]; [|discriminate]
  end.
  destruct (build_instructor_lookup py instructors []) as [lookup|] eqn:Hlook; [|discriminate].
  destruct (build_courses_data py courses lookup) as [courses_data|] eqn:Hdata; [|discriminate].
  destruct (credentials_of py api_name password) as [credentials|]; [|discriminate].
  match type of H with
  | match ?shown with _ => _ end = _ => destruct shown as [shown_name|]; [|discriminate]
  end.
  injection H as <-.
  assert (Hlen : length courses_data = length courses).
  { symmetry. eapply Forall2_length, build_courses_data_records; [|exact Hdata].
    eapply (build_instructor_lookup_ok py instructors); [| |exact Hlook]; [auto | constructor]. }
  destruct (negb (truthy credentials));
    eexists _, _, courses_data; cbn [fs]; rewrite String.eqb_refl;
    (split; [reflexivity|]); (split; [reflexivity|]); (split; [reflexivity|]);
    (split; [exact Hlen|]); cbn zeta;
    (erewrite load_id_file_run; [|cbn [fs]; now rewrite String.eqb_refl]);
    cbn [dict_del dict_get String.eqb Ascii.eqb Bool.eqb default from_option id];
    (split; [intros Hjar; now rewrite (listed_cookies_saved _ Hjar)|]);
    (split; [|reflexivity]);
    (intros other; cbn [fst];
     destruct (stored_cookies (cookies_json session)) as [calls|] eqn:Hs; cbn [obind];
     [|discriminate];
     rewrite (listed_cookies_saved_only _ _ Hs); now intros [= <-]).
Qed.

Lemma load_after_save_witness :
  exists w1 cached,
    save_id_file demo_py "amine.id" demo_session (demo_user "amine.bensalah") [demo_course]
      [demo_instructor "Sana" "Trabelsi"] JNull (JStr "s3cret") (demo_world []) = (Ok tt, w1)
    /\ load_id_file "amine.id" w1 = (Ok (set_again <$> demo_session, cached), w1).
Proof.
  destruct (save_id_file demo_py "amine.id" demo_session (demo_user "amine.bensalah")
              [demo_course] [demo_instructor "Sana" "Trabelsi"]
              JNull (JStr "s3cret") (demo_world [])) as [[[]|e] w1] eqn:Hrun;
    [|vm_compute in Hrun; discriminate Hrun].
  destruct (load_after_save _ _ _ _ _ _ _ _ _ _ Hrun)
    as (d & user & records & _ & _ & _ & _ & Hl & _).
  exists w1. eexists. split; [reflexivity|]. apply Hl. repeat constructor.
Defined.

Lemma cached_data_of_set k v d :
  k <> "generated_at" -> k <> "user" -> k <> "courses" -> k <> "credentials" ->
  cached_data_of (JObj (dict_set k v d)) = cached_data_of (JObj d).
Proof.
  intros. unfold cached_data_of. cbn [py_get obind].
  now rewrite !dict_get_set_ne by congruence.
Qed.

(** X16: after a cookie refresh of a cache file that holds an object,
    [load_id_file] gives, when the new session's cookies are cookies a jar
    holds, one [set] call per cookie of the new session, in order, whatever
    the file held as cookies before, and whenever it succeeds this is what it
    returns; the cached data are those the file gave before the refresh:
    [generated_at], [user], [courses] and [credentials] are untouched. *)
Theorem load_after_update (py : python) (id_path : string) (session : list cookie)
    (d : list (string * json)) (w : world) :
  fs w id_path = Content (JObj d) ->
  exists cached w1,
    update_id_file_cookies py id_path session w = (Ok tt, w1)
    /\ cached_data_of (JObj d) = Ok cached
    /\ (Forall jar_cookie session ->
        load_id_file id_path w1 = (Ok (set_again <$> session, cached), w1))
    /\ (forall other, (load_id_file id_path w1).1 = Ok other ->
                      other = (set_again <$> session, cached))
    /\ (load_id_file id_path w1).2 = w1
    /\ (forall old cached0 w0,
          load_id_file id_path w = (Ok (old, cached0), w0) -> cached0 = cached).
Proof.
  intros Hf.
  destruct (cached_data_of (JObj d)) as [cached|] eqn:Hc; [|discriminate Hc].
  exists cached. eexists. split; [|split; [reflexivity|]].
  - unfold update_id_file_cookies, except_file, bind, load_json, lift. rewrite Hf. reflexivity.
  - erewrite load_id_file_run; [|cbn [fs]; now rewrite String.eqb_refl].
    rewrite !cached_data_of_set by discriminate. rewrite Hc.
    rewrite dict_get_set_ne by discriminate. rewrite dict_get_set_eq.
    cbn [default from_option id].
    split; [intros Hjar; now rewrite (listed_cookies_saved _ Hjar)|].
    split; [|split; [reflexivity|]].
    + intros other. cbn [fst].
      destruct (stored_cookies (cookies_json session)) as [calls|] eqn:Hs; cbn [obind];
        [|discriminate].
      rewrite (listed_cookies_saved_only _ _ Hs). now intros [= <-].
    + intros old cached0 w0. rewrite (load_id_file_run _ _ _ Hf), Hc.
      destruct (stored_cookies _) as [calls|e]; cbn [obind]; [|discriminate].
      now intros [= _ <- _].
Qed.

Lemma load_after_update_witness :
  exists cached w1,
    update_id_file_cookies demo_py "amine.id" demo_session (demo_disk "amine.id" demo_id_data)
      = (Ok tt, w1)
    /\ load_id_file "amine.id" w1 = (Ok (set_again <$> demo_session, cached), w1).
Proof.
  destruct (load_after_update demo_py "amine.id" demo_session demo_id_data
              (demo_disk "amine.id" demo_id_data) eq_refl)
    as (cached & w1 & Hu & _ & Hl & _).
  exists cached, w1. split; [exact Hu|]. apply Hl. repeat constructor.
Defined.


(** ** Validating the session *)

(** X18: [_validate_auth] sends exactly one request, for [/users/me], and
    never ends in a [BBAPIError]. On status 200 with an object it sets the user
    id to the object's [id] (null when it has none) and changes nothing else of
    the client; a body that is not an object ends in an [AttributeError]. Status
    401 gives the [BBAuthError] "Cookie has expired or is invalid (401
    Unauthorized)", any other status "Authentication validation failed: API
    request failed: /users/me", and a transport error "Authentication validation
    failed: Request error: <error>". *)
Theorem _validate_auth_cases (c : client) (w : world) :
  _validate_auth c w
  = (match next_reply w with
     | Response r =>
         if (status_code r =? 200)%Z then
           match body r with
           | JObj d => Ok (with_user_id c (default JNull (dict_get "id" d)))
           | _ => Raise AttributeError
           end
         else if (status_code r =? 401)%Z then
           Raise (BBAuthError "Cookie has expired or is invalid (401 Unauthorized)")
         else
           Raise (BBAuthError
                    "Authentication validation failed: API request failed: /users/me")
     | RequestException e =>
         Raise (BBAuthError ("Authentication validation failed: Request error: " +:+ e))
     end, after_request w (v1_url c "/users/me") ∅).
Proof.
  unfold _validate_auth, bind at 1. rewrite _get_run. unfold next_reply.
  destruct (script w) as [|[r|e] rest]; try reflexivity.
  destruct (status_code r =? 200)%Z eqn:E.
  - unfold bind, lift, ret. destruct (body r); reflexivity.
  - cbn [is_401]. destruct (status_code r =? 401)%Z; reflexivity.
Qed.

(** ** Enrolled courses and instructors *)

Lemma enrolled_course_served py c acc membership w acc' w' :
  enrolled_course py c acc membership w = (Ok acc', w') ->
  if has_course membership
  then exists kept,
         course_answer membership (next_reply w) = Ok kept /\ acc' = acc ++ kept
         /\ w' = after_request w (course_url py c membership) ∅
  else acc' = acc /\ w' = w.
Proof.
  unfold enrolled_course, bind at 1, lift at 1.
  destruct membership as [| | | | | |m]; try (intros H; discriminate H).
  unfold has_course, course_url. cbn [py_get item_get].
  destruct (truthy (default JNull (dict_get "courseId" m))); cbn [negb]; lazy iota.
  - unfold except_api, bind at 1. rewrite _get_run. unfold next_reply.
    destruct (script w) as [|[r|e] rest]; cbn [course_answer connection_down].
    + unfold ret. intros [= <- <-]. exists []. now rewrite app_nil_r.
    + destruct (status_code r =? 200)%Z.
      * unfold bind at 1, lift at 1.
        destruct (body r) as [| | | | | |d]; cbn [py_get obind]; try discriminate.
        destruct (truthy (default JNull (dict_get "externalAccessUrl" d))).
        -- unfold bind, lift, ret. cbn [py_setitem obind]. intros [= <- <-]. eauto.
        -- unfold ret. intros [= <- <-]. exists []. now rewrite app_nil_r.
      * unfold ret. intros [= <- <-]. exists []. now rewrite app_nil_r.
    + unfold ret. intros [= <- <-]. exists []. now rewrite app_nil_r.
  - unfold ret. now intros [= <- <-].
Qed.

Lemma never_api_error_enrolled_course py c acc membership :
  never_api_error (enrolled_course py c acc membership).
Proof. unfold enrolled_course. repeat api_step. Qed.

(** X19: a [BBAPIError] of the membership listing ends [get_enrolled_courses]
    with that error, and it is the only [BBAPIError] it can end in. After the
    listing it sends one request per membership that has a [courseId], in the
    listing's order and for that course, and none for the others; what it
    returns is made of the replies to these requests, in order: for a reply
    with status 200 whose object has an [externalAccessUrl], that object with
    the membership stored under [membership]; nothing for a reply without
    one, with another status, or for a transport error. *)
Theorem get_enrolled_courses_spec (py : python) (c : client) (w : world) :
  match _get_paginated c ("/users/" +:+ py_str py (user_id c) +:+ "/courses") None w with
  | (Raise e, w1) => get_enrolled_courses py c w = (Raise e, w1)
  | (Ok memberships, w1) =>
      (forall message code response,
          (get_enrolled_courses py c w).1 <> Raise (BBAPIError message code response))
      /\ (forall courses w',
            get_enrolled_courses py c w = (Ok courses, w') ->
            served has_course course_answer memberships (script w1) = Ok courses
            /\ sent w' = sent w1 ++ asked has_course (course_url py c) memberships
            /\ script w'
               = drop (length (asked has_course (course_url py c) memberships)) (script w1)
            /\ fs w' = fs w1)
  end.
Proof.
  unfold get_enrolled_courses, bind at 1 2 3.
  destruct (_get_paginated c _ None w) as [[memberships|e] w1]; [|reflexivity].
  split.
  - intros message code response H.
    pose proof (never_api_error_for_each (enrolled_course py c) memberships
                  (never_api_error_enrolled_course py c) [] w1) as Hno.
    rewrite H in Hno. discriminate Hno.
  - intros courses w' Hrun.
    destruct (for_each_served has_course course_answer (course_url py c) (enrolled_course py c)
                (fun acc x w0 acc' w0' => enrolled_course_served py c acc x w0 acc' w0')
                _ _ _ _ _ Hrun) as (kept & Hserved & -> & Hrest).
    cbn [app]. split; [exact Hserved | exact Hrest].
Qed.

Lemma course_instructor_served py c acc member w acc' w' :
  course_instructor py c acc member w = (Ok acc', w') ->
  if teaches member
  then exists kept,
         instructor_answer member (next_reply w) = Ok kept /\ acc' = acc ++ kept
         /\ w' = after_request w (instructor_url py c member) ∅
  else acc' = acc /\ w' = w.
Proof.
  unfold course_instructor, bind at 1, lift at 1.
  destruct member as [| | | | | |m]; try (intros H; discriminate H).
  cbn [py_get teaches]. unfold instructor_url, instructor_answer, basic_info. cbn [item_get].
  destruct (is_teaching_role (default (JStr "") (dict_get "courseRoleId" m))); lazy iota.
  - unfold bind at 1, lift at 1. unfold except_api, bind at 1. rewrite _get_run.
    unfold next_reply.
    destruct (script w) as [|[r|e] rest]; cbn [connection_down].
    + unfold bind, lift, ret. cbn [py_get]. intros [= <- <-]. eauto.
    + destruct (status_code r =? 200)%Z.
      * unfold bind, lift, ret.
        destruct (body r) as [| | | | | |d]; cbn [py_setitem obind]; try discriminate.
        intros [= <- <-]. eauto.
      * unfold bind, lift, ret. cbn [py_get]. intros [= <- <-]. eauto.
    + unfold bind, lift, ret. cbn [py_get]. intros [= <- <-]. eauto.
  - unfold ret. now intros [= <- <-].
Qed.

Lemma never_api_error_course_instructor py c acc member :
  never_api_error (course_instructor py c acc member).
Proof. unfold course_instructor. repeat api_step. Qed.

Lemma never_api_error_instructors_single py c course_id :
  never_api_error (_get_course_instructors_single py c course_id).
Proof. unfold _get_course_instructors_single. repeat api_step. Qed.

(** X20: [_get_course_instructors_single] never ends in a [BBAPIError]: when
    the member listing fails it returns the empty list. Otherwise it sends one
    request per member whose [courseRoleId] is "Instructor",
    "TeachingAssistant", "Grader" or "CourseBuilder", in the listing's order
    and for that member's user, and none for the others; it returns one record
    per such member, made of the reply to that request: on status 200 the
    object the server sent with the member's role stored under [courseRole],
    on any other status and on a transport error the member's [userId], role
    and [name]. *)
Theorem _get_course_instructors_single_spec (py : python) (c : client) (course_id : json)
    (w : world) :
  (forall message code response,
      (_get_course_instructors_single py c course_id w).1
      <> Raise (BBAPIError message code response))
  /\ match _get_paginated c ("/courses/" +:+ py_str py course_id +:+ "/users") None w with
     | (Raise e, w1) =>
         is_api_error e = true -> _get_course_instructors_single py c course_id w = (Ok [], w1)
     | (Ok memberships, w1) =>
         forall instructors w',
           _get_course_instructors_single py c course_id w = (Ok instructors, w') ->
           served teaches instructor_answer memberships (script w1) = Ok instructors
           /\ length instructors
              = length (filter (fun member => teaches member = true) memberships)
           /\ sent w' = sent w1 ++ asked teaches (instructor_url py c) memberships
           /\ script w'
              = drop (length (asked teaches (instructor_url py c) memberships)) (script w1)
           /\ fs w' = fs w1
     end.
Proof.
  split.
  - intros message code response H.
    pose proof (never_api_error_instructors_single py c course_id w) as Hno.
    rewrite H in Hno. discriminate Hno.
  - unfold _get_course_instructors_single, except_api, bind.
    destruct (_get_paginated c _ None w) as [[memberships|e] w1].
    + intros instructors w' Hrun.
      destruct (for_each memberships (course_instructor py c) [] w1) as [[rs|e] w2] eqn:Hloop.
      * injection Hrun as <- <-.
        destruct (for_each_served teaches instructor_answer (instructor_url py c)
                    (course_instructor py c)
                    (fun acc x w0 acc' w0' => course_instructor_served py c acc x w0 acc' w0')
                    _ _ _ _ _ Hloop) as (kept & Hserved & -> & Hrest).
        cbn [app]. split; [exact Hserved|]. split; [|exact Hrest].
        assert (Hone : forall x t k, instructor_answer x t = Ok k -> length k = 1).
        { intros x t k. unfold instructor_answer.
          destruct t as [r|]; [destruct (status_code r =? 200)%Z|];
            [destruct (py_setitem _ _ _); cbn [obind]| |]; intros [= <-]; reflexivity. }
        rewrite (served_one_each _ _ (instructor_url py c) _ Hone _ _ Hserved).
        unfold asked. apply length_fmap.
      * exfalso.
        pose proof (never_api_error_for_each (course_instructor py c) memberships
                      (never_api_error_course_instructor py c) [] w1) as Hno.
        rewrite Hloop in Hno. destruct e; discriminate.
    + destruct e; try discriminate. reflexivity.
Qed.

Lemma for_each_invariant_in {A B} (I : B -> Prop) (body : B -> A -> M B) (l : list A) :
  (forall acc x w acc' w', In x l -> I acc -> body acc x w = (Ok acc', w') -> I acc') ->
  forall acc w r w', I acc -> for_each l body acc w = (Ok r, w') -> I r.
Proof.
  induction l as [|x l IH]; intros Hbody acc w r w' Hacc Hrun.
  - cbn in Hrun. unfold ret in Hrun. now injection Hrun as <- _.
  - cbn [for_each] in Hrun. unfold bind in Hrun.
    destruct (body acc x w) as [[acc1|e] w1] eqn:Hb; [|discriminate].
    eapply IH; [|eapply Hbody; [now left | exact Hacc | exact Hb] | exact Hrun].
    intros acc0 x0 w0 acc0' w0' Hin. apply Hbody. now right.
Qed.

Lemma tag_with_course_tagged courses course acc record w acc' w' :
  In (JObj course) courses ->
  Forall (tagged_with courses) acc ->
  tag_with_course (default JNull (dict_get "id" course)) (JObj course) acc record w
    = (Ok acc', w') ->
  Forall (tagged_with courses) acc'.
Proof.
  intros Hin Hacc. unfold tag_with_course, bind, lift, ret. cbn [py_get].
  destruct record as [| | | | | |d]; try discriminate. cbn [py_setitem].
  intros [= <- _]. apply Forall_app. split; [exact Hacc|].
  constructor; [|constructor]. eexists _, course. split; [reflexivity|]. split; [exact Hin|].
  apply dict_get_set_eq.
Qed.

(** One round of the outer loop of the two all-courses listings, whatever is
    fetched for the course. *)
Lemma tagging_round (fetch : json -> M (list json)) courses course acc w acc' w' :
  In course courses ->
  Forall (tagged_with courses) acc ->
  (course_id <- lift (py_get course "id" JNull) ;;
   records <- fetch course_id ;;
   for_each records (tag_with_course course_id course) acc) w = (Ok acc', w') ->
  Forall (tagged_with courses) acc'.
Proof.
  intros Hin Hacc. unfold bind at 1, lift at 1.
  destruct course as [| | | | | |cd]; try discriminate. cbn [py_get].
  unfold bind at 1. destruct (fetch _ w) as [[records|e] w1]; [|discriminate].
  apply (for_each_invariant (Forall (tagged_with courses))); [|exact Hacc].
  intros acc0 x w0 acc0' w0' H0. now apply tag_with_course_tagged.
Qed.

(** X21: with a course id, [get_course_instructors] is
    [_get_course_instructors_single] for it. Without one, a failure of
    [get_enrolled_courses] ends it with the same error; otherwise every
    instructor it returns carries under [course] the [id], [name] and
    [courseId] of one of the enrolled courses. *)
Theorem get_course_instructors_tagged (py : python) (c : client) (course_id : json)
    (w : world) :
  if truthy course_id
  then get_course_instructors py c course_id w = _get_course_instructors_single py c course_id w
  else
    match get_enrolled_courses py c w with
    | (Raise e, w1) => get_course_instructors py c course_id w = (Raise e, w1)
    | (Ok courses, w1) =>
        forall all_instructors w',
          get_course_instructors py c course_id w = (Ok all_instructors, w') ->
          Forall (tagged_with courses) all_instructors
    end.
Proof.
  unfold get_course_instructors. destruct (truthy course_id); [reflexivity|].
  destruct (get_enrolled_courses py c w) as [[courses|e] w1] eqn:Hc;
    [|unfold bind at 1; now rewrite Hc].
  intros all_instructors w' Hrun. unfold bind at 1 in Hrun. rewrite Hc in Hrun.
  apply (for_each_invariant_in (Forall (tagged_with courses))) in Hrun; [exact Hrun| |constructor].
  intros acc course w0 acc' w0' Hin Hacc.
  apply (tagging_round (_get_course_instructors_single py c)); assumption.
Qed.

(** X22: with a course id, [get_attendance] is [_get_course_attendance] for
    it. Without one, a failure of [get_enrolled_courses] ends it with the same
    error; otherwise every record it returns carries under [course] the [id],
    [name] and [courseId] of one of the enrolled courses. *)
Theorem get_attendance_tagged (py : python) (c : client) (course_id : json) (w : world) :
  if truthy course_id
  then get_attendance py c course_id w = _get_course_attendance py c course_id w
  else
    match get_enrolled_courses py c w with
    | (Raise e, w1) => get_attendance py c course_id w = (Raise e, w1)
    | (Ok courses, w1) =>
        forall all_attendance w',
          get_attendance py c course_id w = (Ok all_attendance, w') ->
          Forall (tagged_with courses) all_attendance
    end.
Proof.
  unfold get_attendance. destruct (truthy course_id); [reflexivity|].
  destruct (get_enrolled_courses py c w) as [[courses|e] w1] eqn:Hc;
    [|unfold bind at 1; now rewrite Hc].
  intros all_attendance w' Hrun. unfold bind at 1 in Hrun. rewrite Hc in Hrun.
  apply (for_each_invariant_in (Forall (tagged_with courses))) in Hrun; [exact Hrun| |constructor].
  intros acc course w0 acc' w0' Hin Hacc.
  apply (tagging_round (_get_course_attendance py c)); assumption.
Qed.

(** ** The cache [generate_id_file] installs *)

Lemma filter_all_skipped {A} (skip : A -> bool) (l : list A) :
  Forall (fun x => skip x = true) l -> filter (fun x => skip x = false) l = [].
Proof.
  induction 1 as [|x l Hx _ IH]; [reflexivity|].
  rewrite filter_cons. case_decide; [congruence | exact IH].
Qed.

(** A cache whose courses all lack an [internal_id] gives no assignment and
    no statistics, and costs no request. *)
Lemma inert_cache py c d courses :
  cached_data c = JObj d -> dict_get "courses" d = Some (JArr courses) ->
  Forall (fun course => lacks_internal_id course = true) courses ->
  forall w,
    get_assignments py c w = (Ok [], w)
    /\ get_assignment_stats py c w
       = (Ok ([], {| oa_totals := Some {| at_total := 0; at_on_time := 0; at_late := 0;
                                          at_missed := 0; at_available := 0 |};
                     oa_on_time_rate := 0 |}), w)
    /\ get_attendance_percentage py c w
       = (Ok ([], {| ov_counts := Some (0, 0, 0); ov_percentage := 0 |}), w).
Proof.
  intros Hc Hd Hall w. destruct (cached_courses_iter c d courses Hc Hd) as [Ht Hg].
  split; [|split].
  - unfold get_assignments. rewrite Ht. cbn [negb]. unfold bind at 1, lift at 1. rewrite Hg.
    unfold bind at 1, lift at 1. cbn [py_iter]. unfold get_assignments_over.
    rewrite (for_each_skip _ lacks_internal_id) by (intros; now apply course_assignments_skip).
    now rewrite filter_all_skipped.
  - unfold get_assignment_stats. rewrite Ht. cbn [negb]. unfold bind at 1, lift at 1. rewrite Hg.
    unfold bind at 1, lift at 1. cbn [py_iter]. unfold get_assignment_stats_over, bind.
    rewrite (for_each_skip _ lacks_internal_id) by (intros; now apply course_stats_round_skip).
    rewrite filter_all_skipped by assumption. cbn [for_each]. unfold ret.
    do 3 f_equal.
  - unfold get_attendance_percentage. rewrite Ht. cbn [negb]. unfold bind at 1, lift at 1.
    rewrite Hg. unfold bind at 1, lift at 1. cbn [py_iter].
    unfold get_attendance_percentage_over, bind.
    rewrite (for_each_skip _ lacks_internal_id) by (intros; now apply course_attendance_skip).
    rewrite filter_all_skipped by assumption. cbn [for_each]. unfold ret.
    do 3 f_equal.
Qed.

Lemma keeps_files_get_enrolled_courses py c : keeps_files (get_enrolled_courses py c).
Proof. unfold get_enrolled_courses, enrolled_course. files_auto. Qed.

Lemma keeps_files_instructors_single py c course_id :
  keeps_files (_get_course_instructors_single py c course_id).
Proof. unfold _get_course_instructors_single, course_instructor. files_auto. Qed.

Lemma keeps_files_get_course_instructors py c course_id :
  keeps_files (get_course_instructors py c course_id).
Proof.
  unfold get_course_instructors, tag_with_course.
  repeat first [ apply keeps_files_instructors_single
               | apply keeps_files_get_enrolled_courses
               | files_step ].
Qed.

Lemma generate_id_file_effect (py : python) (c c' : client) (session : list cookie)
    (username password : json) (path : string) (w w' : world) :
  generate_id_file py c session username password path w = (Ok c', w') ->
  exists user_data w1 courses w2 user d,
    get_current_user c w = (Ok user_data, w1)
    /\ get_enrolled_courses py c w1 = (Ok courses, w2)
    /\ cached_data c'
       = JObj [("user", user); ("courses", JArr courses);
               ("credentials",
                if truthy username
                then JObj [("username", username); ("password", password)]
                else JNull)]
    /\ domain c' = domain c /\ user_id c' = user_id c /\ id_path c' = id_path c
    /\ fs w' path = Content (JObj d)
    /\ dict_get "user" d = Some user
    /\ dict_get "cookies" d = Some (cookies_json session)
    /\ (forall p, p <> path -> fs w' p = fs w p).
Proof.
  unfold generate_id_file, bind at 1.
  destruct (get_current_user c w) as [[user_data|] w1] eqn:H1; [|discriminate].
  unfold bind at 1.
  destruct (get_enrolled_courses py c w1) as [[courses|] w2] eqn:H2; [|discriminate].
  unfold bind at 1.
  destruct (get_course_instructors py c JNull w2) as [[instructors|] w3] eqn:H3; [|discriminate].
  unfold bind at 1.
  destruct (save_id_file py path session user_data courses instructors username password w3)
    as [[[]|] w4] eqn:H4; [|discriminate].
  unfold bind, lift.
  destruct (generated_cache py user_data courses username password) as [cached|] eqn:H5;
    [|discriminate].
  unfold ret. intros [= <- <-].
  assert (Hfs : fs w3 = fs w).
  { pose proof (keeps_files_get_course_instructors py c JNull w2) as K3.
    pose proof (keeps_files_get_enrolled_courses py c w1) as K2.
    pose proof (keeps_files_get c "/users/me" ∅ w) as K1.
    unfold get_current_user in H1. rewrite H1 in K1. rewrite H2 in K2. rewrite H3 in K3.
    cbn [snd] in *. congruence. }
  unfold save_id_file, bind, lift in H4.
  destruct (id_data_of py session user_data courses instructors username password)
    as [id_data|] eqn:Hid; [|discriminate].
  unfold dump_json in H4. injection H4 as <-.
  unfold id_data_of, obind in Hid. unfold generated_cache, class_of, obind in H5.
  destruct (py_get user_data "name" (JObj [])) as [name_obj|]; [|discriminate].
  destruct (person_name py name_obj) as [full_name|]; [|discriminate].
  destruct (py_get user_data "userName" (JStr "")) as [api_name|]; [|discriminate].
  destruct (py_get user_data "contact" (JObj [])) as [contact|]; [|discriminate].
  destruct (py_get contact "email" (JStr "")) as [email|]; [|discriminate].
  match type of H5 with
  | match ?class with _ => _ end = _ => destruct class as [class_name|]; [|discriminate]
  end.
  injection H5 as <-.
  destruct (build_instructor_lookup py instructors []) as [lookup|]; [|discriminate].
  destruct (build_courses_data py courses lookup) as [courses_data|]; [|discriminate].
  destruct (credentials_of py api_name password) as [credentials|]; [|discriminate].
  assert (Hshown : (if truthy api_name then Ok api_name else Ok api_name) = Ok api_name)
    by now destruct (truthy api_name).
  rewrite Hshown in Hid. injection Hid as <-.
  exists user_data, w1, courses, w2. eexists. eexists.
  split; [reflexivity|]. split; [exact H2|]. split; [reflexivity|].
  split; [reflexivity|]. split; [reflexivity|]. split; [reflexivity|].
  cbn [fs]. rewrite String.eqb_refl. split; [reflexivity|]. split; [|split].
  - now destruct (negb (truthy credentials)).
  - now destruct (negb (truthy credentials)).
  - intros p Hp. destruct (String.eqb_spec p path); [contradiction|]. now rewrite Hfs.
Qed.

(** X23: when [generate_id_file] succeeds, the file at the path given holds
    what [save_id_file] wrote and no other file has changed; the client keeps
    its domain, user id and cache path, and its new cached data are the same
    [user] entry as in the file, the credentials as the client holds them (null
    without a username), and as [courses] the enrolled courses as the server
    gave them, not the records written to the file. So when none of these
    carries an [internal_id], the new client finds no assignment without
    sending a request, and [is_nerd] and [is_attending] return False on it. *)
Theorem generate_id_file_cache (py : python) (c c' : client) (session : list cookie)
    (username password : json) (path : string) (w w' : world) :
  generate_id_file py c session username password path w = (Ok c', w') ->
  exists user_data w1 courses w2 user d,
    get_current_user c w = (Ok user_data, w1)
    /\ get_enrolled_courses py c w1 = (Ok courses, w2)
    /\ cached_data c'
       = JObj [("user", user); ("courses", JArr courses);
               ("credentials",
                if truthy username
                then JObj [("username", username); ("password", password)]
                else JNull)]
    /\ domain c' = domain c /\ user_id c' = user_id c /\ id_path c' = id_path c
    /\ fs w' path = Content (JObj d)
    /\ dict_get "user" d = Some user
    /\ (forall p, p <> path -> fs w' p = fs w p)
    /\ (Forall (fun course => lacks_internal_id course = true) courses ->
        forall w0,
          get_assignments py c' w0 = (Ok [], w0)
          /\ (is_nerd py c' w0).1 = Ok false
          /\ (is_attending py c' w0).1 = Ok false).
Proof.
  intros Hrun.
  destruct (generate_id_file_effect _ _ _ _ _ _ _ _ _ Hrun)
    as (user_data & w1 & courses & w2 & user & d & H1 & H2 & Hc & Hd & Hu & Hp & Hf & Huser
        & _ & Hother).
  exists user_data, w1, courses, w2, user, d.
  split; [exact H1|]. split; [exact H2|]. split; [exact Hc|]. split; [exact Hd|].
  split; [exact Hu|]. split; [exact Hp|]. split; [exact Hf|]. split; [exact Huser|].
  split; [exact Hother|].
  intros Hall w0.
  destruct (inert_cache py c' _ courses Hc eq_refl Hall w0) as (Ha & Hs & Ht).
  split; [exact Ha|]. split.
  - unfold is_nerd, bind at 1. rewrite Hs. cbn [snd oa_on_time_rate]. unfold bind.
    destruct (update_id_flags_ok c' "isNerd" (PrimFloat.ltb 0x1.ccccccccccccdp-2 0)
                "on_time_rate" 0 w0) as [wf Hw].
    rewrite Hw. reflexivity.
  - unfold is_attending, bind at 1. rewrite Ht. cbn [snd ov_percentage]. unfold bind.
    destruct (update_id_flags_ok c' "isAttending" (PrimFloat.ltb 60 0)
                "attendance_percentage" 0 w0) as [wf Hw].
    rewrite Hw. reflexivity.
Qed.

Lemma generate_id_file_cache_witness :
  exists c' w',
    generate_id_file demo_py demo_client demo_session (JStr "amine.bensalah") (JStr "s3cret")
      "amine.id" (demo_world demo_first_login) = (Ok c', w')
    /\ (is_nerd demo_py c' w').1 = Ok false.
Proof.
  destruct (generate_id_file demo_py demo_client demo_session (JStr "amine.bensalah")
              (JStr "s3cret") "amine.id" (demo_world demo_first_login))
    as [[c'|e] w'] eqn:Hrun; [|vm_compute in Hrun; discriminate Hrun].
  destruct (generate_id_file_cache _ _ _ _ _ _ _ _ _ Hrun)
    as (user_data & w1 & courses & w2 & user & d & H1 & H2 & _ & _ & _ & _ & _ & _ & _ & Hinert).
  exists c', w'. split; [reflexivity|].
  apply Hinert. vm_compute in H1. injection H1 as <- <-.
  vm_compute in H2. injection H2 as <- _.
  repeat constructor.
Defined.

(** ** Logging in again *)

Lemma _validate_auth_ok c w c1 w1 :
  _validate_auth c w = (Ok c1, w1) ->
  exists id, c1 = with_user_id c id /\ fs w1 = fs w.
Proof.
  unfold _validate_auth, bind at 1.
  pose proof (keeps_files_get c "/users/me" ∅ w) as K.
  destruct (_get c "/users/me" ∅ w) as [[user_data|e] w0]; cbn [snd] in K.
  - unfold bind, lift, ret. destruct (py_get user_data "id" JNull) as [id|e].
    + intros [= <- <-]. eauto.
    + destruct e; try discriminate.
      match goal with |- context [is_401 ?s] => destruct (is_401 s) end; discriminate.
  - destruct e; try discriminate.
    match goal with |- context [is_401 ?s] => destruct (is_401 s) end; discriminate.
Qed.

Lemma truthy_path_Some path p : truthy_path path = Some p -> path = Some p /\ p <> "".
Proof.
  destruct path as [q|]; [|discriminate]. cbn.
  destruct (String.eqb_spec q ""); cbn; [discriminate|]. now intros [= <-].
Qed.

Lemma id_suffix_nonempty s : s +:+ ".id" <> "".
Proof. destruct s; discriminate. Qed.

Lemma except_pass_ok body w : (except_pass body w).1 = Ok tt.
Proof. unfold except_pass. now destruct (body w) as [[[]|e] w']. Qed.

(** The two flag updates on a client whose cached courses all lack an
    [internal_id]. *)
Lemma flags_of_inert_cache py c path dd courses d w :
  id_path c = Some path -> path <> "" ->
  cached_data c = JObj dd -> dict_get "courses" dd = Some (JArr courses) ->
  Forall (fun course => lacks_internal_id course = true) courses ->
  fs w path = Content (JObj d) ->
  exists d',
    fs (except_pass (is_nerd py c ;; is_attending py c ;; ret tt) w).2 path = Content (JObj d')
    /\ dict_get "isNerd" d' = Some (JBool false)
    /\ dict_get "on_time_rate" d' = Some (JFloat 0)
    /\ dict_get "isAttending" d' = Some (JBool false)
    /\ dict_get "attendance_percentage" d' = Some (JFloat 0)
    /\ (forall k, k <> "isNerd" -> k <> "on_time_rate" -> k <> "isAttending" ->
                  k <> "attendance_percentage" -> dict_get k d' = dict_get k d).
Proof.
  intros Hp Hne Hc Hd Hall Hf.
  pose proof (inert_cache py c dd courses Hc Hd Hall) as Hinert.
  destruct (Hinert w) as (_ & Hs & _).
  destruct (update_id_flags_effect c path "isNerd" (PrimFloat.ltb 0x1.ccccccccccccdp-2 0)
              "on_time_rate" 0 w Hp Hne) as (w1 & Hn & _ & _ & _ & Hf1).
  rewrite Hf in Hf1.
  destruct (Hinert w1) as (_ & _ & Ht).
  destruct (update_id_flags_effect c path "isAttending" (PrimFloat.ltb 60 0)
              "attendance_percentage" 0 w1 Hp Hne) as (w2 & Ha & _ & _ & _ & Hf2).
  rewrite Hf1 in Hf2.
  assert (Hrun : except_pass (is_nerd py c ;; is_attending py c ;; ret tt) w = (Ok tt, w2)).
  { unfold except_pass, bind at 1, is_nerd, bind at 1. rewrite Hs.
    cbn [snd oa_on_time_rate]. unfold bind at 1. rewrite Hn. unfold ret at 1.
    unfold bind at 1, is_attending, bind at 1. rewrite Ht.
    cbn [snd ov_percentage]. unfold bind at 1. rewrite Ha. reflexivity. }
  rewrite Hrun. cbn [snd]. eexists. split; [exact Hf2|].
  split; [|split; [|split; [|split]]].
  - rewrite !dict_get_set_ne by discriminate. apply dict_get_set_eq.
  - rewrite !dict_get_set_ne by discriminate. apply dict_get_set_eq.
  - rewrite dict_get_set_ne by discriminate. apply dict_get_set_eq.
  - apply dict_get_set_eq.
  - intros k H1 H2 H3 H4. now rewrite !dict_get_set_ne.
Qed.

Lemma only_keys_change_same path keys w w' : fs w' = fs w -> only_keys_change path keys w w'.
Proof.
  intros H. split; [intros; now rewrite H|]. rewrite H.
  destruct (fs w path) as [| |[| | | | | |d]]; try reflexivity. eauto.
Qed.

Lemma only_keys_change_trans path keys1 keys2 w w1 w2 :
  only_keys_change path keys1 w w1 -> only_keys_change path keys2 w1 w2 ->
  only_keys_change path (keys1 ++ keys2) w w2.
Proof.
  intros [Ho1 Hf1] [Ho2 Hf2]. split.
  - intros p Hp. now rewrite Ho2, Ho1.
  - destruct (fs w path) as [| |[| | | | | |d]]; try (now rewrite Hf1 in Hf2).
    destruct Hf1 as (d1 & Hd1 & Hk1). rewrite Hd1 in Hf2.
    destruct Hf2 as (d2 & Hd2 & Hk2). exists d2. split; [exact Hd2|].
    intros k Hk. rewrite Hk2, Hk1; [reflexivity| |]; intros Hin; apply Hk, in_or_app; auto.
Qed.

Lemma update_id_flags_frame c path flag value field number w :
  id_path c = Some path -> path <> "" ->
  only_keys_change path [flag; field] w (update_id_flags c flag value field number w).2.
Proof.
  intros Hp Hne.
  destruct (update_id_flags_effect c path flag value field number w Hp Hne)
    as (w2 & -> & _ & _ & Hother & Hfile). cbn [snd].
  split; [exact Hother|]. rewrite Hfile.
  destruct (fs w path) as [| |[| | | | | |d]]; try reflexivity.
  eexists. split; [reflexivity|]. intros k Hk.
  rewrite !dict_get_set_ne; [reflexivity| |]; intros ->; apply Hk; cbn; auto.
Qed.

Lemma is_nerd_frame py c path w :
  id_path c = Some path -> path <> "" ->
  only_keys_change path ["isNerd"; "on_time_rate"] w (is_nerd py c w).2.
Proof.
  intros Hp Hne. unfold is_nerd, bind at 1.
  pose proof (keeps_files_get_assignment_stats py c w) as K.
  destruct (get_assignment_stats py c w) as [[stats|e] w1]; cbn [snd] in *.
  - unfold bind.
    pose proof (update_id_flags_frame c path "isNerd"
                  (PrimFloat.ltb 0x1.ccccccccccccdp-2 (oa_on_time_rate stats.2))
                  "on_time_rate" (oa_on_time_rate stats.2) w1 Hp Hne) as F.
    destruct (update_id_flags c _ _ _ _ w1) as [[[]|e] w2]; cbn [snd] in *;
      apply (only_keys_change_trans path [] _ w w1 w2);
      solve [now apply only_keys_change_same | exact F].
  - now apply only_keys_change_same.
Qed.

Lemma is_attending_frame py c path w :
  id_path c = Some path -> path <> "" ->
  only_keys_change path ["isAttending"; "attendance_percentage"] w (is_attending py c w).2.
Proof.
  intros Hp Hne. unfold is_attending, bind at 1.
  pose proof (keeps_files_get_attendance_percentage py c w) as K.
  destruct (get_attendance_percentage py c w) as [[stats|e] w1]; cbn [snd] in *.
  - unfold bind.
    pose proof (update_id_flags_frame c path "isAttending"
                  (PrimFloat.ltb 60 (ov_percentage stats.2))
                  "attendance_percentage" (ov_percentage stats.2) w1 Hp Hne) as F.
    destruct (update_id_flags c _ _ _ _ w1) as [[[]|e] w2]; cbn [snd] in *;
      apply (only_keys_change_trans path [] _ w w1 w2);
      solve [now apply only_keys_change_same | exact F].
  - now apply only_keys_change_same.
Qed.

Lemma stats_update_frame py c path w :
  id_path c = Some path -> path <> "" ->
  only_keys_change path ["isNerd"; "on_time_rate"; "isAttending"; "attendance_percentage"] w
    (except_pass (is_nerd py c ;; is_attending py c ;; ret tt) w).2.
Proof.
  intros Hp Hne. unfold except_pass, bind at 1.
  pose proof (is_nerd_frame py c path w Hp Hne) as F1.
  destruct (is_nerd py c w) as [[b|e] w1]; cbn [snd] in *.
  - unfold bind.
    pose proof (is_attending_frame py c path w1 Hp Hne) as F2.
    destruct (is_attending py c w1) as [[b'|e] w2]; cbn [snd] in *;
      exact (only_keys_change_trans path _ _ w w1 w2 F1 F2).
  - apply (only_keys_change_trans path _ ["isAttending"; "attendance_percentage"] w w1 w1 F1).
    now apply only_keys_change_same.
Qed.

(** X24: a first login, that is [_refresh_authentication] on a client with
    no cache file, validates the new session, fetches the user and the enrolled
    courses, and writes the file at the client's path, or named
    "<username>.id" when it has none; no other file changes. This path becomes
    the client's cache path, the file holds the cookies of the new session and
    the [user] entry the client caches, and the client's cached courses are the
    enrolled courses as the server gave them in this login. When none of these
    carries an [internal_id], the flags stored in the new file are [isNerd]
    false with [on_time_rate] 0.0 and [isAttending] false with
    [attendance_percentage] 0.0, whatever the server holds about the student. *)
Theorem first_login_flags (py : python)
    (login_with_selenium : json -> json -> string -> M (list cookie))
    (c c' : client) (username password : json) (session : list cookie) (w w0 w' : world) :
  login_with_selenium username password (domain c) w = (Ok session, w0) ->
  no_id_file (id_path c) w0 ->
  _refresh_authentication py login_with_selenium c username password w = (Ok c', w') ->
  let path := first_login_path py c username in
  exists c1 w1 user_data w2 courses w3 user d,
    _validate_auth c w0 = (Ok c1, w1)
    /\ get_current_user c1 w1 = (Ok user_data, w2)
    /\ get_enrolled_courses py c1 w2 = (Ok courses, w3)
    /\ id_path c' = Some path
    /\ cached_data c'
       = JObj [("user", user); ("courses", JArr courses);
               ("credentials", JObj [("username", username); ("password", password)])]
    /\ fs w' path = Content (JObj d)
    /\ dict_get "cookies" d = Some (cookies_json session)
    /\ dict_get "user" d = Some user
    /\ (forall p, p <> path -> fs w' p = fs w0 p)
    /\ (Forall (fun course => lacks_internal_id course = true) courses ->
        dict_get "isNerd" d = Some (JBool false)
        /\ dict_get "on_time_rate" d = Some (JFloat 0)
        /\ dict_get "isAttending" d = Some (JBool false)
        /\ dict_get "attendance_percentage" d = Some (JFloat 0)).
Proof.
  intros Hlogin Hno Hrun. cbn zeta. unfold _refresh_authentication in Hrun.
  destruct (negb (truthy username) || negb (truthy password)) eqn:Hcred; [discriminate|].
  apply orb_false_elim in Hcred as [Hu _]. apply negb_false_iff in Hu.
  unfold bind at 1 in Hrun. rewrite Hlogin in Hrun.
  unfold bind at 1 in Hrun. destruct (_validate_auth c w0) as [[c1|] w1] eqn:Hv; [|discriminate].
  destruct (_validate_auth_ok _ _ _ _ Hv) as (uid & -> & Hfs1).
  unfold bind at 1 in Hrun. cbn [id_path with_user_id] in Hrun.
  assert (Hhas : has_id_file (id_path c) w1 = (Ok false, w1)).
  { unfold has_id_file, no_id_file in *.
    destruct (truthy_path (id_path c)); [|reflexivity].
    unfold path_exists. now rewrite Hfs1, Hno. }
  rewrite Hhas in Hrun. unfold bind at 1 in Hrun.
  assert (Hgen : exists c2 c3 w2,
             generate_id_file py (with_user_id c uid) session username password
               (first_login_path py c username) w1 = (Ok c2, w2)
             /\ id_path c3 = Some (first_login_path py c username)
             /\ cached_data c3 = cached_data c2
             /\ first_login_path py c username <> ""
             /\ c' = c3
             /\ w' = (except_pass (is_nerd py c3 ;; is_attending py c3 ;; ret tt) w2).2).
  { unfold first_login_path.
    destruct (truthy_path (id_path c)) as [p|] eqn:Hp; cbn [default from_option id].
    - destruct (generate_id_file py _ session username password p w1) as [[c2|] w2] eqn:Hg;
        [|discriminate].
      destruct (generate_id_file_effect _ _ _ _ _ _ _ _ _ Hg)
        as (_ & _ & _ & _ & _ & _ & _ & _ & _ & _ & _ & Hip & _).
      apply truthy_path_Some in Hp as [Hp Hne].
      exists c2, c2, w2. split; [reflexivity|]. split; [now rewrite Hip|].
      split; [reflexivity|]. split; [exact Hne|].
      unfold bind in Hrun.
      pose proof (except_pass_ok (is_nerd py c2;; is_attending py c2;; ret tt) w2) as Hx.
      destruct (except_pass _ w2) as [[[]|] wx]; [|discriminate Hx].
      unfold ret in Hrun. now injection Hrun as <- <-.
    - rewrite Hu in Hrun. unfold bind at 1 in Hrun.
      destruct (generate_id_file py _ session username password _ w1) as [[c2|] w2] eqn:Hg;
        [|discriminate].
      exists c2, (with_id_path c2 (Some (py_str py username +:+ ".id"))), w2.
      split; [reflexivity|]. split; [reflexivity|]. split; [reflexivity|].
      split; [apply id_suffix_nonempty|].
      unfold ret at 1 in Hrun. unfold bind in Hrun.
      pose proof (except_pass_ok
                    (is_nerd py (with_id_path c2 (Some (py_str py username +:+ ".id")));;
                     is_attending py (with_id_path c2 (Some (py_str py username +:+ ".id")));;
                     ret tt) w2) as Hx.
      destruct (except_pass _ w2) as [[[]|] wx]; [|discriminate Hx].
      unfold ret in Hrun. now injection Hrun as <- <-. }
  destruct Hgen as (c2 & c3 & w2 & Hg & Hip & Hcd & Hne & -> & ->).
  destruct (generate_id_file_effect _ _ _ _ _ _ _ _ _ Hg)
    as (user_data & wa & courses & wb & user & d0 & H1 & H2 & Hc & _ & _ & _ & Hf & Huser
        & Hck & Hother).
  rewrite Hu in Hc.
  destruct (stats_update_frame py c3 (first_login_path py c username) w2 Hip Hne)
    as [Hothers Hfile].
  rewrite Hf in Hfile. destruct Hfile as (d & Hd & Hkeep).
  exists (with_user_id c uid), w1, user_data, wa, courses, wb, user, d.
  split; [reflexivity|]. split; [exact H1|]. split; [exact H2|]. split; [exact Hip|].
  split; [rewrite Hcd; exact Hc|]. split; [exact Hd|].
  split; [rewrite Hkeep by (cbn; intuition discriminate); exact Hck|].
  split; [rewrite Hkeep by (cbn; intuition discriminate); exact Huser|].
  split; [intros p Hp; now rewrite Hothers, Hother, Hfs1|].
  intros Hall.
  destruct (flags_of_inert_cache py c3 _ _ courses d0 w2 Hip Hne
              ltac:(rewrite Hcd; exact Hc) eq_refl Hall Hf)
    as (d' & Hf' & Hflags).
  rewrite Hd in Hf'. injection Hf' as <-.
  destruct Hflags as (F1 & F2 & F3 & F4 & _). auto.
Qed.

Lemma first_login_flags_witness :
  exists c' w' d,
    _refresh_authentication demo_py demo_login demo_client (JStr "amine.bensalah")
      (JStr "s3cret") (demo_world (demo_reply (demo_user "amine.bensalah") :: demo_first_login))
    = (Ok c', w')
    /\ id_path c' = Some "amine.bensalah.id"
    /\ fs w' "amine.bensalah.id" = Content (JObj d)
    /\ dict_get "cookies" d = Some (cookies_json demo_session)
    /\ dict_get "isNerd" d = Some (JBool false)
    /\ dict_get "on_time_rate" d = Some (JFloat 0).
Proof.
  destruct (_refresh_authentication demo_py demo_login demo_client (JStr "amine.bensalah")
              (JStr "s3cret")
              (demo_world (demo_reply (demo_user "amine.bensalah") :: demo_first_login)))
    as [[c'|e] w'] eqn:Hrun; [|vm_compute in Hrun; discriminate Hrun].
  destruct (first_login_flags demo_py demo_login demo_client c' (JStr "amine.bensalah")
              (JStr "s3cret") demo_session _ _ w' eq_refl I Hrun)
    as (c1 & w1 & user_data & w2 & courses & w3 & user & d & Hv & H1 & H2 & Hip & Hc & Hf
        & Hck & _ & _ & Hflags).
  assert (Hall : Forall (fun course => lacks_internal_id course = true) courses).
  { vm_compute in Hrun. injection Hrun as <- _. injection Hc as _ <-.
    repeat constructor. }
  destruct (Hflags Hall) as (Hn & Hr & _).
  exists c', w', d. split; [reflexivity|]. split; [exact Hip|]. split; [exact Hf|].
  split; [exact Hck|]. split; [exact Hn | exact Hr].
Defined.

(** X25: [_refresh_authentication] on a client whose cache file holds an
    object puts the cookies of the new session and the time into the file and
    may set the four flags; every other entry of the file stays as it was, no
    other file is touched, and the file is not generated anew. The client keeps
    its cache path and gets as cached data what the file held before the login:
    [generated_at], [user], [courses] and [credentials]. *)
Theorem refresh_keeps_file_data (py : python)
    (login_with_selenium : json -> json -> string -> M (list cookie))
    (c c' : client) (username password : json) (session : list cookie) (path : string)
    (d : list (string * json)) (w w0 w' : world) :
  login_with_selenium username password (domain c) w = (Ok session, w0) ->
  id_path c = Some path -> path <> "" ->
  fs w0 path = Content (JObj d) ->
  _refresh_authentication py login_with_selenium c username password w = (Ok c', w') ->
  exists d',
    cached_data_of (JObj d) = Ok (cached_data c')
    /\ id_path c' = Some path
    /\ domain c' = domain c
    /\ fs w' path = Content (JObj d')
    /\ dict_get "cookies" d' = Some (cookies_json session)
    /\ dict_get "updated_at" d' = Some (JStr (now_iso py))
    /\ (forall k,
          ~ In k ["cookies"; "updated_at"; "isNerd"; "on_time_rate"; "isAttending";
                  "attendance_percentage"] ->
          dict_get k d' = dict_get k d)
    /\ (forall p, p <> path -> fs w' p = fs w0 p).
Proof.
  intros Hlogin Hp Hne Hf Hrun. unfold _refresh_authentication in Hrun.
  destruct (negb (truthy username) || negb (truthy password)); [discriminate|].
  unfold bind at 1 in Hrun. rewrite Hlogin in Hrun.
  unfold bind at 1 in Hrun. destruct (_validate_auth c w0) as [[c1|] w1] eqn:Hv; [|discriminate].
  destruct (_validate_auth_ok _ _ _ _ Hv) as (uid & -> & Hfs1).
  unfold bind at 1 in Hrun. cbn [id_path with_user_id] in Hrun.
  assert (Hhas : has_id_file (id_path c) w1 = (Ok true, w1)).
  { unfold has_id_file. rewrite Hp. cbn [truthy_path].
    destruct (String.eqb_spec path ""); [contradiction|]. cbn [negb].
    unfold path_exists. now rewrite Hfs1, Hf. }
  rewrite Hhas, Hp in Hrun. unfold bind at 1 2 in Hrun.
  assert (Hf1 : fs w1 path = Content (JObj d)) by now rewrite Hfs1.
  assert (Hup : exists w2,
             update_id_file_cookies py path session w1 = (Ok tt, w2)
             /\ fs w2 path = Content (JObj (dict_set "updated_at" (JStr (now_iso py))
                                              (dict_set "cookies" (cookies_json session) d)))
             /\ (forall p, p <> path -> fs w2 p = fs w1 p)).
  { eexists. split; [|split].
    - unfold update_id_file_cookies, except_file, bind, load_json, lift. rewrite Hf1. reflexivity.
    - cbn [fs]. now rewrite String.eqb_refl.
    - intros p Hpp. cbn [fs]. destruct (String.eqb_spec p path); [contradiction | reflexivity]. }
  destruct Hup as (w2 & Hup & Hf2 & Ho2). rewrite Hup in Hrun.
  unfold bind at 1 in Hrun. rewrite (load_id_file_run _ _ _ Hf2) in Hrun.
  rewrite dict_get_set_ne, dict_get_set_eq in Hrun by discriminate.
  cbn [default from_option] in Hrun. unfold id in Hrun.
  destruct (stored_cookies (cookies_json session)) as [calls|]; [|discriminate Hrun].
  cbn [obind] in Hrun.
  rewrite !cached_data_of_set in Hrun by discriminate.
  destruct (cached_data_of (JObj d)) as [cached|] eqn:Hc; [|discriminate Hrun].
  cbn [obind snd] in Hrun. unfold ret at 1 in Hrun.
  set (c3 := with_cached_data (with_user_id c uid) cached) in Hrun.
  pose proof (stats_update_frame py c3 path w2 Hp Hne) as [Ho3 Hf3].
  unfold bind in Hrun. pose proof (except_pass_ok (is_nerd py c3;; is_attending py c3;; ret tt) w2) as Hx.
  destruct (except_pass _ w2) as [[[]|] w3]; [|discriminate Hx].
  unfold ret in Hrun. injection Hrun as <- <-. cbn [snd] in *.
  rewrite Hf2 in Hf3. destruct Hf3 as (d' & Hd' & Hk).
  exists d'. split; [reflexivity|]. split; [exact Hp|]. split; [reflexivity|].
  split; [exact Hd'|]. split; [|split; [|split]].
  - rewrite Hk by (cbn; intuition discriminate).
    rewrite dict_get_set_ne by discriminate. apply dict_get_set_eq.
  - rewrite Hk by (cbn; intuition discriminate). apply dict_get_set_eq.
  - intros k Hnot. rewrite Hk by (intros Hin; apply Hnot; cbn in *; intuition).
    rewrite !dict_get_set_ne; [reflexivity| |]; intros ->; apply Hnot; cbn; auto.
  - intros p Hpp. now rewrite Ho3, Ho2, Hfs1.
Qed.

Lemma refresh_keeps_file_data_witness :
  exists c' w' d',
    _refresh_authentication demo_py demo_login demo_disk_client (JStr "amine.bensalah")
      (JStr "s3cret")
      (demo_disk_world [demo_reply (demo_user "amine.bensalah");
                        demo_columns; demo_grade; demo_content]) = (Ok c', w')
    /\ fs w' "amine.id" = Content (JObj d')
    /\ dict_get "cookies" d' = Some (cookies_json demo_session)
    /\ dict_get "courses" d' = dict_get "courses" demo_id_data.
Proof.
  destruct (_refresh_authentication demo_py demo_login demo_disk_client (JStr "amine.bensalah")
              (JStr "s3cret")
              (demo_disk_world [demo_reply (demo_user "amine.bensalah");
                                demo_columns; demo_grade; demo_content]))
    as [[c'|e] w'] eqn:Hrun; [|vm_compute in Hrun; discriminate Hrun].
  destruct (refresh_keeps_file_data demo_py demo_login demo_disk_client c'
              (JStr "amine.bensalah") (JStr "s3cret") demo_session "amine.id" demo_id_data
              (demo_disk_world [demo_reply (demo_user "amine.bensalah");
                                demo_columns; demo_grade; demo_content])
              (demo_disk_world [demo_reply (demo_user "amine.bensalah");
                                demo_columns; demo_grade; demo_content])
              w' eq_refl eq_refl ltac:(discriminate) eq_refl Hrun)
    as (d' & _ & _ & _ & Hf & Hck & _ & Hk & _).
  exists c', w', d'. split; [reflexivity|]. split; [exact Hf|]. split; [exact Hck|].
  apply Hk. cbn. intuition discriminate.
Defined.

(** ** Building the client *)

Lemma has_id_file_true path w :
  path <> "" -> fs w path <> Missing -> has_id_file (Some path) w = (Ok true, w).
Proof.
  intros Hne Hf. unfold has_id_file. cbn [truthy_path].
  destruct (String.eqb_spec path ""); [contradiction|]. cbn [negb]. unfold path_exists.
  now destruct (fs w path).
Qed.

Lemma load_ok_exists path w loaded w1 :
  load_id_file path w = (Ok loaded, w1) -> fs w path <> Missing.
Proof.
  unfold load_id_file, except_file, bind, load_json. intros H Hm. rewrite Hm in H. discriminate H.
Qed.

(** [__init__] up to the validation of the stored session. *)
Lemma init_until_validation py login path username password domain auto_refresh
    session cached u p w :
  path <> "" ->
  load_id_file path w = (Ok (session, cached), w) ->
  effective_credentials cached username password = Ok (u, p) ->
  __init__ py login (Some path) username password domain auto_refresh w
  = match _validate_auth (loaded_client domain path cached) w with
    | (Raise (BBAuthError e), w') =>
        if auto_refresh && truthy u && truthy p then
          (c <- _refresh_authentication py login (loaded_client domain path cached) u p ;;
           ret (c, (u, p))) w'
        else (Raise (BBAuthError (auth_failed_message e path u p)), w')
    | (Raise e, w') => (Raise e, w')
    | (Ok c, w') => (Ok (c, (u, p)), w')
    end.
Proof.
  intros Hne Hload Hcred. unfold __init__, bind at 1.
  rewrite (has_id_file_true path w Hne (load_ok_exists _ _ _ _ Hload)).
  unfold bind at 1. rewrite Hload. cbn [snd with_cached_data cached_data].
  unfold bind at 1, lift at 1. rewrite Hcred. reflexivity.
Qed.

(** X26: with a cache file that loads and a server that answers [/users/me]
    with status 200 and an object, [__init__] sends this one request, writes no
    file and does not log in: whatever the browser login would do and whether
    or not [auto_refresh] is set, the client has the domain given, the path, the
    cached data of the file and the user id the server gave, and the
    credentials are those given or, when no username is given, those of the
    file. *)
Theorem init_with_valid_session (py : python)
    (login_with_selenium : json -> json -> string -> M (list cookie))
    (path : string) (username password : json) (domain : string) (auto_refresh : bool)
    (session : list set_cookie) (cached u p : json) (r : reply) (user : list (string * json))
    (w : world) :
  path <> "" ->
  load_id_file path w = (Ok (session, cached), w) ->
  effective_credentials cached username password = Ok (u, p) ->
  next_reply w = Response r -> status_code r = 200%Z -> body r = JObj user ->
  __init__ py login_with_selenium (Some path) username password domain auto_refresh w
  = (Ok ({| domain := domain; user_id := default JNull (dict_get "id" user);
            cached_data := cached; id_path := Some path |}, (u, p)),
     after_request w (v1_url (loaded_client domain path cached) "/users/me") ∅).
Proof.
  intros Hne Hload Hcred Hreply Hstatus Hbody.
  rewrite (init_until_validation py login_with_selenium path username password domain
             auto_refresh session cached u p w Hne Hload Hcred).
  unfold _validate_auth, bind at 1. rewrite _get_run.
  unfold next_reply in Hreply. destruct (script w) as [|t rest]; [discriminate|].
  subst t. rewrite Hstatus. cbn [Z.eqb Pos.eqb]. unfold bind, lift, ret. rewrite Hbody.
  cbn [py_get]. reflexivity.
Qed.

Lemma init_with_valid_session_witness :
  exists c,
    (__init__ demo_py demo_login (Some "amine.id") JNull JNull "https://esprit.blackboard.com"
       true (demo_disk_world [demo_reply (demo_user "amine.bensalah")])).1
    = Ok (c, (JStr "AMINE.BENSALAH", JStr "s3cret"))
    /\ user_id c = JStr "_7_1".
Proof.
  eexists. split.
  - rewrite (init_with_valid_session demo_py demo_login "amine.id" JNull JNull
               "https://esprit.blackboard.com" true _ _ (JStr "AMINE.BENSALAH") (JStr "s3cret")
               {| status_code := 200; body := demo_user "amine.bensalah"; text := "" |} _
               (demo_disk_world [demo_reply (demo_user "amine.bensalah")])
               ltac:(discriminate) eq_refl eq_refl eq_refl eq_refl eq_refl).
    reflexivity.
  - reflexivity.
Defined.

(** X27: [__init__] gives up without logging in, and without writing a
    file, in two cases. With no cache file (no path, or nothing at the path) and
    no username or no password it raises the [BBAuthError] "Must provide either
    id_path or username/password for authentication" and sends nothing. With a
    cache file whose session the server refuses, and [auto_refresh] off or no
    username or no password (given, or stored in the file when no username is
    given), it raises a [BBAuthError] whose message is "Authentication failed: "
    followed by the reason and the advice, after the one validation request. *)
Theorem init_refused (py : python)
    (login_with_selenium : json -> json -> string -> M (list cookie))
    (id_path : option string) (username password : json) (domain : string)
    (auto_refresh : bool) (w : world) :
  (no_id_file id_path w ->
   truthy username && truthy password = false ->
   __init__ py login_with_selenium id_path username password domain auto_refresh w
   = (Raise (BBAuthError "Must provide either id_path or username/password for authentication"),
      w))
  /\ (forall path session cached u p e w1,
        id_path = Some path -> path <> "" ->
        load_id_file path w = (Ok (session, cached), w) ->
        effective_credentials cached username password = Ok (u, p) ->
        auto_refresh && truthy u && truthy p = false ->
        _validate_auth (loaded_client domain path cached) w = (Raise (BBAuthError e), w1) ->
        __init__ py login_with_selenium id_path username password domain auto_refresh w
        = (Raise (BBAuthError (auth_failed_message e path u p)), w1)
          /\ fs w1 = fs w
          /\ sent w1
             = sent w ++ [request_to (v1_url (loaded_client domain path cached) "/users/me") ∅]).
Proof.
  split.
  - intros Hno Hcred. unfold __init__, bind at 1.
    assert (Hhas : has_id_file id_path w = (Ok false, w)).
    { unfold has_id_file, no_id_file in *. destruct (truthy_path id_path); [|reflexivity].
      unfold path_exists. now rewrite Hno. }
    rewrite Hhas, Hcred. reflexivity.
  - intros path session cached u p e w1 -> Hne Hload Hcred Hoff Hv.
    rewrite (init_until_validation py login_with_selenium path username password domain
               auto_refresh session cached u p w Hne Hload Hcred).
    rewrite Hv, Hoff. split; [reflexivity|].
    unfold _validate_auth, bind at 1 in Hv. rewrite _get_run in Hv.
    assert (Hw1 : w1 = after_request w (v1_url (loaded_client domain path cached) "/users/me") ∅).
    { destruct (script w) as [|[r|err] rest]; cbn [is_401] in Hv.
      - now injection Hv.
      - destruct (status_code r =? 200)%Z.
        + unfold bind, lift, ret in Hv. destruct (body r); now injection Hv.
        + cbn [is_401] in Hv. destruct (status_code r =? 401)%Z; now injection Hv.
      - now injection Hv. }
    rewrite Hw1. split; reflexivity.
Qed.

Lemma init_refused_witness :
  __init__ demo_py demo_login (Some "amine.id") JNull JNull "https://esprit.blackboard.com"
    false (demo_disk_world [unauthorized])
  = (Raise (BBAuthError
              (auth_failed_message "Cookie has expired or is invalid (401 Unauthorized)"
                 "amine.id" (JStr "AMINE.BENSALAH") (JStr "s3cret"))),
     after_request (demo_disk_world [unauthorized])
       "https://esprit.blackboard.com/learn/api/public/v1/users/me" ∅).
Proof.
  exact (proj1 (proj2 (init_refused demo_py demo_login (Some "amine.id") JNull JNull
                         "https://esprit.blackboard.com" false (demo_disk_world [unauthorized]))
                 "amine.id" _ _ (JStr "AMINE.BENSALAH") (JStr "s3cret") _ _
                 eq_refl ltac:(discriminate) eq_refl eq_refl eq_refl eq_refl)).
Defined.

Lemma loaded_cache_shape path w session cached w1 :
  load_id_file path w = (Ok (session, cached), w1) ->
  exists generated_at user courses credentials,
    cached = JObj [("generated_at", generated_at); ("user", user);
                   ("courses", courses); ("credentials", credentials)].
Proof.
  unfold load_id_file, except_file, bind at 1.
  destruct (load_json path w) as [[id_data|e] w0]; [|destruct e; discriminate].
  unfold bind at 1, lift at 1.
  destruct id_data as [| | | | | |d]; cbn [py_get]; try discriminate.
  unfold bind at 1, lift at 1.
  destruct (stored_cookies _) as [calls|e]; [|destruct e; discriminate].
  unfold bind, lift, ret. cbn [cached_data_of py_get obind]. intros [= _ <- _]. eauto.
Qed.

(** X28: which credentials [__init__] uses when the server refuses the
    session stored in the cache file. A username given without a password
    makes it give up with the "Authentication failed" error and no login,
    whatever credentials the file stores and whether or not [auto_refresh] is
    set. With no username given, [auto_refresh] set and a username and a
    password stored in the file, it logs in again with the stored pair, even
    when a password was given, and the client ends up with that pair. *)
Theorem init_stored_credentials (py : python)
    (login_with_selenium : json -> json -> string -> M (list cookie))
    (path : string) (username password : json) (domain : string) (auto_refresh : bool)
    (session : list set_cookie) (cached : json) (e : string) (w w1 : world) :
  path <> "" ->
  load_id_file path w = (Ok (session, cached), w) ->
  _validate_auth (loaded_client domain path cached) w = (Raise (BBAuthError e), w1) ->
  (truthy username = true -> truthy password = false ->
   __init__ py login_with_selenium (Some path) username password domain auto_refresh w
   = (Raise (BBAuthError (auth_failed_message e path username password)), w1))
  /\ (truthy username = false -> auto_refresh = true ->
      forall stored,
        py_get cached "credentials" JNull = Ok (JObj stored) ->
        let stored_username := default JNull (dict_get "username" stored) in
        let stored_password := default JNull (dict_get "password" stored) in
        truthy stored_username = true -> truthy stored_password = true ->
        __init__ py login_with_selenium (Some path) username password domain auto_refresh w
        = (c <- _refresh_authentication py login_with_selenium
                  (loaded_client domain path cached) stored_username stored_password ;;
           ret (c, (stored_username, stored_password))) w1).
Proof.
  intros Hne Hload Hv.
  destruct (loaded_cache_shape _ _ _ _ _ Hload) as (ga & user & courses & credentials & Hc).
  split.
  - intros Hu Hp.
    assert (Hcred : effective_credentials cached username password = Ok (username, password)).
    { subst cached. unfold effective_credentials. cbn [py_get dict_get String.eqb Ascii.eqb
        Bool.eqb obind]. rewrite Hu. cbn [negb]. now rewrite andb_false_r. }
    rewrite (init_until_validation py login_with_selenium path username password domain
               auto_refresh session cached username password w Hne Hload Hcred).
    rewrite Hv, Hu, Hp. now rewrite andb_false_r.
  - intros Hu -> stored Hstored. cbn zeta. intros Hsu Hsp.
    assert (Hcred : effective_credentials cached username password
                    = Ok (default JNull (dict_get "username" stored),
                          default JNull (dict_get "password" stored))).
    { unfold effective_credentials. rewrite Hstored. cbn [obind]. rewrite Hu. cbn [negb].
      assert (Ht : truthy (JObj stored) = true).
      { destruct stored; [discriminate Hsu | reflexivity]. }
      rewrite Ht. reflexivity. }
    rewrite (init_until_validation py login_with_selenium path username password domain
               true session cached _ _ w Hne Hload Hcred).
    rewrite Hv, Hsu, Hsp. reflexivity.
Qed.

Lemma init_stored_credentials_witness :
  __init__ demo_py demo_login (Some "amine.id") (JStr "amine.bensalah") JNull
    "https://esprit.blackboard.com" true (demo_disk_world [unauthorized])
  = (Raise (BBAuthError
              (auth_failed_message "Cookie has expired or is invalid (401 Unauthorized)"
                 "amine.id" (JStr "amine.bensalah") JNull)),
     after_request (demo_disk_world [unauthorized])
       "https://esprit.blackboard.com/learn/api/public/v1/users/me" ∅).
Proof.
  exact (proj1 (init_stored_credentials demo_py demo_login "amine.id" (JStr "amine.bensalah")
                  JNull "https://esprit.blackboard.com" true _ _ _
                  (demo_disk_world [unauthorized]) _
                  ltac:(discriminate) eq_refl eq_refl) eq_refl eq_refl).
Defined.
